(** * lpc-dec: the LPC cycle decoder of [lpc-dec.c], embedded and verified

    The decoder of [lpc-dec.c] is a C state machine over one mutable
    [LPCDEC] structure.  It is embedded here by explicit state passing:
    every C function that mutates [*pLpcDec] becomes a function from the
    structure to the new structure, paired with the lines it prints.
    An access to [aenmState] outside its nine slots has no defined
    behaviour in C; the embedding makes it a failure ([None]), so that
    "the function returns a state" also says "no access left the array".

    Fixed-width integers are [Z] with the wrap-around written out
    ([u8], [u32]).  A shift is the mathematical shift of [Z]; where the C
    shift would leave the range of [int] the result is truncated by the
    assignment that follows, as compilers do.  The invariant proved below
    shows that a running decoder shifts an address nibble by at most 28 bits
    and a data nibble by 0 or 4 bits.

    Everything the decoder prints is collected in a list of [Output]
    values, so that "emits a decoded cycle" is a statement about that
    list.

    The buffered file reader and the sample loop of [main] are embedded
    the same way, over the list of bytes of the capture file; an access
    outside the reader's buffer is a failure as well. *)

From Stdlib Require Import ZArith Lia List Bool String.
From stdpp Require Import base option list.
Import ListNotations.
Local Open Scope Z_scope.

(** ** Integer conventions of the C source *)

Definition u8 (x : Z) : Z := x mod 256.
Definition u32 (x : Z) : Z := x mod 2 ^ 32.

(** A C scalar used as a condition. *)
Definition c_true (x : Z) : bool := negb (x =? 0).
(** The [int] value of a C comparison or of [!]. *)
Definition c_int (b : bool) : Z := if b then 1 else 0.
(** [!!x] *)
Definition c_notnot (x : Z) : Z := c_int (c_true x).

(** ** Defined constants and macros *)

Definition LPC_DEC_START_TARGET_CYCLE : Z := 0.
Definition LPC_DEC_START_RSVD : Z := 1.
Definition LPC_DEC_START_BUSMASTER_GRANT_0 : Z := 2.
Definition LPC_DEC_START_BUSMASTER_GRANT_1 : Z := 3.
Definition LPC_DEC_START_ABORT : Z := 15.

Definition LPC_DEC_CYC_TYPE_IO : Z := 0.
Definition LPC_DEC_CYC_TYPE_MEM : Z := 1.
Definition LPC_DEC_CYC_TYPE_DMA : Z := 2.
Definition LPC_DEC_CYC_TYPE_RSVD : Z := 3.

(** [(((a_Lad) & 0xc) >> 2)] *)
Definition LPC_DEC_CYC_TYPE_GET (a_Lad : Z) : Z :=
  Z.shiftr (Z.land a_Lad 12) 2.

Definition LPC_DEC_CYC_DIR_READ : Z := 0.
Definition LPC_DEC_CYC_DIR_WRITE : Z := 1.

(** [(((a_Lad) & 0x2) == LPC_DEC_CYC_DIR_READ)] *)
Definition LPC_DEC_CYC_DIR_IS_READ (a_Lad : Z) : bool :=
  Z.land a_Lad 2 =? LPC_DEC_CYC_DIR_READ.

(** ** Structures *)

(** [enum LPCDECSTATE].  A slot of uninitialised memory can hold a value
    that is no enumerator; both switches and both comparisons of the decoder
    treat such a value as they treat [LPCDECSTATE_INVALID] and
    [LPCDECSTATE_32BIT_HACK], which stand for it. *)
Inductive LPCDECSTATE : Type :=
  | LPCDECSTATE_INVALID
  | LPCDECSTATE_LFRAME_WAIT_ASSERTED
  | LPCDECSTATE_START
  | LPCDECSTATE_ADDR
  | LPCDECSTATE_DATA
  | LPCDECSTATE_TAR
  | LPCDECSTATE_SYNC
  | LPCDECSTATE_32BIT_HACK.

#[global] Instance LPCDECSTATE_eq_dec : EqDecision LPCDECSTATE.
Proof. solve_decision. Defined.

(** Number of slots of [aenmState]. *)
Definition AENMSTATE_SLOTS : Z := 9.

(** [struct LPCDEC]; [aenmState] is the nine-slot array. *)
Record LPCDEC : Type := mkLPCDEC {
  u8BitLClk : Z;
  u8BitLFrame : Z;
  u8BitLad0 : Z;
  u8BitLad1 : Z;
  u8BitLad2 : Z;
  u8BitLad3 : Z;
  idxState : Z;
  aenmState : list LPCDECSTATE;
  uSeqNoCycle : Z;
  fClkLast : Z;
  bStartLast : Z;
  bTyp : Z;
  fWrite : Z;
  cAddrCycles : Z;
  cDataCycles : Z;
  iDataCycle : Z;
  cTarCycles : Z;
  u32Addr : Z;
  bData : Z
}.

(** Field assignments [pLpcDec->f = v]. *)
Definition set_idxState (v : Z) (d : LPCDEC) : LPCDEC :=
  let 'mkLPCDEC clk frm l0 l1 l2 l3 _ arr seq last start typ wr ca cd id ct addr data := d in
  mkLPCDEC clk frm l0 l1 l2 l3 v arr seq last start typ wr ca cd id ct addr data.
Definition set_aenmState (v : list LPCDECSTATE) (d : LPCDEC) : LPCDEC :=
  let 'mkLPCDEC clk frm l0 l1 l2 l3 idx _ seq last start typ wr ca cd id ct addr data := d in
  mkLPCDEC clk frm l0 l1 l2 l3 idx v seq last start typ wr ca cd id ct addr data.
Definition set_uSeqNoCycle (v : Z) (d : LPCDEC) : LPCDEC :=
  let 'mkLPCDEC clk frm l0 l1 l2 l3 idx arr _ last start typ wr ca cd id ct addr data := d in
  mkLPCDEC clk frm l0 l1 l2 l3 idx arr v last start typ wr ca cd id ct addr data.
Definition set_fClkLast (v : Z) (d : LPCDEC) : LPCDEC :=
  let 'mkLPCDEC clk frm l0 l1 l2 l3 idx arr seq _ start typ wr ca cd id ct addr data := d in
  mkLPCDEC clk frm l0 l1 l2 l3 idx arr seq v start typ wr ca cd id ct addr data.
Definition set_bStartLast (v : Z) (d : LPCDEC) : LPCDEC :=
  let 'mkLPCDEC clk frm l0 l1 l2 l3 idx arr seq last _ typ wr ca cd id ct addr data := d in
  mkLPCDEC clk frm l0 l1 l2 l3 idx arr seq last v typ wr ca cd id ct addr data.
Definition set_bTyp (v : Z) (d : LPCDEC) : LPCDEC :=
  let 'mkLPCDEC clk frm l0 l1 l2 l3 idx arr seq last start _ wr ca cd id ct addr data := d in
  mkLPCDEC clk frm l0 l1 l2 l3 idx arr seq last start v wr ca cd id ct addr data.
Definition set_fWrite (v : Z) (d : LPCDEC) : LPCDEC :=
  let 'mkLPCDEC clk frm l0 l1 l2 l3 idx arr seq last start typ _ ca cd id ct addr data := d in
  mkLPCDEC clk frm l0 l1 l2 l3 idx arr seq last start typ v ca cd id ct addr data.
Definition set_cAddrCycles (v : Z) (d : LPCDEC) : LPCDEC :=
  let 'mkLPCDEC clk frm l0 l1 l2 l3 idx arr seq last start typ wr _ cd id ct addr data := d in
  mkLPCDEC clk frm l0 l1 l2 l3 idx arr seq last start typ wr v cd id ct addr data.
Definition set_cDataCycles (v : Z) (d : LPCDEC) : LPCDEC :=
  let 'mkLPCDEC clk frm l0 l1 l2 l3 idx arr seq last start typ wr ca _ id ct addr data := d in
  mkLPCDEC clk frm l0 l1 l2 l3 idx arr seq last start typ wr ca v id ct addr data.
Definition set_iDataCycle (v : Z) (d : LPCDEC) : LPCDEC :=
  let 'mkLPCDEC clk frm l0 l1 l2 l3 idx arr seq last start typ wr ca cd _ ct addr data := d in
  mkLPCDEC clk frm l0 l1 l2 l3 idx arr seq last start typ wr ca cd v ct addr data.
Definition set_cTarCycles (v : Z) (d : LPCDEC) : LPCDEC :=
  let 'mkLPCDEC clk frm l0 l1 l2 l3 idx arr seq last start typ wr ca cd id _ addr data := d in
  mkLPCDEC clk frm l0 l1 l2 l3 idx arr seq last start typ wr ca cd id v addr data.
Definition set_u32Addr (v : Z) (d : LPCDEC) : LPCDEC :=
  let 'mkLPCDEC clk frm l0 l1 l2 l3 idx arr seq last start typ wr ca cd id ct _ data := d in
  mkLPCDEC clk frm l0 l1 l2 l3 idx arr seq last start typ wr ca cd id ct v data.
Definition set_bData (v : Z) (d : LPCDEC) : LPCDEC :=
  let 'mkLPCDEC clk frm l0 l1 l2 l3 idx arr seq last start typ wr ca cd id ct addr _ := d in
  mkLPCDEC clk frm l0 l1 l2 l3 idx arr seq last start typ wr ca cd id ct addr v.

(** ** Array accesses

    [aenmState[i]] with [i] an unsigned index: inside the nine slots the
    access reads or writes the slot, outside it is undefined in C and a
    failure here. *)
Definition aenmState_read (d : LPCDEC) (i : Z) : option LPCDECSTATE :=
  if (0 <=? i) && (i <? AENMSTATE_SLOTS) then aenmState d !! Z.to_nat i else None.

Definition aenmState_write (d : LPCDEC) (i : Z) (s : LPCDECSTATE) : option LPCDEC :=
  if (0 <=? i) && (i <? AENMSTATE_SLOTS)
  then Some (set_aenmState (<[Z.to_nat i := s]> (aenmState d)) d)
  else None.

(** ** What the decoder prints

    [lpcDecStateDump] prints one line per decoded cycle; the other
    [printf] calls of the decoder are diagnostics. *)
Record DumpLine : Type := mkDumpLine {
  dl_seq : Z;                          (* uSeqNoCycle *)
  dl_typ : string;                     (* pszTyp *)
  dl_dir : string;                     (* pszDir *)
  dl_addr : Z;                         (* u32Addr *)
  dl_data : Z;                         (* bData *)
  dl_chain : option (list LPCDECSTATE);(* the state chain, in verbose mode *)
  dl_abort : bool                      (* the <ABORT> marker *)
}.

Inductive Output : Type :=
  | OutWaitWhat                          (* "Wait WHAT?" *)
  | OutCycle (l : DumpLine)              (* the line of lpcDecStateDump *)
  | OutIllegalType (typ : Z)             (* "Encountered ILLEGAL/unsupported cycle type: %#x" *)
  | OutUnknownState (s : LPCDECSTATE).   (* "Unknown state %u" *)

(** The decoded-cycle lines among the printed output. *)
Definition cycles (out : list Output) : list DumpLine :=
  omap (fun o => match o with OutCycle l => Some l | _ => None end) out.

Section Decoder.

(** [static uint8_t g_fVerbose]: set once from the command line. *)
Variable g_fVerbose : Z.

(** ** [lpcDecStateReset] *)
Definition lpcDecStateReset (d : LPCDEC) : LPCDEC :=
  let d := set_idxState 0 d in
  let d := set_u32Addr 0 d in
  let d := set_bData 0 d in
  let d := set_iDataCycle 0 d in
  (* aenmState[idxState] with idxState == 0: always inside the array *)
  set_aenmState (<[Z.to_nat (idxState d) := LPCDECSTATE_LFRAME_WAIT_ASSERTED]> (aenmState d)) d.

(** ** [lpcDecStateInit]

    The structure is an uninitialised local of [main]; [d] stands for
    whatever the memory held. *)
Definition lpcDecStateInit (d : LPCDEC)
    (u8BitClk u8BitLFrame' u8BitLad0' u8BitLad1' u8BitLad2' u8BitLad3' : Z) : LPCDEC :=
  let d := mkLPCDEC u8BitClk u8BitLFrame' u8BitLad0' u8BitLad1' u8BitLad2' u8BitLad3'
             (idxState d) (aenmState d) (uSeqNoCycle d) (fClkLast d) (bStartLast d)
             (bTyp d) (fWrite d) (cAddrCycles d) (cDataCycles d) (iDataCycle d)
             (cTarCycles d) (u32Addr d) (bData d) in
  let d := set_fClkLast 0 d in
  lpcDecStateReset d.

(** [!!(bSample & (1 << bit))]: the level of one signal in a sample.  The
    pin numbers are bit positions of a byte, 0 to 7. *)
Definition sample_level (bSample bit : Z) : Z :=
  c_notnot (Z.land bSample (Z.shiftl 1 bit)).

(** ** [lpcDecStateLadExtractFromSample]

    [sample_bit] is one operand, [(bSample & (1 << bit)) >> bit]. *)
Definition sample_bit (bSample bit : Z) : Z :=
  Z.shiftr (Z.land bSample (Z.shiftl 1 bit)) bit.

Definition lpcDecStateLadExtractFromSample (d : LPCDEC) (bSample : Z) : Z :=
  u8 (Z.lor (Z.lor (Z.lor
        (sample_bit bSample (u8BitLad0 d))
        (Z.shiftl (sample_bit bSample (u8BitLad1 d)) 1))
        (Z.shiftl (sample_bit bSample (u8BitLad2 d)) 2))
        (Z.shiftl (sample_bit bSample (u8BitLad3 d)) 3)).

(** ** [lpcDecStateDump]

    In verbose mode the loop reads [aenmState[0 .. idxState]]. *)
Definition pszTyp_of (typ : Z) : string * list Output :=
  if typ =? LPC_DEC_CYC_TYPE_IO then ("I/O"%string, [])
  else if typ =? LPC_DEC_CYC_TYPE_MEM then ("Mem"%string, [])
  else if typ =? LPC_DEC_CYC_TYPE_DMA then ("DMA"%string, [])
  else if typ =? LPC_DEC_CYC_TYPE_RSVD then ("RESERVED"%string, [])
  else ("<INVALID>"%string, [OutWaitWhat]).

Definition state_chain (d : LPCDEC) : option (list LPCDECSTATE) :=
  mapM (aenmState_read d) (seqZ 0 (idxState d + 1)).

Definition lpcDecStateDump (d : LPCDEC) (fAbort : Z) : option (list Output) :=
  let pszDir := if c_true (fWrite d) then "Write"%string else "Read "%string in
  let '(pszTyp, warn) := pszTyp_of (bTyp d) in
  chain ← (if c_true g_fVerbose then Some <$> state_chain d else Some None);
  Some (warn ++ [OutCycle (mkDumpLine (uSeqNoCycle d) pszTyp pszDir (u32Addr d) (bData d)
                             chain (c_true fAbort))]).

(** ** [lpcDecStateSet] *)
Definition lpcDecStateSet (d : LPCDEC) (enmState : LPCDECSTATE) : option LPCDEC :=
  let d := set_idxState (u32 (idxState d + 1)) d in
  aenmState_write d (idxState d) enmState.

(** ** [lpcDecStateSampleAdvance] *)
Definition lpcDecStateSampleAdvance (d : LPCDEC) : option (LPCDEC * list Output) :=
  s ← aenmState_read d (idxState d);
  match s with
  | LPCDECSTATE_LFRAME_WAIT_ASSERTED => Some (d, [])
  | LPCDECSTATE_ADDR =>
      if c_true (fWrite d)
      then d ← lpcDecStateSet d LPCDECSTATE_DATA; Some (set_cDataCycles 2 d, [])
      else d ← lpcDecStateSet d LPCDECSTATE_TAR; Some (set_cTarCycles 2 d, [])
  | LPCDECSTATE_DATA =>
      d ← lpcDecStateSet d LPCDECSTATE_TAR; Some (set_cTarCycles 2 d, [])
  | LPCDECSTATE_TAR =>
      prev ← aenmState_read d (u32 (idxState d - 1));
      if c_true (fWrite d)
      then
        if decide (prev = LPCDECSTATE_DATA)
        then d ← lpcDecStateSet d LPCDECSTATE_SYNC; Some (d, [])
        else out ← lpcDecStateDump d 0; Some (lpcDecStateReset d, out)
      else
        if decide (prev = LPCDECSTATE_ADDR)
        then d ← lpcDecStateSet d LPCDECSTATE_SYNC; Some (d, [])
        else out ← lpcDecStateDump d 0; Some (lpcDecStateReset d, out)
  | LPCDECSTATE_SYNC =>
      if c_true (fWrite d)
      then d ← lpcDecStateSet d LPCDECSTATE_TAR; Some (set_cTarCycles 2 d, [])
      else d ← lpcDecStateSet d LPCDECSTATE_DATA; Some (set_cDataCycles 2 d, [])
  | _ => Some (d, [OutUnknownState s])
  end.

(** ** [lpcDecStateStartDecode] *)
Definition lpcDecStateStartDecode (d : LPCDEC) (bLad : Z) : option (LPCDEC * list Output) :=
  if bStartLast d =? LPC_DEC_START_TARGET_CYCLE then
    let d := set_bTyp (LPC_DEC_CYC_TYPE_GET bLad) d in
    let d := set_fWrite (c_int (negb (LPC_DEC_CYC_DIR_IS_READ bLad))) d in
    let d := set_u32Addr 0 d in
    d ← lpcDecStateSet d LPCDECSTATE_ADDR;
    if bTyp d =? LPC_DEC_CYC_TYPE_IO then Some (set_cAddrCycles 4 d, [])
    else if bTyp d =? LPC_DEC_CYC_TYPE_MEM then Some (set_cAddrCycles 8 d, [])
    else Some (lpcDecStateReset d, [OutIllegalType (bTyp d)])
  else if bStartLast d =? LPC_DEC_START_ABORT then Some (lpcDecStateReset d, [])
  else Some (d, []).

(** ** [lpcDecStateAddrDecode] *)
Definition lpcDecStateAddrDecode (d : LPCDEC) (bLad : Z) : option (LPCDEC * list Output) :=
  let d := set_cAddrCycles (u8 (cAddrCycles d - 1)) d in
  let d := set_u32Addr (u32 (Z.lor (u32Addr d) (Z.shiftl bLad (cAddrCycles d * 4)))) d in
  if negb (c_true (cAddrCycles d)) then lpcDecStateSampleAdvance d else Some (d, []).

(** ** [lpcDecStateDataDecode] *)
Definition lpcDecStateDataDecode (d : LPCDEC) (bLad : Z) : option (LPCDEC * list Output) :=
  let d := set_bData (u8 (Z.lor (bData d) (Z.shiftl bLad (iDataCycle d * 4)))) d in
  let d := set_iDataCycle (u8 (iDataCycle d + 1)) d in
  if iDataCycle d =? cDataCycles d then lpcDecStateSampleAdvance d else Some (d, []).

(** ** [lpcDecStateTarDecode] *)
Definition lpcDecStateTarDecode (d : LPCDEC) (bLad : Z) : option (LPCDEC * list Output) :=
  let d := set_cTarCycles (u8 (cTarCycles d - 1)) d in
  if negb (c_true (cTarCycles d)) then lpcDecStateSampleAdvance d else Some (d, []).

(** ** [lpcDecStateSyncDecode] *)
Definition lpcDecStateSyncDecode (d : LPCDEC) (bLad : Z) : option (LPCDEC * list Output) :=
  if bLad =? 0 then lpcDecStateSampleAdvance d else Some (d, []).

(** ** [lpcDecStateSampleProcess]

    The body run on a falling edge, then the function itself, which
    returns the status code with the new state. *)
Definition falling_edge (d : LPCDEC) (uSeqNo bSample : Z) : option (LPCDEC * list Output) :=
  let fLFrame := sample_level bSample (u8BitLFrame d) in
  let bLad := lpcDecStateLadExtractFromSample d bSample in
  if negb (c_true fLFrame) then
    s ← aenmState_read d (idxState d);
    out ← (if negb (bool_decide (s = LPCDECSTATE_LFRAME_WAIT_ASSERTED))
              && negb (bool_decide (s = LPCDECSTATE_START))
           then lpcDecStateDump d 1 else Some []);
    let d := set_bStartLast bLad d in
    let d := set_uSeqNoCycle uSeqNo d in
    let d := lpcDecStateReset d in
    d ← lpcDecStateSet d LPCDECSTATE_START;
    Some (d, out)
  else
    s ← aenmState_read d (idxState d);
    match s with
    | LPCDECSTATE_LFRAME_WAIT_ASSERTED => Some (d, [])
    | LPCDECSTATE_START => lpcDecStateStartDecode d bLad
    | LPCDECSTATE_ADDR => lpcDecStateAddrDecode d bLad
    | LPCDECSTATE_DATA => lpcDecStateDataDecode d bLad
    | LPCDECSTATE_TAR => lpcDecStateTarDecode d bLad
    | LPCDECSTATE_SYNC => lpcDecStateSyncDecode d bLad
    | _ => Some (d, [OutUnknownState s])
    end.

Definition lpcDecStateSampleProcess (d : LPCDEC) (uSeqNo bSample : Z)
    : option (Z * LPCDEC * list Output) :=
  let fClk := sample_level bSample (u8BitLClk d) in
  if fClk =? fClkLast d then Some (0, d, [])
  else
    '(d, out) ← (if c_true (fClkLast d) && negb (c_true fClk)
                 then falling_edge d uSeqNo bSample
                 else Some (d, []));
    Some (0, set_fClkLast fClk d, out).

(** ** The sample loop of [main]

    [while (!eos && !rc)]: one [(uSeqNo, bVal)] pair per iteration. *)
Fixpoint main_loop (d : LPCDEC) (samples : list (Z * Z)) : option (LPCDEC * list Output) :=
  match samples with
  | [] => Some (d, [])
  | (uSeqNo, bVal) :: rest =>
      '(rc, d, out) ← lpcDecStateSampleProcess d uSeqNo bVal;
      if rc =? 0
      then '(d, out') ← main_loop d rest; Some (d, out ++ out')
      else Some (d, out)
  end.

End Decoder.

(** * Vocabulary of the properties

    Nothing below this line is part of the decoder: these definitions name
    what the theorems talk about. *)

(** ** Observations on a decoder state *)

(** The array has its nine slots. *)
Definition wf (d : LPCDEC) : Prop := length (aenmState d) = 9%nat.

(** The current phase, [aenmState[idxState]]. *)
Definition cur_phase (d : LPCDEC) : option LPCDECSTATE :=
  aenmState_read d (idxState d).

(** The phases gone through since the last reset, [aenmState[0 .. idxState]]. *)
Definition phase_history (d : LPCDEC) : list LPCDECSTATE :=
  take (S (Z.to_nat (idxState d))) (aenmState d).

(** Every field that [lpcDecStateReset] must leave alone. *)
Definition same_config (d d' : LPCDEC) : Prop :=
  u8BitLClk d' = u8BitLClk d /\ u8BitLFrame d' = u8BitLFrame d /\
  u8BitLad0 d' = u8BitLad0 d /\ u8BitLad1 d' = u8BitLad1 d /\
  u8BitLad2 d' = u8BitLad2 d /\ u8BitLad3 d' = u8BitLad3 d.

(** The six phases the two switches know. *)
Definition known_phase (s : LPCDECSTATE) : bool :=
  match s with
  | LPCDECSTATE_LFRAME_WAIT_ASSERTED | LPCDECSTATE_START | LPCDECSTATE_ADDR
  | LPCDECSTATE_DATA | LPCDECSTATE_TAR | LPCDECSTATE_SYNC => true
  | _ => false
  end.

(** A sample is a falling edge for [d]: the stored level is high and the
    sampled one low. *)
Definition is_falling (d : LPCDEC) (bSample : Z) : Prop :=
  c_true (fClkLast d) = true /\ sample_level bSample (u8BitLClk d) = 0.

(** The state after a push that stays inside the array. *)
Definition pushed (d : LPCDEC) (s : LPCDECSTATE) : LPCDEC :=
  set_aenmState (<[Z.to_nat (idxState d + 1) := s]> (aenmState d))
    (set_idxState (idxState d + 1) d).

(** The line [lpcDecStateDump] prints for [d]. *)
Definition dump_line (v : Z) (d : LPCDEC) (fAbort : Z) : DumpLine :=
  mkDumpLine (uSeqNoCycle d) (fst (pszTyp_of (bTyp d)))
    (if c_true (fWrite d) then "Write"%string else "Read "%string)
    (u32Addr d) (bData d)
    (if c_true v then Some (phase_history d) else None)
    (c_true fAbort).

(** The phase-advancement table as the specification words it: the next
    phase with the nibble count it is entered with, or the end of the
    cycle. *)
Inductive advance_action : Type :=
  | GoTo (p : LPCDECSTATE) (nibbles : option Z)
  | CompleteCycle.

Definition phase_table (cur prev : LPCDECSTATE) (write : bool) : option advance_action :=
  match cur with
  | LPCDECSTATE_ADDR =>
      Some (if write then GoTo LPCDECSTATE_DATA (Some 2) else GoTo LPCDECSTATE_TAR (Some 2))
  | LPCDECSTATE_DATA => Some (GoTo LPCDECSTATE_TAR (Some 2))
  | LPCDECSTATE_TAR =>
      match prev, write with
      | LPCDECSTATE_DATA, true => Some (GoTo LPCDECSTATE_SYNC None)
      | LPCDECSTATE_ADDR, false => Some (GoTo LPCDECSTATE_SYNC None)
      | _, _ => Some CompleteCycle
      end
  | LPCDECSTATE_SYNC =>
      Some (if write then GoTo LPCDECSTATE_TAR (Some 2) else GoTo LPCDECSTATE_DATA (Some 2))
  | _ => None
  end.

(** The counter a phase is entered with. *)
Definition entered_with (d : LPCDEC) (p : LPCDECSTATE) (nibbles : option Z) : Prop :=
  match nibbles, p with
  | None, _ => True
  | Some n, LPCDECSTATE_DATA => cDataCycles d = n
  | Some n, LPCDECSTATE_TAR => cTarCycles d = n
  | Some _, _ => False
  end.

(** The phase before the current one, [aenmState[idxState - 1]]. *)
Definition prev_phase (d : LPCDEC) : option LPCDECSTATE :=
  aenmState_read d (u32 (idxState d - 1)).

(** Idle with zeroed accumulators: the state [lpcDecStateReset] leaves. *)
Definition idle_and_zeroed (d : LPCDEC) : Prop :=
  cur_phase d = Some LPCDECSTATE_LFRAME_WAIT_ASSERTED /\
  phase_history d = [LPCDECSTATE_LFRAME_WAIT_ASSERTED] /\
  u32Addr d = 0 /\ bData d = 0 /\ iDataCycle d = 0.

(** In START of a new cycle with zeroed accumulators: the state after a
    reset followed by the push of START. *)
Definition started_and_zeroed (d : LPCDEC) : Prop :=
  cur_phase d = Some LPCDECSTATE_START /\
  phase_history d = [LPCDECSTATE_LFRAME_WAIT_ASSERTED; LPCDECSTATE_START] /\
  u32Addr d = 0 /\ bData d = 0 /\ iDataCycle d = 0.

(** ** The invariant of the state machine

    The phases of one whole cycle, by direction: a write puts the data
    before the first turnaround, a read after the sync. *)
Definition cycle_phases (write : bool) : list LPCDECSTATE :=
  if write
  then [LPCDECSTATE_LFRAME_WAIT_ASSERTED; LPCDECSTATE_START; LPCDECSTATE_ADDR;
        LPCDECSTATE_DATA; LPCDECSTATE_TAR; LPCDECSTATE_SYNC; LPCDECSTATE_TAR]
  else [LPCDECSTATE_LFRAME_WAIT_ASSERTED; LPCDECSTATE_START; LPCDECSTATE_ADDR;
        LPCDECSTATE_TAR; LPCDECSTATE_SYNC; LPCDECSTATE_DATA; LPCDECSTATE_TAR].

(** The history is a beginning of the cycle of the current direction, and
    the data accumulator is untouched until the data phase. *)
Definition Shape (d : LPCDEC) : Prop :=
  wf d /\
  0 <= idxState d <= 6 /\
  phase_history d = take (S (Z.to_nat (idxState d))) (cycle_phases (c_true (fWrite d))) /\
  (~ In LPCDECSTATE_DATA (phase_history d) -> iDataCycle d = 0 /\ bData d = 0).

(** The counters of the phase in progress. *)
Definition Counters (d : LPCDEC) : Prop :=
  match cur_phase d with
  | Some LPCDECSTATE_ADDR => 1 <= cAddrCycles d <= 8
  | Some LPCDECSTATE_DATA =>
      cDataCycles d = 2 /\
      ((iDataCycle d = 0 /\ bData d = 0) \/ (iDataCycle d = 1 /\ 0 <= bData d < 16))
  | Some LPCDECSTATE_TAR => cTarCycles d = 1 \/ cTarCycles d = 2
  | _ => True
  end.

Definition Inv (d : LPCDEC) : Prop := Shape d /\ Counters d.

(** The states the decoder of [main] can be in: initialised over whatever
    the memory held, with any pin numbers, then fed any samples. *)
Definition reachable (v : Z) (d : LPCDEC) : Prop :=
  exists mem clk frame lad0 lad1 lad2 lad3 samples out,
    wf mem /\
    main_loop v (lpcDecStateInit mem clk frame lad0 lad1 lad2 lad3) samples = Some (d, out).

(** The address decoder run on successive nibbles. *)
Fixpoint addr_nibbles (v : Z) (d : LPCDEC) (l : list Z) : option (LPCDEC * list Output) :=
  match l with
  | [] => Some (d, [])
  | bLad :: rest =>
      '(d1, out1) ← lpcDecStateAddrDecode v d bLad;
      '(d2, out2) ← addr_nibbles v d1 rest;
      Some (d2, out1 ++ out2)
  end.

(** The number a list of nibbles spells, most significant nibble first. *)
Definition nibbles_value (acc : Z) (l : list Z) : Z :=
  fold_left (fun a x => 16 * a + x) l acc.

(** The CLK levels of a list of samples, as [d] reads them. *)
Definition clk_levels (d : LPCDEC) (samples : list (Z * Z)) : list Z :=
  map (fun s => sample_level (snd s) (u8BitLClk d)) samples.

(** The level stored after samples with these CLK levels, [last] being the
    one stored before them: every sample leaves its own level. *)
Fixpoint last_level (last : Z) (levels : list Z) : Z :=
  match levels with
  | [] => last
  | c :: rest => last_level c rest
  end.

(** Whether one of these samples is a falling edge: a low level while a
    high one is stored. *)
Fixpoint sees_falling (last : Z) (levels : list Z) : bool :=
  match levels with
  | [] => false
  | c :: rest => (c_true last && negb (c_true c)) || sees_falling c rest
  end.

(** The six pin numbers of a decoder. *)
Definition pins (d : LPCDEC) : Z * Z * Z * Z * Z * Z :=
  (u8BitLClk d, u8BitLFrame d, u8BitLad0 d, u8BitLad1 d, u8BitLad2 d, u8BitLad3 d).

(** What the accumulators and the cycle type can hold: the address fits 32
    bits and the data a byte; once the cycle is classified (two phases past
    WaitFrame) it is an I/O cycle, whose address fits 16 bits, or a memory
    cycle; an I/O cycle has at most four address nibbles to go. *)
Definition Payload (d : LPCDEC) : Prop :=
  0 <= u32Addr d < 2 ^ 32 /\
  0 <= bData d < 256 /\
  (2 <= idxState d ->
   (bTyp d = LPC_DEC_CYC_TYPE_IO /\ u32Addr d < 2 ^ 16) \/ bTyp d = LPC_DEC_CYC_TYPE_MEM) /\
  (cur_phase d = Some LPCDECSTATE_ADDR -> bTyp d = LPC_DEC_CYC_TYPE_IO -> cAddrCycles d <= 4).

(** A decoded-cycle line as a running decoder prints it. *)
Definition good_line (v : Z) (l : DumpLine) : Prop :=
  (dl_typ l = "I/O"%string \/ dl_typ l = "Mem"%string) /\
  (dl_dir l = "Write"%string \/ dl_dir l = "Read "%string) /\
  0 <= dl_addr l < 2 ^ 32 /\
  (dl_typ l = "I/O"%string -> dl_addr l < 2 ^ 16) /\
  0 <= dl_data l < 256 /\
  (dl_abort l = false ->
   dl_chain l = if c_true v
                then Some (cycle_phases (String.eqb (dl_dir l) "Write"))
                else None).

(** What a running decoder prints: well-formed lines, and the report of a
    DMA or reserved cycle type; never one of the two "cannot happen"
    diagnostics. *)
Definition good_output (v : Z) (o : Output) : Prop :=
  match o with
  | OutCycle l => good_line v l
  | OutIllegalType t => t = LPC_DEC_CYC_TYPE_DMA \/ t = LPC_DEC_CYC_TYPE_RSVD
  | OutWaitWhat | OutUnknownState _ => False
  end.

(** ** A target cycle on the bus

    The (LFRAME#, LAD) pairs of one cycle, one per clock: START with
    LFRAME# asserted, the cycle type and direction, the address nibbles
    (most significant first); then for a write the data (low nibble first),
    a turn-around, SYNC (wait states, then ready) and a turn-around; for a
    read the turn-around, SYNC, the data and a turn-around. *)
Definition target_cycle (ct : Z) (a waits : list Z) (lo hi t1 t2 t3 t4 : Z) : list (Z * Z) :=
  (0, LPC_DEC_START_TARGET_CYCLE) :: (1, ct) :: map (pair 1) a ++
  (if LPC_DEC_CYC_DIR_IS_READ ct
   then [(1, t1); (1, t2)] ++ map (pair 1) waits ++
        [(1, 0); (1, lo); (1, hi); (1, t3); (1, t4)]
   else [(1, lo); (1, hi); (1, t1); (1, t2)] ++ map (pair 1) waits ++
        [(1, 0); (1, t3); (1, t4)]).

(** The line such a cycle should be decoded to. *)
Definition cycle_line (v uSeqNo ct : Z) (a : list Z) (lo hi : Z) : DumpLine :=
  mkDumpLine uSeqNo
    (if LPC_DEC_CYC_TYPE_GET ct =? LPC_DEC_CYC_TYPE_IO then "I/O"%string else "Mem"%string)
    (if LPC_DEC_CYC_DIR_IS_READ ct then "Read "%string else "Write"%string)
    (nibbles_value 0 a) (lo + 16 * hi)
    (if c_true v then Some (cycle_phases (negb (LPC_DEC_CYC_DIR_IS_READ ct))) else None)
    false.

(** * The buffered file reader and [main]

    The reader keeps a 64 KiB buffer over a [FILE *].  The stream is the
    list of bytes [fread] has not handed out yet; [fread] is the one of a
    stream without read errors, which delivers the bytes asked for or all
    that are left.  [fopen] is given by its result and [calloc] succeeds.
    A [memmove] or an array access that leaves [abBuf] is a failure
    ([None]), like an access outside [aenmState] in the decoder. *)
Section Reader.

(** Host parameters: the width of [size_t], at least that of [uint32_t],
    and the value of eight bytes read through a [uint64_t] pointer. *)
Variable SIZE_BITS : Z.
Variable host_u64 : list Z -> Z.

(** [static uint8_t g_fVerbose]. *)
Variable g_fVerbose : Z.

Definition size_t (x : Z) : Z := x mod 2 ^ SIZE_BITS.

(** [sizeof(pBufFile->abBuf)] *)
Definition ABBUF_SIZE : Z := 64 * 1024.

Record LPCDECFILEBUFREAD : Type := mkLPCDECFILEBUFREAD {
  pFile : list Z;
  cbData : Z;
  offBuf : Z;
  fError : Z;
  fEos : Z;
  abBuf : list Z
}.

(** [cb] bytes read from [&abBuf[off]] on. *)
Definition buf_load (buf : list Z) (off cb : Z) : option (list Z) :=
  if (0 <=? off) && (0 <=? cb) && (off + cb <=? Z.of_nat (length buf))
  then Some (take (Z.to_nat cb) (drop (Z.to_nat off) buf))
  else None.

(** [bytes] written from [&abBuf[off]] on. *)
Definition buf_store (buf : list Z) (off : Z) (bytes : list Z) : option (list Z) :=
  if (0 <=? off) && (off + Z.of_nat (length bytes) <=? Z.of_nat (length buf))
  then Some (take (Z.to_nat off) buf ++ bytes
             ++ drop (Z.to_nat off + length bytes) buf)
  else None.

(** [memmove(&abBuf[0], &abBuf[off], cb)] *)
Definition memmove_front (buf : list Z) (off cb : Z) : option (list Z) :=
  bytes ← buf_load buf off cb;
  buf_store buf 0 bytes.

(** [fread(&abBuf[off], 1, cb, pFile)]: the number of bytes read, the
    buffer and the rest of the stream. *)
Definition fread (buf : list Z) (off cb : Z) (file : list Z)
    : option (Z * list Z * list Z) :=
  let bytes := take (Z.to_nat cb) file in
  buf ← buf_store buf off bytes;
  Some (Z.of_nat (length bytes), buf, drop (Z.to_nat cb) file).

(** ** [lpcDecFileBufReaderCreate]

    [file] is what [fopen] found, [errno'] what it left in [errno] when it
    found nothing.  The status code comes with the reader stored through
    [ppBufFile], if any. *)
Definition lpcDecFileBufReaderCreate (file : option (list Z)) (errno' : Z)
    : option (Z * option LPCDECFILEBUFREAD) :=
  match file with
  | Some pFile' =>
      '(cbRead, buf, rest) ← fread (replicate (Z.to_nat ABBUF_SIZE) 0) 0 ABBUF_SIZE pFile';
      if c_true cbRead
      then Some (0, Some (mkLPCDECFILEBUFREAD rest cbRead 0 0 0 buf))
      else Some (-1, None)
  | None => Some (errno', None)
  end.

(** ** [lpcDecFileBufReaderHasError], [lpcDecFileBufReaderHasEos] *)
Definition lpcDecFileBufReaderHasError (r : LPCDECFILEBUFREAD) : Z := fError r.
Definition lpcDecFileBufReaderHasEos (r : LPCDECFILEBUFREAD) : Z := fEos r.

(** ** [lpcDecFileBufReaderEnsureData] *)
Definition lpcDecFileBufReaderEnsureData (r : LPCDECFILEBUFREAD) (cb : Z)
    : option (Z * LPCDECFILEBUFREAD) :=
  if size_t (offBuf r + cb) <=? cbData r then Some (0, r)
  else
    let cbRem := size_t (cbData r - offBuf r) in
    buf ← memmove_front (abBuf r) (offBuf r) cbRem;
    '(cbRead, buf, rest) ← fread buf cbRem (size_t (ABBUF_SIZE - cbRem)) (pFile r);
    Some (0, mkLPCDECFILEBUFREAD rest (size_t (cbRead + cbRem)) 0 (fError r)
               (if c_true cbRead then fEos r else 1) buf).

(** ** [lpcDecFileBufReaderGetU8] *)
Definition lpcDecFileBufReaderGetU8 (r : LPCDECFILEBUFREAD) : option (Z * LPCDECFILEBUFREAD) :=
  if c_true (lpcDecFileBufReaderHasError r) then Some (255, r)
  else
    '(rc, r) ← lpcDecFileBufReaderEnsureData r 1;
    if c_true rc then Some (255, r)
    else
      bytes ← buf_load (abBuf r) (offBuf r) 1;
      b ← head bytes;
      Some (b, mkLPCDECFILEBUFREAD (pFile r) (cbData r) (u32 (offBuf r + 1))
                 (fError r) (fEos r) (abBuf r)).

(** ** [lpcDecFileBufReaderGetU64] *)
Definition lpcDecFileBufReaderGetU64 (r : LPCDECFILEBUFREAD) : option (Z * LPCDECFILEBUFREAD) :=
  if c_true (lpcDecFileBufReaderHasError r) then Some (2 ^ 64 - 1, r)
  else
    '(rc, r) ← lpcDecFileBufReaderEnsureData r 8;
    if c_true rc then Some (2 ^ 64 - 1, r)
    else
      bytes ← buf_load (abBuf r) (offBuf r) 8;
      Some (host_u64 bytes,
            mkLPCDECFILEBUFREAD (pFile r) (cbData r) (u32 (offBuf r + 8))
              (fError r) (fEos r) (abBuf r)).

(** ** [main], from the call of [lpcDecFileBufReaderCreate] on

    How a run ends: with the message that the file could not be opened,
    by leaving the sample loop, or in an access outside an object; what the
    decoder printed until then comes with it.  [MainRunning] stands for a
    loop that has not ended within the given number of iterations. *)
Inductive MainOutcome : Type :=
  | MainNotOpened
  | MainReturned (out : list Output)
  | MainFault (out : list Output)
  | MainRunning (out : list Output).

Definition printed_before (out : list Output) (o : MainOutcome) : MainOutcome :=
  match o with
  | MainNotOpened => MainNotOpened
  | MainReturned out' => MainReturned (out ++ out')
  | MainFault out' => MainFault (out ++ out')
  | MainRunning out' => MainRunning (out ++ out')
  end.

(** [while (!lpcDecFileBufReaderHasEos(pBufFile) && !rc)] *)
Fixpoint main_while (fuel : nat) (r : LPCDECFILEBUFREAD) (d : LPCDEC) (rc : Z) : MainOutcome :=
  match fuel with
  | O => MainRunning []
  | S fuel =>
      if negb (c_true (lpcDecFileBufReaderHasEos r)) && negb (c_true rc)
      then
        match lpcDecFileBufReaderGetU64 r with
        | None => MainFault []
        | Some (uSeqNo, r) =>
            match lpcDecFileBufReaderGetU8 r with
            | None => MainFault []
            | Some (bVal, r) =>
                match lpcDecStateSampleProcess g_fVerbose d uSeqNo bVal with
                | None => MainFault []
                | Some (rc, d, out) => printed_before out (main_while fuel r d rc)
                end
            end
        end
      else MainReturned []
  end.

(** [LpcDec] is the uninitialised local, [mem] what its memory held. *)
Definition main (mem : LPCDEC) (file : option (list Z)) (errno' : Z) (fuel : nat)
    : MainOutcome :=
  match lpcDecFileBufReaderCreate file errno' with
  | None => MainFault []
  | Some (rc, pBufFile) =>
      if negb (c_true rc)
      then
        match pBufFile with
        | Some r => main_while fuel r (lpcDecStateInit mem 0 1 5 4 3 2) rc
        | None => MainFault []
        end
      else MainNotOpened
  end.

End Reader.

(** ** Captures

    A record of a capture: the eight bytes of the sequence number and the
    sample byte. *)
Definition record_bytes (rec : list Z * Z) : list Z := rec.1 ++ [rec.2].

Definition record_sample (host_u64 : list Z -> Z) (rec : list Z * Z) : Z * Z :=
  (host_u64 rec.1, rec.2).

Definition capture_bytes (recs : list (list Z * Z)) : list Z :=
  concat (map record_bytes recs).

(** The reader is in step with the stream: no flag is set and what is
    left to deliver is the unread part of the buffer followed by the unread
    part of the file. *)
Definition Reading (r : LPCDECFILEBUFREAD) (stream : list Z) : Prop :=
  fError r = 0 /\ fEos r = 0 /\
  length (abBuf r) = Z.to_nat ABBUF_SIZE /\
  0 <= offBuf r <= cbData r /\ cbData r <= ABBUF_SIZE /\
  stream = take (Z.to_nat (cbData r - offBuf r)) (drop (Z.to_nat (offBuf r)) (abBuf r))
           ++ pFile r.

(** The offset in the file at which the buffer of a reader starts.  The
    reader holds the file from [origin] on: as much of it as the buffer
    takes, with the rest still in the stream. *)
Definition Window (r : LPCDECFILEBUFREAD) (file : list Z) (origin : Z) : Prop :=
  fError r = 0 /\ fEos r = 0 /\
  length (abBuf r) = Z.to_nat ABBUF_SIZE /\
  0 <= origin /\ 0 <= offBuf r <= cbData r /\
  cbData r = Z.min ABBUF_SIZE (Z.of_nat (length file) - origin) /\
  take (Z.to_nat (cbData r)) (abBuf r)
  = take (Z.to_nat (cbData r)) (drop (Z.to_nat origin) file) /\
  pFile r = drop (Z.to_nat (origin + cbData r)) file.

(** The last record offset at which the eight bytes of a sequence number
    still start inside a full buffer is 9 * 7280; the buffer is refilled
    when the record at 9 * 7281 = 65536 - 7 is read, and starts there
    afterwards. *)
Definition REFILL_STRIDE : Z := ABBUF_SIZE - 7.

(** * Worked inputs

    The reference wiring of [main]: CLK on bit 0, LFRAME# on bit 1,
    LAD0..LAD3 on bits 5, 4, 3, 2. *)
Definition ref_sample (clk frame lad : Z) : Z :=
  Z.lor (Z.lor (Z.lor (Z.lor (Z.lor
    (Z.land clk 1)
    (Z.shiftl (Z.land frame 1) 1))
    (Z.shiftl (Z.land lad 1) 5))
    (Z.shiftl (Z.land (Z.shiftr lad 1) 1) 4))
    (Z.shiftl (Z.land (Z.shiftr lad 2) 1) 3))
    (Z.shiftl (Z.land (Z.shiftr lad 3) 1) 2).

(** One clock period per [(frame, lad)] pair: the high half, then the
    low half on which the decoder samples. *)
Fixpoint clock_nibbles (uSeqNo : Z) (l : list (Z * Z)) : list (Z * Z) :=
  match l with
  | [] => []
  | (frame, lad) :: rest =>
      (uSeqNo, ref_sample 1 frame lad) :: (uSeqNo + 1, ref_sample 0 frame lad)
        :: clock_nibbles (uSeqNo + 2) rest
  end.

(** Memory left in the local [LpcDec] of [main] before it is initialised. *)
Definition ex_memory : LPCDEC :=
  mkLPCDEC 170 170 170 170 170 170 4242 (replicate 9 LPCDECSTATE_32BIT_HACK)
    77 170 9 200 3 0 0 250 0 3735928559 165.

Definition ex_init : LPCDEC := lpcDecStateInit ex_memory 0 1 5 4 3 2.

(** The decoder after the given nibbles, with the clock high again. *)
Definition reach (l : list (Z * Z)) : LPCDEC :=
  match main_loop 0 ex_init (clock_nibbles 100 l ++ [(0, ref_sample 1 1 15)]) with
  | Some (d, _) => d
  | None => ex_init
  end.

(** Idle; in START of a target cycle; then, for a memory write of 0xAB to
    0x12340000: entering ADDR, after one address nibble, in DATA, in the
    first TAR, and in the last TAR with one edge to go. *)
Definition ex_idle : LPCDEC := Eval vm_compute in reach [].
Definition ex_start : LPCDEC := Eval vm_compute in reach [(0, 0)].
Definition ex_addr_first : LPCDEC := Eval vm_compute in reach [(0, 0); (1, 6)].
Definition ex_addr : LPCDEC := Eval vm_compute in reach [(0, 0); (1, 6); (1, 1)].
Definition ex_data : LPCDEC :=
  Eval vm_compute in reach [(0, 0); (1, 6); (1, 1); (1, 2); (1, 3); (1, 4); (1, 0); (1, 0); (1, 0); (1, 0)].
Definition ex_tar : LPCDEC :=
  Eval vm_compute in reach [(0, 0); (1, 6); (1, 1); (1, 2); (1, 3); (1, 4); (1, 0); (1, 0); (1, 0); (1, 0);
                            (1, 11); (1, 10)].
Definition ex_tar_final : LPCDEC :=
  Eval vm_compute in reach [(0, 0); (1, 6); (1, 1); (1, 2); (1, 3); (1, 4); (1, 0); (1, 0); (1, 0); (1, 0);
                            (1, 11); (1, 10); (1, 15); (1, 15); (1, 0); (1, 15)].

(** The samples of a memory write of 0xAB to 0x12340000 and of an I/O read
    of 0x42 from 0x0064, the latter with two wait states in SYNC. *)
Definition ex_write_samples : list (Z * Z) :=
  clock_nibbles 100 [(0, 0); (1, 6); (1, 1); (1, 2); (1, 3); (1, 4); (1, 0); (1, 0); (1, 0);
                     (1, 0); (1, 11); (1, 10); (1, 15); (1, 15); (1, 0); (1, 15); (1, 15)].
Definition ex_read_samples : list (Z * Z) :=
  clock_nibbles 500 [(0, 0); (1, 0); (1, 0); (1, 0); (1, 6); (1, 4); (1, 15); (1, 15);
                     (1, 5); (1, 6); (1, 0); (1, 2); (1, 4); (1, 15); (1, 15)].

(** What the verbose decoder makes of the two captures, from [ex_init]. *)
Definition ex_write_run : option (LPCDEC * list Output) :=
  Eval vm_compute in main_loop 1 ex_init ex_write_samples.
Definition ex_read_run : option (LPCDEC * list Output) :=
  Eval vm_compute in main_loop 1 ex_init ex_read_samples.

(** In START after LFRAME# was asserted with the abort value 0xf, and with
    the bus master grant 0x2, on LAD. *)
Definition ex_start_abort : LPCDEC := Eval vm_compute in reach [(0, 15)].
Definition ex_start_grant : LPCDEC := Eval vm_compute in reach [(0, 2)].

(** A little-endian host, and a capture of two records. *)
Definition ex_le_u64 (l : list Z) : Z := fold_right (fun b acc => b + 256 * acc) 0 l.

Definition ex_records : list (list Z * Z) :=
  [([100; 0; 0; 0; 0; 0; 0; 0], ref_sample 1 0 0);
   ([101; 0; 0; 0; 0; 0; 0; 0], ref_sample 0 0 0)].

(** A decoder whose current slot holds a value neither switch knows (the
    state machine never writes one), with the clock high. *)
Definition ex_unknown : LPCDEC :=
  set_aenmState (replicate 9 LPCDECSTATE_INVALID) ex_idle.

(** * Properties *)

(** ** Basic facts *)

Lemma sample_level_01 bSample bit :
  sample_level bSample bit = 0 \/ sample_level bSample bit = 1.
Proof.
  unfold sample_level, c_notnot, c_int.
  destruct (c_true _); auto.
Qed.

Lemma wf_slots d :
  wf d ->
  exists a0 a1 a2 a3 a4 a5 a6 a7 a8,
    aenmState d = [a0; a1; a2; a3; a4; a5; a6; a7; a8].
Proof.
  unfold wf. destruct (aenmState d) as [|a0 [|a1 [|a2 [|a3 [|a4 [|a5 [|a6 [|a7 [|a8 [|? ?]]]]]]]]]];
    simpl; intros H; try discriminate.
  by exists a0, a1, a2, a3, a4, a5, a6, a7, a8.
Qed.

Lemma aenmState_read_Some d i :
  wf d -> 0 <= i < 9 -> is_Some (aenmState_read d i).
Proof.
  intros Hwf Hi. unfold aenmState_read, AENMSTATE_SLOTS.
  replace (0 <=? i) with true by (symmetry; apply Z.leb_le; lia).
  replace (i <? 9) with true by (symmetry; apply Z.ltb_lt; lia).
  simpl. apply lookup_lt_is_Some. rewrite Hwf. lia.
Qed.

Lemma aenmState_read_bounds d i s :
  aenmState_read d i = Some s -> 0 <= i < 9.
Proof.
  unfold aenmState_read, AENMSTATE_SLOTS.
  destruct (0 <=? i) eqn:E1; [|discriminate].
  destruct (i <? 9) eqn:E2; [|discriminate].
  intros _. apply Z.leb_le in E1. apply Z.ltb_lt in E2. lia.
Qed.

Lemma cur_phase_bounds d s : cur_phase d = Some s -> 0 <= idxState d < 9.
Proof. apply aenmState_read_bounds. Qed.

Lemma lpcDecStateReset_idx d : idxState (lpcDecStateReset d) = 0.
Proof. by destruct d. Qed.

Lemma lpcDecStateReset_wf d : wf d -> wf (lpcDecStateReset d).
Proof. destruct d. unfold wf. simpl. by rewrite length_insert. Qed.

Lemma lpcDecStateReset_cur d :
  wf d -> cur_phase (lpcDecStateReset d) = Some LPCDECSTATE_LFRAME_WAIT_ASSERTED.
Proof.
  intros Hwf. destruct (wf_slots d Hwf) as (a0&a1&a2&a3&a4&a5&a6&a7&a8&E).
  destruct d. simpl in E. by subst.
Qed.

Lemma lpcDecStateReset_history d :
  wf d -> phase_history (lpcDecStateReset d) = [LPCDECSTATE_LFRAME_WAIT_ASSERTED].
Proof.
  intros Hwf. destruct (wf_slots d Hwf) as (a0&a1&a2&a3&a4&a5&a6&a7&a8&E).
  destruct d. simpl in E. by subst.
Qed.

Lemma lpcDecStateReset_idem d :
  lpcDecStateReset (lpcDecStateReset d) = lpcDecStateReset d.
Proof.
  destruct d. unfold lpcDecStateReset. simpl. f_equal.
  by rewrite list_insert_insert_eq.
Qed.

Lemma lpcDecStateSet_pushed d s :
  0 <= idxState d < 8 -> lpcDecStateSet d s = Some (pushed d s).
Proof.
  destruct d as [? ? ? ? ? ? idx arr ? ? ? ? ? ? ? ? ? ? ?]. simpl. intros Hi.
  unfold lpcDecStateSet, aenmState_write, pushed, u32, AENMSTATE_SLOTS. simpl.
  rewrite Z.mod_small by lia.
  replace (0 <=? idx + 1) with true by (symmetry; apply Z.leb_le; lia).
  replace (idx + 1 <? 9) with true by (symmetry; apply Z.ltb_lt; lia).
  reflexivity.
Qed.

Lemma pushed_wf d s : wf d -> wf (pushed d s).
Proof. destruct d. unfold wf, pushed. simpl. by rewrite length_insert. Qed.

Lemma pushed_cur d s :
  wf d -> 0 <= idxState d < 8 -> cur_phase (pushed d s) = Some s.
Proof.
  destruct d as [? ? ? ? ? ? idx arr ? ? ? ? ? ? ? ? ? ? ?]. unfold wf. simpl.
  intros Hwf Hi. unfold cur_phase, aenmState_read, pushed, AENMSTATE_SLOTS. simpl.
  replace (0 <=? idx + 1) with true by (symmetry; apply Z.leb_le; lia).
  replace (idx + 1 <? 9) with true by (symmetry; apply Z.ltb_lt; lia).
  simpl. apply list_lookup_insert_eq. rewrite Hwf. lia.
Qed.

Lemma pushed_history d s :
  wf d -> 0 <= idxState d < 8 -> phase_history (pushed d s) = phase_history d ++ [s].
Proof.
  destruct d as [? ? ? ? ? ? idx arr ? ? ? ? ? ? ? ? ? ? ?]. unfold wf. simpl.
  intros Hwf Hi. unfold phase_history, pushed. simpl.
  replace (Z.to_nat (idx + 1)) with (S (Z.to_nat idx)) by lia.
  set (n := S (Z.to_nat idx)).
  assert (n < length arr)%nat as Hn by (rewrite Hwf; lia).
  rewrite (take_S_r _ n s) by (by apply list_lookup_insert_eq).
  by rewrite take_insert_ge by lia.
Qed.

Lemma state_chain_history d :
  wf d -> 0 <= idxState d < 9 -> state_chain d = Some (phase_history d).
Proof.
  intros Hwf Hi. destruct (wf_slots d Hwf) as (a0&a1&a2&a3&a4&a5&a6&a7&a8&E).
  unfold state_chain, phase_history, aenmState_read. rewrite E.
  assert (idxState d = 0 \/ idxState d = 1 \/ idxState d = 2 \/ idxState d = 3 \/
          idxState d = 4 \/ idxState d = 5 \/ idxState d = 6 \/ idxState d = 7 \/
          idxState d = 8) as Hc by lia.
  destruct Hc as [->|[->|[->|[->|[->|[->|[->|[->| ->]]]]]]]]; reflexivity.
Qed.

Lemma lpcDecStateDump_Some v d fAbort :
  wf d -> 0 <= idxState d < 9 ->
  lpcDecStateDump v d fAbort
  = Some (snd (pszTyp_of (bTyp d)) ++ [OutCycle (dump_line v d fAbort)]).
Proof.
  intros Hwf Hi. unfold lpcDecStateDump, dump_line.
  rewrite (state_chain_history d Hwf Hi).
  destruct (pszTyp_of (bTyp d)) as [t w]. simpl.
  destruct (c_true v); reflexivity.
Qed.

Lemma cycles_dump typ l : cycles (snd (pszTyp_of typ) ++ [OutCycle l]) = [l].
Proof.
  unfold pszTyp_of.
  repeat match goal with |- context [if ?c then _ else _] => destruct c end;
    reflexivity.
Qed.

Lemma sample_bit_01 bSample bit :
  sample_bit bSample bit = 0 \/ sample_bit bSample bit = 1.
Proof.
  unfold sample_bit. rewrite Z.shiftl_1_l.
  destruct (Z.neg_nonneg_cases bit) as [Hneg|Hpos].
  - left. rewrite Z.pow_neg_r, Z.land_0_r by lia. apply Z.shiftr_0_l.
  - destruct (Z.testbit bSample bit) eqn:Hb; [right|left];
      apply Z.bits_inj'; intros n Hn;
      rewrite Z.shiftr_spec, Z.land_spec, Z.pow2_bits_eqb by lia.
    + destruct (Z.eqb_spec bit (n + bit)) as [E|E].
      * replace n with 0 by lia. rewrite Z.add_0_l, Hb. reflexivity.
      * rewrite andb_false_r. symmetry.
        replace 1 with (2 ^ 0) by reflexivity. rewrite Z.pow2_bits_eqb by lia.
        apply Z.eqb_neq. lia.
    + rewrite Z.bits_0. destruct (Z.eqb_spec bit (n + bit)) as [E|E].
      * replace (n + bit) with bit by lia. rewrite Hb. reflexivity.
      * apply andb_false_r.
Qed.

(** The extracted LAD[3:0] value is a nibble. *)
Lemma lpcDecStateLadExtractFromSample_range d bSample :
  0 <= lpcDecStateLadExtractFromSample d bSample < 16.
Proof.
  unfold lpcDecStateLadExtractFromSample, u8.
  destruct (sample_bit_01 bSample (u8BitLad0 d)) as [-> | ->];
  destruct (sample_bit_01 bSample (u8BitLad1 d)) as [-> | ->];
  destruct (sample_bit_01 bSample (u8BitLad2 d)) as [-> | ->];
  destruct (sample_bit_01 bSample (u8BitLad3 d)) as [-> | ->];
  vm_compute; split; congruence.
Qed.

(** On a falling edge the sample processor runs the edge body and stores
    the low clock level. *)
Lemma lpcDecStateSampleProcess_falling v d uSeqNo bSample :
  is_falling d bSample ->
  lpcDecStateSampleProcess v d uSeqNo bSample
  = '(d', out) ← falling_edge v d uSeqNo bSample; Some (0, set_fClkLast 0 d', out).
Proof.
  intros [Hlast Hclk]. unfold lpcDecStateSampleProcess. rewrite Hclk, Hlast.
  unfold c_true in Hlast.
  destruct (0 =? fClkLast d) eqn:E.
  - apply Z.eqb_eq in E. rewrite <- E in Hlast. discriminate.
  - reflexivity.
Qed.

(** The edge body when LFRAME# is asserted. *)
Lemma falling_edge_frame_asserted v d uSeqNo bSample s :
  wf d -> cur_phase d = Some s ->
  sample_level bSample (u8BitLFrame d) = 0 ->
  falling_edge v d uSeqNo bSample
  = Some (pushed (lpcDecStateReset
                    (set_uSeqNoCycle uSeqNo
                       (set_bStartLast (lpcDecStateLadExtractFromSample d bSample) d)))
                 LPCDECSTATE_START,
          if negb (bool_decide (s = LPCDECSTATE_LFRAME_WAIT_ASSERTED))
             && negb (bool_decide (s = LPCDECSTATE_START))
          then snd (pszTyp_of (bTyp d)) ++ [OutCycle (dump_line v d 1)]
          else []).
Proof.
  intros Hwf Hs Hfr. pose proof (cur_phase_bounds d s Hs) as Hi.
  unfold falling_edge. rewrite Hfr. change (negb (c_true 0)) with true.
  unfold cur_phase in Hs. rewrite Hs. cbn [mbind option_bind].
  rewrite (lpcDecStateDump_Some v d 1 Hwf Hi).
  destruct (negb (bool_decide (s = LPCDECSTATE_LFRAME_WAIT_ASSERTED))
            && negb (bool_decide (s = LPCDECSTATE_START)));
    cbn [mbind option_bind];
    rewrite lpcDecStateSet_pushed by (rewrite lpcDecStateReset_idx; lia);
    reflexivity.
Qed.

(** The edge body when LFRAME# is not asserted and the phase is START. *)
Lemma falling_edge_start v d uSeqNo bSample :
  cur_phase d = Some LPCDECSTATE_START ->
  sample_level bSample (u8BitLFrame d) = 1 ->
  falling_edge v d uSeqNo bSample
  = lpcDecStateStartDecode d (lpcDecStateLadExtractFromSample d bSample).
Proof.
  intros Hs Hfr. unfold falling_edge. rewrite Hfr.
  change (negb (c_true 1)) with false. cbv iota.
  unfold cur_phase in Hs. rewrite Hs. reflexivity.
Qed.


(** ** The reset and what it leaves alone *)

(** Claim C10.  [lpcDecStateReset] changes only the history index (the
    history becomes exactly [WaitFrame]), the address accumulator, the data
    accumulator and the data-nibble index.  The six pin numbers, the last
    clock level, the last start nibble, the cycle type, the direction, the
    cycle sequence number, the three remaining counters and the array slots
    behind the first keep their values.  In particular, after a falling
    edge with LFRAME# asserted the recorded start nibble and sequence number
    are still in the state, the phase is START, and the next edge with
    LFRAME# released hands them to the START decoder. *)
Theorem lpcDecStateReset_frame_effect (v : Z) (d : LPCDEC) :
  wf d ->
  (idxState (lpcDecStateReset d) = 0 /\
   phase_history (lpcDecStateReset d) = [LPCDECSTATE_LFRAME_WAIT_ASSERTED] /\
   u32Addr (lpcDecStateReset d) = 0 /\
   bData (lpcDecStateReset d) = 0 /\
   iDataCycle (lpcDecStateReset d) = 0) /\
  (same_config d (lpcDecStateReset d) /\
   fClkLast (lpcDecStateReset d) = fClkLast d /\
   bStartLast (lpcDecStateReset d) = bStartLast d /\
   bTyp (lpcDecStateReset d) = bTyp d /\
   fWrite (lpcDecStateReset d) = fWrite d /\
   uSeqNoCycle (lpcDecStateReset d) = uSeqNoCycle d /\
   cAddrCycles (lpcDecStateReset d) = cAddrCycles d /\
   cTarCycles (lpcDecStateReset d) = cTarCycles d /\
   cDataCycles (lpcDecStateReset d) = cDataCycles d /\
   drop 1 (aenmState (lpcDecStateReset d)) = drop 1 (aenmState d)) /\
  (forall uSeqNo bSample s,
     cur_phase d = Some s ->
     is_falling d bSample ->
     sample_level bSample (u8BitLFrame d) = 0 ->
     exists d' out,
       lpcDecStateSampleProcess v d uSeqNo bSample = Some (0, d', out) /\
       bStartLast d' = lpcDecStateLadExtractFromSample d bSample /\
       uSeqNoCycle d' = uSeqNo /\
       cur_phase d' = Some LPCDECSTATE_START /\
       forall uSeqNo' bSample',
         sample_level bSample' (u8BitLFrame d') = 1 ->
         falling_edge v d' uSeqNo' bSample'
         = lpcDecStateStartDecode d' (lpcDecStateLadExtractFromSample d' bSample')).
Proof.
  intros Hwf. split; [|split].
  - rewrite lpcDecStateReset_history by done. by destruct d.
  - destruct (wf_slots d Hwf) as (a0&a1&a2&a3&a4&a5&a6&a7&a8&E).
    destruct d. simpl in E. subst. by repeat split.
  - intros uSeqNo bSample s Hs Hfall Hfr.
    rewrite (lpcDecStateSampleProcess_falling v d uSeqNo bSample Hfall).
    rewrite (falling_edge_frame_asserted v d uSeqNo bSample s Hwf Hs Hfr).
    cbn [mbind option_bind].
    set (lad := lpcDecStateLadExtractFromSample d bSample).
    set (r := lpcDecStateReset (set_uSeqNoCycle uSeqNo (set_bStartLast lad d))).
    assert (wf r) as Hr by (apply lpcDecStateReset_wf; by destruct d).
    assert (0 <= idxState r < 8) as Hir
      by (unfold r; rewrite lpcDecStateReset_idx; lia).
    assert (cur_phase (set_fClkLast 0 (pushed r LPCDECSTATE_START))
            = Some LPCDECSTATE_START) as Hcur.
    { rewrite <- (pushed_cur r LPCDECSTATE_START Hr Hir).
      by destruct (pushed r LPCDECSTATE_START). }
    eexists _, _. split; [reflexivity|].
    split; [by destruct d|]. split; [by destruct d|]. split; [exact Hcur|].
    intros uSeqNo' bSample' Hfr'. by apply falling_edge_start.
Qed.

Lemma lpcDecStateReset_frame_effect_witness :
  bStartLast (lpcDecStateReset ex_addr) = 0 /\
  uSeqNoCycle (lpcDecStateReset ex_addr) = 101 /\
  exists d' out,
    lpcDecStateSampleProcess 1 ex_addr 300 (ref_sample 0 0 15) = Some (0, d', out) /\
    bStartLast d' = 15 /\ uSeqNoCycle d' = 300.
Proof.
  destruct (lpcDecStateReset_frame_effect 1 ex_addr eq_refl) as (_ & Hkeep & Hedge).
  destruct Hkeep as (_ & _ & Hstart & _ & _ & Hseq & _).
  split; [exact Hstart|]. split; [exact Hseq|].
  destruct (Hedge 300 (ref_sample 0 0 15) LPCDECSTATE_ADDR eq_refl
              (conj eq_refl eq_refl) eq_refl) as (d' & out & Hp & Hs & Hq & _).
  exists d', out. split; [exact Hp|]. split; [exact Hs|exact Hq].
Defined.

(** ** Edge detection *)

Lemma set_fClkLast_same d : set_fClkLast (fClkLast d) d = d.
Proof. by destruct d. Qed.

Lemma set_fClkLast_twice a b d : set_fClkLast a (set_fClkLast b d) = set_fClkLast a d.
Proof. by destruct d. Qed.

(** Claim C3.  A sample whose CLK level equals the stored one leaves the
    whole decoder state as it is and prints nothing.  A sample whose CLK
    level rose from 0 to 1 prints nothing and leaves the phase, the nibble
    counters, the accumulators and every other field as they are; it only
    stores the level it saw, which is what the next edge is detected
    against.  Whenever a sample prints something or changes any field other
    than the stored clock level, it is a falling edge. *)
Theorem lpcDecStateSampleProcess_only_falling (v : Z) (d : LPCDEC) (uSeqNo bSample : Z) :
  (sample_level bSample (u8BitLClk d) = fClkLast d ->
   lpcDecStateSampleProcess v d uSeqNo bSample = Some (0, d, [])) /\
  (fClkLast d = 0 -> sample_level bSample (u8BitLClk d) = 1 ->
   lpcDecStateSampleProcess v d uSeqNo bSample = Some (0, set_fClkLast 1 d, [])) /\
  (forall rc d' out,
     lpcDecStateSampleProcess v d uSeqNo bSample = Some (rc, d', out) ->
     out <> [] \/ set_fClkLast (fClkLast d) d' <> d ->
     is_falling d bSample).
Proof.
  unfold lpcDecStateSampleProcess. split; [|split].
  - intros ->. by rewrite Z.eqb_refl.
  - intros -> ->. reflexivity.
  - intros rc d' out. destruct (Z.eqb_spec (sample_level bSample (u8BitLClk d)) (fClkLast d)) as [E|E].
    + intros [= _ <- <-] [Hout|Hst]; [done|]. by rewrite set_fClkLast_same in Hst.
    + destruct (c_true (fClkLast d)) eqn:Hlast; simpl.
      * destruct (sample_level_01 bSample (u8BitLClk d)) as [Hc|Hc]; rewrite Hc.
        -- intros _ _. by split.
        -- simpl. intros [= _ <- <-] [Hout|Hst]; [done|].
           by rewrite set_fClkLast_twice, set_fClkLast_same in Hst.
      * intros [= _ <- <-] [Hout|Hst]; [done|].
        by rewrite set_fClkLast_twice, set_fClkLast_same in Hst.
Qed.

Lemma lpcDecStateSampleProcess_only_falling_witness :
  lpcDecStateSampleProcess 0 ex_init 1 (ref_sample 0 1 15) = Some (0, ex_init, []) /\
  lpcDecStateSampleProcess 0 ex_init 1 (ref_sample 1 1 15)
  = Some (0, set_fClkLast 1 ex_init, []) /\
  is_falling ex_tar_final (ref_sample 0 1 15).
Proof.
  split; [|split].
  - exact (proj1 (lpcDecStateSampleProcess_only_falling 0 ex_init 1 (ref_sample 0 1 15))
             eq_refl).
  - exact (proj1 (proj2 (lpcDecStateSampleProcess_only_falling 0 ex_init 1
                           (ref_sample 1 1 15))) eq_refl eq_refl).
  - refine (proj2 (proj2 (lpcDecStateSampleProcess_only_falling 0 ex_tar_final 200
                            (ref_sample 0 1 15))) _ _ _ eq_refl _).
    left. discriminate.
Defined.

(** ** LFRAME# asserted *)

Lemma set_fClkLast_obs a d :
  phase_history (set_fClkLast a d) = phase_history d /\
  cur_phase (set_fClkLast a d) = cur_phase d /\
  wf (set_fClkLast a d) = wf d.
Proof. by destruct d. Qed.

(** Claim C4.  On a falling edge with LFRAME# asserted: when the current
    phase is neither WaitFrame nor START, exactly one decoded-cycle line is
    printed, marked aborted and carrying the sequence number, type,
    direction, address and data the decoder held before the reset; when the
    phase is WaitFrame or START nothing is printed.  In either case the
    sampled nibble becomes the last start nibble, the sample's sequence
    number the cycle's sequence number, the accumulators are zeroed and the
    history becomes WaitFrame followed by START. *)
Theorem falling_edge_frame_asserted_aborts
    (v : Z) (d : LPCDEC) (uSeqNo bSample : Z) (s : LPCDECSTATE) :
  wf d ->
  cur_phase d = Some s ->
  is_falling d bSample ->
  sample_level bSample (u8BitLFrame d) = 0 ->
  exists d' out,
    lpcDecStateSampleProcess v d uSeqNo bSample = Some (0, d', out) /\
    (s <> LPCDECSTATE_LFRAME_WAIT_ASSERTED -> s <> LPCDECSTATE_START ->
     exists line,
       cycles out = [line] /\ dl_abort line = true /\
       dl_seq line = uSeqNoCycle d /\ dl_addr line = u32Addr d /\
       dl_data line = bData d /\
       dl_typ line = fst (pszTyp_of (bTyp d)) /\
       dl_dir line = (if c_true (fWrite d) then "Write"%string else "Read "%string)) /\
    (s = LPCDECSTATE_LFRAME_WAIT_ASSERTED \/ s = LPCDECSTATE_START -> out = []) /\
    bStartLast d' = lpcDecStateLadExtractFromSample d bSample /\
    uSeqNoCycle d' = uSeqNo /\
    phase_history d' = [LPCDECSTATE_LFRAME_WAIT_ASSERTED; LPCDECSTATE_START] /\
    cur_phase d' = Some LPCDECSTATE_START /\
    u32Addr d' = 0 /\ bData d' = 0 /\ iDataCycle d' = 0.
Proof.
  intros Hwf Hs Hfall Hfr.
  rewrite (lpcDecStateSampleProcess_falling v d uSeqNo bSample Hfall).
  rewrite (falling_edge_frame_asserted v d uSeqNo bSample s Hwf Hs Hfr).
  cbn [mbind option_bind].
  set (lad := lpcDecStateLadExtractFromSample d bSample).
  set (r := lpcDecStateReset (set_uSeqNoCycle uSeqNo (set_bStartLast lad d))).
  assert (wf r) as Hr by (apply lpcDecStateReset_wf; by destruct d).
  assert (0 <= idxState r < 8) as Hir by (unfold r; rewrite lpcDecStateReset_idx; lia).
  eexists _, _. split; [reflexivity|].
  destruct (set_fClkLast_obs 0 (pushed r LPCDECSTATE_START)) as (Hh & Hc & _).
  repeat split.
  - intros H1 H2. exists (dump_line v d 1).
    rewrite !bool_decide_eq_false_2 by done. simpl.
    rewrite cycles_dump. by repeat split.
  - intros [-> | ->]; reflexivity.
  - by destruct d.
  - by destruct d.
  - rewrite Hh, pushed_history by done. unfold r.
    rewrite lpcDecStateReset_history; [done|by destruct d].
  - rewrite Hc. by apply pushed_cur.
  - by destruct d.
  - by destruct d.
  - by destruct d.
Qed.

Lemma falling_edge_frame_asserted_aborts_witness :
  exists d' out,
    lpcDecStateSampleProcess 0 ex_addr 300 (ref_sample 0 0 0) = Some (0, d', out) /\
    (exists line, cycles out = [line] /\ dl_abort line = true /\ dl_addr line = 268435456) /\
    phase_history d' = [LPCDECSTATE_LFRAME_WAIT_ASSERTED; LPCDECSTATE_START].
Proof.
  destruct (falling_edge_frame_asserted_aborts 0 ex_addr 300 (ref_sample 0 0 0)
              LPCDECSTATE_ADDR eq_refl eq_refl (conj eq_refl eq_refl) eq_refl)
    as (d' & out & Hp & Habort & _ & _ & _ & Hh & _).
  exists d', out. split; [exact Hp|]. split; [|exact Hh].
  destruct Habort as (line & Hl & Ha & _ & Haddr & _); [discriminate|discriminate|].
  exists line. split; [exact Hl|]. split; [exact Ha|exact Haddr].
Defined.

(** ** The START decoder *)

Ltac nibble_cases x H :=
  assert (x = 0 \/ x = 1 \/ x = 2 \/ x = 3 \/ x = 4 \/ x = 5 \/ x = 6 \/ x = 7 \/
          x = 8 \/ x = 9 \/ x = 10 \/ x = 11 \/ x = 12 \/ x = 13 \/ x = 14 \/ x = 15)
    as H by lia;
  destruct H as [H|[H|[H|[H|[H|[H|[H|[H|[H|[H|[H|[H|[H|[H|[H|H]]]]]]]]]]]]]]];
  rewrite H in *.

(** On a nibble the two macros read bits 3:2 and bit 1. *)
Lemma cycle_type_and_direction_bits bLad :
  0 <= bLad < 16 ->
  LPC_DEC_CYC_TYPE_GET bLad = Z.b2z (Z.testbit bLad 2) + 2 * Z.b2z (Z.testbit bLad 3) /\
  c_int (negb (LPC_DEC_CYC_DIR_IS_READ bLad)) = Z.b2z (Z.testbit bLad 1) /\
  0 <= LPC_DEC_CYC_TYPE_GET bLad <= 3.
Proof.
  intros Hn. nibble_cases bLad Hc; vm_compute; repeat split; congruence.
Qed.

Lemma pushed_fields d s :
  same_config d (pushed d s) /\
  idxState (pushed d s) = idxState d + 1 /\
  uSeqNoCycle (pushed d s) = uSeqNoCycle d /\ fClkLast (pushed d s) = fClkLast d /\
  bStartLast (pushed d s) = bStartLast d /\ bTyp (pushed d s) = bTyp d /\
  fWrite (pushed d s) = fWrite d /\ cAddrCycles (pushed d s) = cAddrCycles d /\
  cDataCycles (pushed d s) = cDataCycles d /\ iDataCycle (pushed d s) = iDataCycle d /\
  cTarCycles (pushed d s) = cTarCycles d /\ u32Addr (pushed d s) = u32Addr d /\
  bData (pushed d s) = bData d.
Proof. destruct d. by repeat split. Qed.

(** Claim C2.  With a last start nibble of 0x0, the START decoder run on a
    nibble takes the cycle type from bits 3:2 (0 I/O, 1 memory, 2 DMA,
    3 reserved) and the direction from bit 1 (0 read, 1 write) and clears
    the address accumulator.  For I/O the history gains ADDR and 4 address
    nibbles remain, for memory 8.  For DMA and reserved the type is
    reported, the history is WaitFrame alone, and no decoded-cycle line is
    printed.  A falling edge in START with LFRAME# released does exactly
    that with the sampled nibble. *)
Theorem lpcDecStateStartDecode_target_cycle (d : LPCDEC) (bLad : Z) :
  wf d ->
  0 <= idxState d < 8 ->
  bStartLast d = LPC_DEC_START_TARGET_CYCLE ->
  0 <= bLad < 16 ->
  exists d' out,
    lpcDecStateStartDecode d bLad = Some (d', out) /\
    bTyp d' = Z.b2z (Z.testbit bLad 2) + 2 * Z.b2z (Z.testbit bLad 3) /\
    fWrite d' = Z.b2z (Z.testbit bLad 1) /\
    u32Addr d' = 0 /\
    cycles out = [] /\
    (bTyp d' = LPC_DEC_CYC_TYPE_IO ->
     phase_history d' = phase_history d ++ [LPCDECSTATE_ADDR] /\
     cur_phase d' = Some LPCDECSTATE_ADDR /\ cAddrCycles d' = 4 /\ out = []) /\
    (bTyp d' = LPC_DEC_CYC_TYPE_MEM ->
     phase_history d' = phase_history d ++ [LPCDECSTATE_ADDR] /\
     cur_phase d' = Some LPCDECSTATE_ADDR /\ cAddrCycles d' = 8 /\ out = []) /\
    (bTyp d' = LPC_DEC_CYC_TYPE_DMA \/ bTyp d' = LPC_DEC_CYC_TYPE_RSVD ->
     phase_history d' = [LPCDECSTATE_LFRAME_WAIT_ASSERTED] /\
     cur_phase d' = Some LPCDECSTATE_LFRAME_WAIT_ASSERTED /\
     out = [OutIllegalType (bTyp d')]) /\
    (forall v uSeqNo bSample,
       cur_phase d = Some LPCDECSTATE_START ->
       is_falling d bSample ->
       sample_level bSample (u8BitLFrame d) = 1 ->
       lpcDecStateLadExtractFromSample d bSample = bLad ->
       lpcDecStateSampleProcess v d uSeqNo bSample = Some (0, set_fClkLast 0 d', out)).
Proof.
  intros Hwf Hi Hst Hn.
  destruct (cycle_type_and_direction_bits bLad Hn) as (Htyp & Hdir & Hrange).
  set (d1 := set_u32Addr 0
               (set_fWrite (c_int (negb (LPC_DEC_CYC_DIR_IS_READ bLad)))
                  (set_bTyp (LPC_DEC_CYC_TYPE_GET bLad) d))).
  assert (wf d1) as Hwf1 by (by destruct d).
  assert (idxState d1 = idxState d) as Hi1 by (by destruct d).
  assert (phase_history d1 = phase_history d) as Hh1 by (by destruct d).
  assert (bTyp d1 = LPC_DEC_CYC_TYPE_GET bLad) as Ht1 by (by destruct d).
  assert (fWrite d1 = c_int (negb (LPC_DEC_CYC_DIR_IS_READ bLad))) as Hw1 by (by destruct d).
  assert (u32Addr d1 = 0) as Ha1 by (by destruct d).
  destruct (pushed_fields d1 LPCDECSTATE_ADDR)
    as (_ & _ & _ & _ & _ & Hpt & Hpw & _ & _ & _ & _ & Hpa & _).
  assert (lpcDecStateStartDecode d bLad
          = if bTyp (pushed d1 LPCDECSTATE_ADDR) =? LPC_DEC_CYC_TYPE_IO
            then Some (set_cAddrCycles 4 (pushed d1 LPCDECSTATE_ADDR), [])
            else if bTyp (pushed d1 LPCDECSTATE_ADDR) =? LPC_DEC_CYC_TYPE_MEM
            then Some (set_cAddrCycles 8 (pushed d1 LPCDECSTATE_ADDR), [])
            else Some (lpcDecStateReset (pushed d1 LPCDECSTATE_ADDR),
                       [OutIllegalType (bTyp (pushed d1 LPCDECSTATE_ADDR))])) as Heq.
  { unfold lpcDecStateStartDecode. rewrite Hst, Z.eqb_refl. fold d1.
    rewrite lpcDecStateSet_pushed by lia. reflexivity. }
  set (p := pushed d1 LPCDECSTATE_ADDR) in *.
  assert (wf p) as Hwfp by (by apply pushed_wf).
  assert (phase_history p = phase_history d ++ [LPCDECSTATE_ADDR]) as Hhp
    by (unfold p; rewrite pushed_history by (done || lia); by rewrite Hh1).
  assert (cur_phase p = Some LPCDECSTATE_ADDR) as Hcp
    by (apply pushed_cur; done || lia).
  assert (forall d' out,
            lpcDecStateStartDecode d bLad = Some (d', out) ->
            forall v uSeqNo bSample,
              cur_phase d = Some LPCDECSTATE_START ->
              is_falling d bSample ->
              sample_level bSample (u8BitLFrame d) = 1 ->
              lpcDecStateLadExtractFromSample d bSample = bLad ->
              lpcDecStateSampleProcess v d uSeqNo bSample
              = Some (0, set_fClkLast 0 d', out)) as Hproc.
  { intros d' out Hd v uSeqNo bSample Hs Hfall Hfr Hlad.
    rewrite (lpcDecStateSampleProcess_falling v d uSeqNo bSample Hfall).
    rewrite (falling_edge_start v d uSeqNo bSample Hs Hfr), Hlad, Hd. reflexivity. }
  rewrite Ht1 in Hpt. rewrite Hw1, Hdir in Hpw. rewrite Ha1 in Hpa.
  rewrite Heq in Hproc |- *. rewrite Hpt in *. clear Heq.
  unfold LPC_DEC_CYC_TYPE_IO, LPC_DEC_CYC_TYPE_MEM, LPC_DEC_CYC_TYPE_DMA,
    LPC_DEC_CYC_TYPE_RSVD in *.
  destruct (Z.eqb_spec (LPC_DEC_CYC_TYPE_GET bLad) 0) as [E0|E0];
    [|destruct (Z.eqb_spec (LPC_DEC_CYC_TYPE_GET bLad) 1) as [E1|E1]].
  - exists (set_cAddrCycles 4 p), []. split; [done|].
    assert (bTyp (set_cAddrCycles 4 p) = bTyp p) as -> by (by destruct p).
    assert (fWrite (set_cAddrCycles 4 p) = fWrite p) as -> by (by destruct p).
    assert (u32Addr (set_cAddrCycles 4 p) = u32Addr p) as -> by (by destruct p).
    assert (phase_history (set_cAddrCycles 4 p) = phase_history p) as -> by (by destruct p).
    assert (cur_phase (set_cAddrCycles 4 p) = cur_phase p) as -> by (by destruct p).
    rewrite Hpw, Hpa, <- Htyp.
    repeat split; try done; try lia; try (by destruct p); try (intros; lia).
    by apply Hproc.
  - exists (set_cAddrCycles 8 p), []. split; [done|].
    assert (bTyp (set_cAddrCycles 8 p) = bTyp p) as -> by (by destruct p).
    assert (fWrite (set_cAddrCycles 8 p) = fWrite p) as -> by (by destruct p).
    assert (u32Addr (set_cAddrCycles 8 p) = u32Addr p) as -> by (by destruct p).
    assert (phase_history (set_cAddrCycles 8 p) = phase_history p) as -> by (by destruct p).
    assert (cur_phase (set_cAddrCycles 8 p) = cur_phase p) as -> by (by destruct p).
    rewrite Hpw, Hpa, <- Htyp.
    repeat split; try done; try lia; try (by destruct p); try (intros; lia).
    by apply Hproc.
  - exists (lpcDecStateReset p), [OutIllegalType (LPC_DEC_CYC_TYPE_GET bLad)].
    split; [done|].
    assert (bTyp (lpcDecStateReset p) = bTyp p) as -> by (by destruct p).
    assert (fWrite (lpcDecStateReset p) = fWrite p) as -> by (by destruct p).
    assert (u32Addr (lpcDecStateReset p) = 0) as -> by (by destruct p).
    rewrite lpcDecStateReset_history, lpcDecStateReset_cur by done.
    rewrite Hpt, Hpw, <- Htyp.
    repeat split; try done; try lia; try (intros; lia).
    by apply Hproc.
Qed.

Lemma lpcDecStateStartDecode_target_cycle_witness :
  exists d' out,
    lpcDecStateStartDecode ex_start 6 = Some (d', out) /\
    bTyp d' = LPC_DEC_CYC_TYPE_MEM /\ fWrite d' = 1 /\ cAddrCycles d' = 8 /\
    lpcDecStateSampleProcess 0 ex_start 200 (ref_sample 0 1 6)
    = Some (0, set_fClkLast 0 d', out).
Proof.
  assert (0 <= idxState ex_start < 8) as Hi by (vm_compute; split; congruence).
  assert (0 <= 6 < 16) as Hn by lia.
  destruct (lpcDecStateStartDecode_target_cycle ex_start 6 eq_refl Hi eq_refl Hn)
    as (d' & out & Hd & Ht & Hw & _ & _ & _ & Hmem & _ & Hproc).
  exists d', out. split; [exact Hd|]. split; [exact Ht|]. split; [exact Hw|].
  split; [exact (proj1 (proj2 (proj2 (Hmem Ht))))|].
  exact (Hproc 0 200 (ref_sample 0 1 6) eq_refl (conj eq_refl eq_refl) eq_refl eq_refl).
Defined.

(** ** Phase advancement *)

Lemma falling_edge_released v d uSeqNo bSample s :
  cur_phase d = Some s ->
  sample_level bSample (u8BitLFrame d) = 1 ->
  falling_edge v d uSeqNo bSample
  = match s with
    | LPCDECSTATE_LFRAME_WAIT_ASSERTED => Some (d, [])
    | LPCDECSTATE_START =>
        lpcDecStateStartDecode d (lpcDecStateLadExtractFromSample d bSample)
    | LPCDECSTATE_ADDR =>
        lpcDecStateAddrDecode v d (lpcDecStateLadExtractFromSample d bSample)
    | LPCDECSTATE_DATA =>
        lpcDecStateDataDecode v d (lpcDecStateLadExtractFromSample d bSample)
    | LPCDECSTATE_TAR =>
        lpcDecStateTarDecode v d (lpcDecStateLadExtractFromSample d bSample)
    | LPCDECSTATE_SYNC =>
        lpcDecStateSyncDecode v d (lpcDecStateLadExtractFromSample d bSample)
    | _ => Some (d, [OutUnknownState s])
    end.
Proof.
  intros Hs Hfr. unfold falling_edge. rewrite Hfr.
  change (negb (c_true 1)) with false. cbv iota.
  unfold cur_phase in Hs. rewrite Hs. reflexivity.
Qed.

(** A push followed by setting a counter, as the table's "go to" rows do. *)
Lemma pushed_obs d s :
  wf d -> 0 <= idxState d < 8 ->
  phase_history (pushed d s) = phase_history d ++ [s] /\
  cur_phase (pushed d s) = Some s /\
  u32Addr (pushed d s) = u32Addr d /\ bData (pushed d s) = bData d /\
  fWrite (pushed d s) = fWrite d /\ bTyp (pushed d s) = bTyp d.
Proof.
  intros Hwf Hi. split; [by apply pushed_history|]. split; [by apply pushed_cur|].
  by destruct d.
Qed.

Lemma set_cDataCycles_obs n d :
  phase_history (set_cDataCycles n d) = phase_history d /\
  cur_phase (set_cDataCycles n d) = cur_phase d /\
  u32Addr (set_cDataCycles n d) = u32Addr d /\ bData (set_cDataCycles n d) = bData d /\
  fWrite (set_cDataCycles n d) = fWrite d /\ bTyp (set_cDataCycles n d) = bTyp d /\
  cDataCycles (set_cDataCycles n d) = n.
Proof. by destruct d. Qed.

Lemma set_cTarCycles_obs n d :
  phase_history (set_cTarCycles n d) = phase_history d /\
  cur_phase (set_cTarCycles n d) = cur_phase d /\
  u32Addr (set_cTarCycles n d) = u32Addr d /\ bData (set_cTarCycles n d) = bData d /\
  fWrite (set_cTarCycles n d) = fWrite d /\ bTyp (set_cTarCycles n d) = bTyp d /\
  cTarCycles (set_cTarCycles n d) = n.
Proof. by destruct d. Qed.

Lemma prev_phase_Some d :
  wf d -> 1 <= idxState d < 9 -> is_Some (prev_phase d).
Proof.
  intros Hwf Hi. unfold prev_phase, u32. rewrite Z.mod_small by lia.
  apply aenmState_read_Some; [done|lia].
Qed.

Lemma advance_goto_data d :
  wf d -> 0 <= idxState d < 8 ->
  exists d',
    Some (set_cDataCycles 2 (pushed d LPCDECSTATE_DATA), []) = Some (d', @nil Output) /\
    phase_history d' = phase_history d ++ [LPCDECSTATE_DATA] /\
    cur_phase d' = Some LPCDECSTATE_DATA /\
    entered_with d' LPCDECSTATE_DATA (Some 2) /\
    u32Addr d' = u32Addr d /\ bData d' = bData d /\
    fWrite d' = fWrite d /\ bTyp d' = bTyp d.
Proof.
  intros Hwf Hi. eexists. split; [reflexivity|].
  destruct (set_cDataCycles_obs 2 (pushed d LPCDECSTATE_DATA))
    as (-> & -> & -> & -> & -> & -> & Hc).
  destruct (pushed_obs d LPCDECSTATE_DATA Hwf Hi) as (-> & -> & -> & -> & -> & ->).
  by repeat split.
Qed.

Lemma advance_goto_tar d :
  wf d -> 0 <= idxState d < 8 ->
  exists d',
    Some (set_cTarCycles 2 (pushed d LPCDECSTATE_TAR), []) = Some (d', @nil Output) /\
    phase_history d' = phase_history d ++ [LPCDECSTATE_TAR] /\
    cur_phase d' = Some LPCDECSTATE_TAR /\
    entered_with d' LPCDECSTATE_TAR (Some 2) /\
    u32Addr d' = u32Addr d /\ bData d' = bData d /\
    fWrite d' = fWrite d /\ bTyp d' = bTyp d.
Proof.
  intros Hwf Hi. eexists. split; [reflexivity|].
  destruct (set_cTarCycles_obs 2 (pushed d LPCDECSTATE_TAR))
    as (-> & -> & -> & -> & -> & -> & Hc).
  destruct (pushed_obs d LPCDECSTATE_TAR Hwf Hi) as (-> & -> & -> & -> & -> & ->).
  by repeat split.
Qed.

Lemma advance_goto_sync d :
  wf d -> 0 <= idxState d < 8 ->
  exists d',
    Some (pushed d LPCDECSTATE_SYNC, []) = Some (d', @nil Output) /\
    phase_history d' = phase_history d ++ [LPCDECSTATE_SYNC] /\
    cur_phase d' = Some LPCDECSTATE_SYNC /\
    entered_with d' LPCDECSTATE_SYNC None /\
    u32Addr d' = u32Addr d /\ bData d' = bData d /\
    fWrite d' = fWrite d /\ bTyp d' = bTyp d.
Proof.
  intros Hwf Hi. eexists. split; [reflexivity|].
  destruct (pushed_obs d LPCDECSTATE_SYNC Hwf Hi) as (-> & -> & -> & -> & -> & ->).
  by repeat split.
Qed.

Lemma advance_complete v d :
  wf d -> 0 <= idxState d < 9 ->
  exists out line,
    (out' ← lpcDecStateDump v d 0; Some (lpcDecStateReset d, out'))
    = Some (lpcDecStateReset d, out) /\
    cycles out = [line] /\ dl_abort line = false /\
    dl_seq line = uSeqNoCycle d /\ dl_addr line = u32Addr d /\
    dl_data line = bData d /\
    dl_typ line = fst (pszTyp_of (bTyp d)) /\
    dl_dir line = (if c_true (fWrite d) then "Write"%string else "Read "%string) /\
    cur_phase (lpcDecStateReset d) = Some LPCDECSTATE_LFRAME_WAIT_ASSERTED /\
    phase_history (lpcDecStateReset d) = [LPCDECSTATE_LFRAME_WAIT_ASSERTED].
Proof.
  intros Hwf Hi. rewrite (lpcDecStateDump_Some v d 0 Hwf Hi).
  eexists _, (dump_line v d 0). split; [reflexivity|].
  rewrite cycles_dump, lpcDecStateReset_cur, lpcDecStateReset_history by done.
  by repeat split.
Qed.

(** Claim C1.  When a phase has consumed its nibbles, [lpcDecStateSampleAdvance]
    follows the phase-advancement table: from ADDR a write goes to DATA and a
    read to TAR, from DATA both go to TAR, from SYNC a write goes to TAR and a
    read to DATA, each entered with a count of 2; a finished TAR whose
    predecessor is DATA (write) or ADDR (read) goes to SYNC; a finished TAR
    with any other predecessor prints one decoded-cycle line that is not
    marked aborted and resets to WaitFrame.  A TAR phase entered with a count
    of 2 takes two falling edges whatever is sampled on LAD.  SYNC advances
    on a sampled nibble of zero and holds the state on any other nibble. *)
Theorem lpcDecStateSampleAdvance_table (v : Z) (d : LPCDEC) (cur prev : LPCDECSTATE) :
  wf d ->
  cur_phase d = Some cur ->
  idxState d < 8 ->
  (cur = LPCDECSTATE_TAR -> prev_phase d = Some prev) ->
  match phase_table cur prev (c_true (fWrite d)) with
  | Some (GoTo p n) =>
      exists d',
        lpcDecStateSampleAdvance v d = Some (d', []) /\
        phase_history d' = phase_history d ++ [p] /\
        cur_phase d' = Some p /\
        entered_with d' p n /\
        u32Addr d' = u32Addr d /\ bData d' = bData d /\
        fWrite d' = fWrite d /\ bTyp d' = bTyp d
  | Some CompleteCycle =>
      exists out line,
        lpcDecStateSampleAdvance v d = Some (lpcDecStateReset d, out) /\
        cycles out = [line] /\ dl_abort line = false /\
        dl_seq line = uSeqNoCycle d /\ dl_addr line = u32Addr d /\
        dl_data line = bData d /\
        dl_typ line = fst (pszTyp_of (bTyp d)) /\
        dl_dir line = (if c_true (fWrite d) then "Write"%string else "Read "%string) /\
        cur_phase (lpcDecStateReset d) = Some LPCDECSTATE_LFRAME_WAIT_ASSERTED /\
        phase_history (lpcDecStateReset d) = [LPCDECSTATE_LFRAME_WAIT_ASSERTED]
  | None => cur <> LPCDECSTATE_ADDR /\ cur <> LPCDECSTATE_DATA /\
            cur <> LPCDECSTATE_TAR /\ cur <> LPCDECSTATE_SYNC
  end /\
  (cur = LPCDECSTATE_TAR -> cTarCycles d = 2 ->
   forall uSeqNo1 bSample1 uSeqNo2 bSample2,
     sample_level bSample1 (u8BitLFrame d) = 1 ->
     sample_level bSample2 (u8BitLFrame d) = 1 ->
     falling_edge v d uSeqNo1 bSample1 = Some (set_cTarCycles 1 d, []) /\
     falling_edge v (set_cTarCycles 1 d) uSeqNo2 bSample2
     = lpcDecStateSampleAdvance v (set_cTarCycles 0 d)) /\
  (cur = LPCDECSTATE_SYNC ->
   forall uSeqNo bSample,
     sample_level bSample (u8BitLFrame d) = 1 ->
     (lpcDecStateLadExtractFromSample d bSample = 0 ->
      falling_edge v d uSeqNo bSample = lpcDecStateSampleAdvance v d) /\
     (lpcDecStateLadExtractFromSample d bSample <> 0 ->
      falling_edge v d uSeqNo bSample = Some (d, []))).
Proof.
  intros Hwf Hcur Hlt Hprev.
  pose proof (cur_phase_bounds d cur Hcur) as Hi.
  assert (0 <= idxState d < 8) as Hi8 by lia.
  split; [|split].
  - unfold lpcDecStateSampleAdvance. unfold cur_phase in Hcur. rewrite Hcur.
    cbn [mbind option_bind].
    destruct cur; cbn [phase_table]; try (repeat split; discriminate).
    + (* ADDR *)
      destruct (c_true (fWrite d)); rewrite lpcDecStateSet_pushed by done;
        cbn [mbind option_bind];
        [apply advance_goto_data | apply advance_goto_tar]; done.
    + (* DATA *)
      rewrite lpcDecStateSet_pushed by done. cbn [mbind option_bind].
      by apply advance_goto_tar.
    + (* TAR *)
      specialize (Hprev eq_refl). unfold prev_phase in Hprev. rewrite Hprev.
      cbn [mbind option_bind].
      pose proof (advance_complete v d Hwf Hi) as Hcomp.
      destruct (c_true (fWrite d)).
      * destruct (decide (prev = LPCDECSTATE_DATA)) as [->|Hne].
        -- rewrite lpcDecStateSet_pushed by done. cbn [mbind option_bind].
           by apply advance_goto_sync.
        -- destruct prev; try done; exact Hcomp.
      * destruct (decide (prev = LPCDECSTATE_ADDR)) as [->|Hne].
        -- rewrite lpcDecStateSet_pushed by done. cbn [mbind option_bind].
           by apply advance_goto_sync.
        -- destruct prev; try done; exact Hcomp.
    + (* SYNC *)
      destruct (c_true (fWrite d)); rewrite lpcDecStateSet_pushed by done;
        cbn [mbind option_bind];
        [apply advance_goto_tar | apply advance_goto_data]; done.
  - intros -> Htar uSeqNo1 bSample1 uSeqNo2 bSample2 Hf1 Hf2.
    assert (cur_phase (set_cTarCycles 1 d) = Some LPCDECSTATE_TAR) as Hcur1
      by (rewrite <- Hcur; by destruct d).
    assert (u8BitLFrame (set_cTarCycles 1 d) = u8BitLFrame d) as Hfr1 by (by destruct d).
    rewrite (falling_edge_released v d uSeqNo1 bSample1 _ Hcur Hf1).
    rewrite (falling_edge_released v _ uSeqNo2 bSample2 _ Hcur1) by (by rewrite Hfr1).
    unfold lpcDecStateTarDecode.
    assert (cTarCycles (set_cTarCycles 1 d) = 1) as -> by (by destruct d).
    rewrite Htar. change (u8 (2 - 1)) with 1. change (u8 (1 - 1)) with 0.
    assert (cTarCycles (set_cTarCycles 1 d) = 1) as -> by (by destruct d).
    assert (cTarCycles (set_cTarCycles 0 (set_cTarCycles 1 d)) = 0) as ->
      by (by destruct d).
    assert (set_cTarCycles 0 (set_cTarCycles 1 d) = set_cTarCycles 0 d) as ->
      by (by destruct d).
    by split.
  - intros -> uSeqNo bSample Hf.
    rewrite (falling_edge_released v d uSeqNo bSample _ Hcur Hf).
    unfold lpcDecStateSyncDecode. split.
    + intros ->. reflexivity.
    + intros Hne. by destruct (Z.eqb_spec (lpcDecStateLadExtractFromSample d bSample) 0).
Qed.

Lemma lpcDecStateSampleAdvance_table_witness :
  (exists d',
     lpcDecStateSampleAdvance 0 ex_tar = Some (d', []) /\
     cur_phase d' = Some LPCDECSTATE_SYNC) /\
  falling_edge 0 ex_tar 130 (ref_sample 0 1 9) = Some (set_cTarCycles 1 ex_tar, []).
Proof.
  assert (idxState ex_tar < 8) as Hlt by (vm_compute; congruence).
  destruct (lpcDecStateSampleAdvance_table 0 ex_tar LPCDECSTATE_TAR LPCDECSTATE_DATA
              eq_refl eq_refl Hlt (fun _ => eq_refl)) as (Htab & Htar & _).
  split.
  - destruct Htab as (d' & Hadv & _ & Hcur & _). exists d'. split; [exact Hadv|exact Hcur].
  - exact (proj1 (Htar eq_refl eq_refl 130 (ref_sample 0 1 9) 132 (ref_sample 0 1 6)
                    eq_refl eq_refl)).
Defined.

(** ** Unknown phase values *)

(** Claim C8 as stated fails: on a phase value that the dispatcher does not
    know, the sample processor prints a diagnostic but returns status 0, and
    the sample loop goes on decoding the following samples; the advancement
    switch likewise only prints. *)
Lemma unknown_phase_not_fatal :
  cur_phase ex_unknown = Some LPCDECSTATE_INVALID /\
  known_phase LPCDECSTATE_INVALID = false /\
  lpcDecStateSampleProcess 0 ex_unknown 7 (ref_sample 0 1 5)
  = Some (0, set_fClkLast 0 ex_unknown, [OutUnknownState LPCDECSTATE_INVALID]) /\
  lpcDecStateSampleAdvance 0 ex_unknown
  = Some (ex_unknown, [OutUnknownState LPCDECSTATE_INVALID]) /\
  exists d' out,
    main_loop 0 ex_unknown
      [(7, ref_sample 0 1 5); (8, ref_sample 1 1 0); (9, ref_sample 0 0 0)]
    = Some (d', OutUnknownState LPCDECSTATE_INVALID :: out) /\
    cur_phase d' = Some LPCDECSTATE_START.
Proof.
  split; [reflexivity|]. split; [reflexivity|].
  split; [vm_compute; reflexivity|]. split; [vm_compute; reflexivity|].
  eexists _, _. split; vm_compute; reflexivity.
Qed.

(** Claim C8, amended.  When the current phase is none of the six known
    ones, the advancement switch and the per-edge dispatcher each print an
    "Unknown state" diagnostic and change nothing; the sample processor
    still returns status 0 (storing the low clock level), and the sample
    loop continues with the next sample. *)
Theorem unknown_phase_reported_and_ignored (v : Z) (d : LPCDEC) (s : LPCDECSTATE) :
  cur_phase d = Some s ->
  known_phase s = false ->
  lpcDecStateSampleAdvance v d = Some (d, [OutUnknownState s]) /\
  (forall uSeqNo bSample,
     is_falling d bSample ->
     sample_level bSample (u8BitLFrame d) = 1 ->
     lpcDecStateSampleProcess v d uSeqNo bSample
     = Some (0, set_fClkLast 0 d, [OutUnknownState s]) /\
     forall rest,
       main_loop v d ((uSeqNo, bSample) :: rest)
       = '(d', out) ← main_loop v (set_fClkLast 0 d) rest;
         Some (d', OutUnknownState s :: out)).
Proof.
  intros Hcur Hunk. split.
  - unfold lpcDecStateSampleAdvance. unfold cur_phase in Hcur. rewrite Hcur.
    by destruct s.
  - intros uSeqNo bSample Hfall Hfr.
    assert (lpcDecStateSampleProcess v d uSeqNo bSample
            = Some (0, set_fClkLast 0 d, [OutUnknownState s])) as Hp.
    { rewrite (lpcDecStateSampleProcess_falling v d uSeqNo bSample Hfall).
      rewrite (falling_edge_released v d uSeqNo bSample s Hcur Hfr).
      by destruct s. }
    split; [exact Hp|]. intros rest. cbn [main_loop]. rewrite Hp.
    cbn [mbind option_bind]. change (0 =? 0) with true. cbv iota.
    destruct (main_loop v (set_fClkLast 0 d) rest) as [[d' out]|]; reflexivity.
Qed.

Lemma unknown_phase_reported_and_ignored_witness :
  lpcDecStateSampleAdvance 1 ex_unknown
  = Some (ex_unknown, [OutUnknownState LPCDECSTATE_INVALID]) /\
  lpcDecStateSampleProcess 1 ex_unknown 7 (ref_sample 0 1 5)
  = Some (0, set_fClkLast 0 ex_unknown, [OutUnknownState LPCDECSTATE_INVALID]).
Proof.
  destruct (unknown_phase_reported_and_ignored 1 ex_unknown LPCDECSTATE_INVALID
              eq_refl eq_refl) as (Hadv & Hproc).
  split; [exact Hadv|].
  exact (proj1 (Hproc 7 (ref_sample 0 1 5) (conj eq_refl eq_refl) eq_refl)).
Defined.

(** ** What follows an emission *)

Lemma lpcDecStateDump_inv v d fAbort out :
  lpcDecStateDump v d fAbort = Some out ->
  exists line,
    out = snd (pszTyp_of (bTyp d)) ++ [OutCycle line] /\
    dl_abort line = c_true fAbort /\ dl_seq line = uSeqNoCycle d /\
    dl_addr line = u32Addr d /\ dl_data line = bData d.
Proof.
  unfold lpcDecStateDump. destruct (pszTyp_of (bTyp d)) as [t w]. simpl.
  destruct (c_true v); simpl.
  - destruct (state_chain d); simpl; [|discriminate].
    intros [= <-]. eexists. by repeat split.
  - intros [= <-]. eexists. by repeat split.
Qed.

Lemma In_dump_output typ line l :
  In (OutCycle l) (snd (pszTyp_of typ) ++ [OutCycle line]) -> l = line.
Proof.
  unfold pszTyp_of.
  repeat match goal with |- context [if ?c then _ else _] => destruct c end;
    simpl; intros H; repeat (destruct H as [H|H]; try discriminate; try done);
    congruence.
Qed.

Lemma In_dump_no_illegal typ line t :
  ~ In (OutIllegalType t) (snd (pszTyp_of typ) ++ [OutCycle line]).
Proof.
  unfold pszTyp_of.
  repeat match goal with |- context [if ?c then _ else _] => destruct c end;
    simpl; intros H; repeat (destruct H as [H|H]; try discriminate; try done).
Qed.

(** What [lpcDecStateSampleAdvance] can print, by current phase: only a
    finished TAR prints a decoded cycle, and then the state is the reset
    one. *)
Lemma lpcDecStateSampleAdvance_output v d s d' out :
  cur_phase d = Some s ->
  lpcDecStateSampleAdvance v d = Some (d', out) ->
  (forall t, ~ In (OutIllegalType t) out) /\
  (forall l, In (OutCycle l) out ->
     s = LPCDECSTATE_TAR /\ d' = lpcDecStateReset d /\ dl_abort l = false).
Proof.
  intros Hcur. unfold lpcDecStateSampleAdvance. unfold cur_phase in Hcur.
  rewrite Hcur. cbn [mbind option_bind].
  assert (forall (o : option LPCDEC) (f : LPCDEC -> LPCDEC),
            (x ← o; Some (f x, @nil Output)) = Some (d', out) -> out = []) as Hnil.
  { intros [x|] f; simpl; [|discriminate]. by intros [= _ <-]. }
  assert (forall o : list Output, o = [] ->
            (forall t, ~ In (OutIllegalType t) o) /\
            (forall l, In (OutCycle l) o ->
               s = LPCDECSTATE_TAR /\ d' = lpcDecStateReset d /\ dl_abort l = false))
    as Hempty by (intros o ->; split; [intros t []|intros l []]).
  assert (forall o : option (list Output),
            (out' ← o; Some (lpcDecStateReset d, out')) = Some (d', out) ->
            o = lpcDecStateDump v d 0 -> s = LPCDECSTATE_TAR ->
            (forall t, ~ In (OutIllegalType t) out) /\
            (forall l, In (OutCycle l) out ->
               s = LPCDECSTATE_TAR /\ d' = lpcDecStateReset d /\ dl_abort l = false))
    as Hdump.
  { intros [o|]; simpl; [|discriminate]. intros [= <- <-] Ho Hs. symmetry in Ho.
    destruct (lpcDecStateDump_inv v d 0 o Ho) as (line & -> & Hab & _).
    split.
    - intros t. apply In_dump_no_illegal.
    - intros l Hl. apply In_dump_output in Hl. subst l. by repeat split. }
  destruct s; try (intros [= <- <-]; split;
                   [intros t [H|[]]; discriminate|intros l [H|[]]; discriminate]).
  - intros [= <- <-]. by apply Hempty.
  - destruct (c_true (fWrite d)); intros H; apply Hempty;
      exact (Hnil _ (fun x => _ x) H).
  - intros H. apply Hempty. exact (Hnil _ (fun x => _ x) H).
  - destruct (aenmState_read d (u32 (idxState d - 1))) as [prev|]; simpl; [|discriminate].
    destruct (c_true (fWrite d)).
    + destruct (decide (prev = LPCDECSTATE_DATA)).
      * intros H. apply Hempty. exact (Hnil _ (fun x => x) H).
      * intros H. by apply (Hdump _ H).
    + destruct (decide (prev = LPCDECSTATE_ADDR)).
      * intros H. apply Hempty. exact (Hnil _ (fun x => x) H).
      * intros H. by apply (Hdump _ H).
  - destruct (c_true (fWrite d)); intros H; apply Hempty;
      exact (Hnil _ (fun x => _ x) H).
Qed.

Lemma lpcDecStateReset_idle d : wf d -> idle_and_zeroed (lpcDecStateReset d).
Proof.
  intros Hwf. unfold idle_and_zeroed.
  rewrite lpcDecStateReset_cur, lpcDecStateReset_history by done. by destruct d.
Qed.

Lemma lpcDecStateSet_wf d s d' : wf d -> lpcDecStateSet d s = Some d' -> wf d'.
Proof.
  unfold lpcDecStateSet, aenmState_write.
  destruct (_ && _); [|discriminate]. intros Hwf [= <-].
  destruct d. unfold wf in *. simpl in *. by rewrite length_insert.
Qed.

Lemma set_fClkLast_idle a d :
  idle_and_zeroed (set_fClkLast a d) <-> idle_and_zeroed d.
Proof. by destruct d. Qed.

Lemma set_fClkLast_started a d :
  started_and_zeroed (set_fClkLast a d) <-> started_and_zeroed d.
Proof. by destruct d. Qed.

(** The three emissions and the state the edge body ends in. *)
Lemma falling_edge_emission v d uSeqNo bSample d' out :
  wf d ->
  falling_edge v d uSeqNo bSample = Some (d', out) ->
  (forall l, In (OutCycle l) out -> dl_abort l = false -> idle_and_zeroed d') /\
  (forall l, In (OutCycle l) out -> dl_abort l = true -> started_and_zeroed d') /\
  (forall t, In (OutIllegalType t) out -> idle_and_zeroed d').
Proof.
  intros Hwf Hedge.
  destruct (cur_phase d) as [s|] eqn:Hcur.
  2:{ unfold falling_edge in Hedge. unfold cur_phase in Hcur. rewrite Hcur in Hedge.
      by destruct (negb _). }
  destruct (sample_level_01 bSample (u8BitLFrame d)) as [Hfr|Hfr].
  - (* LFRAME# asserted *)
    rewrite (falling_edge_frame_asserted v d uSeqNo bSample s Hwf Hcur Hfr) in Hedge.
    injection Hedge as <- <-.
    set (r := lpcDecStateReset _).
    assert (wf r) as Hr by (apply lpcDecStateReset_wf; by destruct d).
    assert (0 <= idxState r < 8) as Hir by (unfold r; rewrite lpcDecStateReset_idx; lia).
    assert (started_and_zeroed (pushed r LPCDECSTATE_START)) as Hstarted.
    { unfold started_and_zeroed. rewrite pushed_cur, pushed_history by done.
      unfold r. rewrite lpcDecStateReset_history by (by destruct d).
      repeat split; by destruct d. }
    destruct (negb _ && negb _).
    + split; [|split].
      * intros l Hl Hab. apply In_dump_output in Hl. by subst l.
      * by intros.
      * intros t Ht. by apply In_dump_no_illegal in Ht.
    + split; [|split]; by intros ? [].
  - (* LFRAME# released *)
    rewrite (falling_edge_released v d uSeqNo bSample s Hcur Hfr) in Hedge.
    set (bLad := lpcDecStateLadExtractFromSample d bSample) in *.
    assert (forall d1 : LPCDEC,
              wf d1 -> cur_phase d1 = Some s ->
              lpcDecStateSampleAdvance v d1 = Some (d', out) ->
              (forall l, In (OutCycle l) out -> dl_abort l = false -> idle_and_zeroed d') /\
              (forall l, In (OutCycle l) out -> dl_abort l = true -> started_and_zeroed d') /\
              (forall t, In (OutIllegalType t) out -> idle_and_zeroed d')) as Hadv.
    { intros d1 Hwf1 Hcur1 H1.
      destruct (lpcDecStateSampleAdvance_output v d1 s d' out Hcur1 H1) as (Hill & Hcyc).
      split; [|split].
      - intros l Hl _. destruct (Hcyc l Hl) as (_ & -> & _).
        by apply lpcDecStateReset_idle.
      - intros l Hl Hab. destruct (Hcyc l Hl) as (_ & _ & Hf). congruence.
      - intros t Ht. by destruct (Hill t). }
    assert (forall o : list Output, o = [] -> out = o ->
              (forall l, In (OutCycle l) out -> dl_abort l = false -> idle_and_zeroed d') /\
              (forall l, In (OutCycle l) out -> dl_abort l = true -> started_and_zeroed d') /\
              (forall t, In (OutIllegalType t) out -> idle_and_zeroed d')) as Hnil.
    { intros o -> ->. split; [|split]; by intros ? []. }
    destruct s.
    + injection Hedge as <- <-. split; [|split]; intros ? [H|[]]; discriminate.
    + injection Hedge as <- <-. by apply (Hnil []).
    + (* START *)
      unfold lpcDecStateStartDecode in Hedge.
      destruct (bStartLast d =? LPC_DEC_START_TARGET_CYCLE).
      * destruct (lpcDecStateSet _ LPCDECSTATE_ADDR) as [p|] eqn:Hset; [|discriminate].
        apply lpcDecStateSet_wf in Hset; [|by destruct d].
        cbn [mbind option_bind] in Hedge.
        destruct (bTyp p =? LPC_DEC_CYC_TYPE_IO);
          [injection Hedge as <- <-; by apply (Hnil [])|].
        destruct (bTyp p =? LPC_DEC_CYC_TYPE_MEM);
          [injection Hedge as <- <-; by apply (Hnil [])|].
        injection Hedge as <- <-. split; [|split].
        -- intros l [H|[]]. discriminate.
        -- intros l [H|[]]. discriminate.
        -- intros t _. by apply lpcDecStateReset_idle.
      * destruct (bStartLast d =? LPC_DEC_START_ABORT);
          injection Hedge as <- <-; by apply (Hnil []).
    + (* ADDR *)
      unfold lpcDecStateAddrDecode in Hedge.
      destruct (negb _).
      * apply (Hadv _) in Hedge; [done|by destruct d|rewrite <- Hcur; by destruct d].
      * injection Hedge as <- <-. by apply (Hnil []).
    + (* DATA *)
      unfold lpcDecStateDataDecode in Hedge.
      destruct (_ =? _).
      * apply (Hadv _) in Hedge; [done|by destruct d|rewrite <- Hcur; by destruct d].
      * injection Hedge as <- <-. by apply (Hnil []).
    + (* TAR *)
      unfold lpcDecStateTarDecode in Hedge.
      destruct (negb _).
      * apply (Hadv _) in Hedge; [done|by destruct d|rewrite <- Hcur; by destruct d].
      * injection Hedge as <- <-. by apply (Hnil []).
    + (* SYNC *)
      unfold lpcDecStateSyncDecode in Hedge.
      destruct (_ =? _).
      * by apply (Hadv _) in Hedge.
      * injection Hedge as <- <-. by apply (Hnil []).
    + injection Hedge as <- <-. split; [|split]; intros ? [H|[]]; discriminate.
Qed.

(** Claim C9 as stated fails after an aborted cycle: the reset that follows
    the aborted line is itself followed by the push of START, so the sample
    that printed the line leaves the decoder in START, not in WaitFrame. *)
Lemma aborted_edge_ends_in_start :
  cur_phase ex_addr = Some LPCDECSTATE_ADDR /\
  exists d' line,
    lpcDecStateSampleProcess 0 ex_addr 300 (ref_sample 0 0 0)
    = Some (0, d', [OutCycle line]) /\
    dl_abort line = true /\
    cur_phase d' = Some LPCDECSTATE_START /\
    cur_phase d' <> Some LPCDECSTATE_LFRAME_WAIT_ASSERTED.
Proof.
  split; [reflexivity|]. eexists _, _.
  split; [vm_compute; reflexivity|]. split; [reflexivity|].
  split; [reflexivity|discriminate].
Qed.

(** Claim C9, amended.  [lpcDecStateReset] leaves the phase WaitFrame with
    the history WaitFrame alone and the address accumulator, the data
    accumulator and the data-nibble index zero, and applying it twice equals
    applying it once.  A sample that prints a decoded-cycle line not marked
    aborted, or that reports an unsupported cycle type, leaves the decoder in
    that state.  A sample that prints an aborted line leaves the
    accumulators zero too, but START has been pushed after the reset: the
    history is WaitFrame, START and the current phase is START. *)
Theorem reset_after_emission (v : Z) (d : LPCDEC) (uSeqNo bSample : Z)
    (rc : Z) (d' : LPCDEC) (out : list Output) :
  wf d ->
  lpcDecStateSampleProcess v d uSeqNo bSample = Some (rc, d', out) ->
  idle_and_zeroed (lpcDecStateReset d) /\
  lpcDecStateReset (lpcDecStateReset d) = lpcDecStateReset d /\
  (forall l, In (OutCycle l) out -> dl_abort l = false -> idle_and_zeroed d') /\
  (forall t, In (OutIllegalType t) out -> idle_and_zeroed d') /\
  (forall l, In (OutCycle l) out -> dl_abort l = true -> started_and_zeroed d').
Proof.
  intros Hwf Hp.
  split; [by apply lpcDecStateReset_idle|]. split; [apply lpcDecStateReset_idem|].
  unfold lpcDecStateSampleProcess in Hp.
  destruct (_ =? fClkLast d).
  { injection Hp as <- <- <-. split; [|split]; by intros ? []. }
  destruct (c_true (fClkLast d) && negb (c_true (sample_level bSample (u8BitLClk d)))).
  - destruct (falling_edge v d uSeqNo bSample) as [[d1 out1]|] eqn:Hedge; [|discriminate].
    injection Hp as <- <- <-.
    destruct (falling_edge_emission v d uSeqNo bSample d1 out1 Hwf Hedge)
      as (Hdone & Hab & Hill).
    split; [|split].
    + intros l Hl Hf. apply set_fClkLast_idle. by apply (Hdone l).
    + intros t Ht. apply set_fClkLast_idle. by apply (Hill t).
    + intros l Hl Ht. apply set_fClkLast_started. by apply (Hab l).
  - injection Hp as <- <- <-. split; [|split]; by intros ? [].
Qed.

Lemma reset_after_emission_witness :
  exists d' line,
    lpcDecStateSampleProcess 0 ex_tar_final 200 (ref_sample 0 1 15)
    = Some (0, d', [OutCycle line]) /\
    idle_and_zeroed d'.
Proof.
  eexists _, _. split; [vm_compute; reflexivity|].
  refine (proj1 (proj2 (proj2 (reset_after_emission 0 ex_tar_final 200 (ref_sample 0 1 15)
                                 0 _ _ eq_refl eq_refl))) _ (or_introl eq_refl) eq_refl).
Defined.

(** ** The invariant holds in every reachable state *)

(** Makes the array and the history index of a well-shaped state concrete:
    one goal per index and direction. *)
Ltac concretize d Hshape :=
  let Hwf := fresh "Hwf" in let Hi := fresh "Hi" in
  let Hh := fresh "Hh" in let Hd := fresh "Hd" in
  let E := fresh "E" in let Hc := fresh "Hc" in let Hw := fresh "Hw" in
  destruct Hshape as (Hwf & Hi & Hh & Hd);
  destruct (wf_slots d Hwf) as (?a0 & ?a1 & ?a2 & ?a3 & ?a4 & ?a5 & ?a6 & ?a7 & ?a8 & E);
  destruct d as [clk frm l0 l1 l2 l3 idx arr seq last start typ wr ca cd id ct addr data];
  cbn [idxState aenmState fWrite iDataCycle bData] in *;
  subst arr;
  assert (idx = 0 \/ idx = 1 \/ idx = 2 \/ idx = 3 \/ idx = 4 \/ idx = 5 \/ idx = 6)
    as Hc by lia;
  destruct (c_true wr) eqn:Hw;
  destruct Hc as [Hc|[Hc|[Hc|[Hc|[Hc|[Hc|Hc]]]]]]; subst idx;
  unfold phase_history in Hh, Hd; simpl in Hh, Hd;
  injection Hh as ?; subst.

(** The advancement switch, one equation per known phase. *)
Lemma lpcDecStateSampleAdvance_eq v d cur :
  wf d -> cur_phase d = Some cur -> idxState d < 8 ->
  lpcDecStateSampleAdvance v d
  = match cur with
    | LPCDECSTATE_LFRAME_WAIT_ASSERTED => Some (d, [])
    | LPCDECSTATE_ADDR =>
        Some (if c_true (fWrite d)
              then set_cDataCycles 2 (pushed d LPCDECSTATE_DATA)
              else set_cTarCycles 2 (pushed d LPCDECSTATE_TAR), [])
    | LPCDECSTATE_DATA => Some (set_cTarCycles 2 (pushed d LPCDECSTATE_TAR), [])
    | LPCDECSTATE_TAR =>
        prev ← prev_phase d;
        if bool_decide (prev = if c_true (fWrite d)
                               then LPCDECSTATE_DATA else LPCDECSTATE_ADDR)
        then Some (pushed d LPCDECSTATE_SYNC, [])
        else Some (lpcDecStateReset d,
                   snd (pszTyp_of (bTyp d)) ++ [OutCycle (dump_line v d 0)])
    | LPCDECSTATE_SYNC =>
        Some (if c_true (fWrite d)
              then set_cTarCycles 2 (pushed d LPCDECSTATE_TAR)
              else set_cDataCycles 2 (pushed d LPCDECSTATE_DATA), [])
    | _ => Some (d, [OutUnknownState cur])
    end.
Proof.
  intros Hwf Hcur Hlt. pose proof (cur_phase_bounds d cur Hcur) as Hi.
  assert (0 <= idxState d < 8) as Hi8 by lia.
  unfold lpcDecStateSampleAdvance. rewrite (lpcDecStateDump_Some v d 0 Hwf Hi).
  unfold cur_phase in Hcur. rewrite Hcur. cbn [mbind option_bind].
  destruct cur; try reflexivity.
  - destruct (c_true (fWrite d)); by rewrite lpcDecStateSet_pushed.
  - by rewrite lpcDecStateSet_pushed.
  - unfold prev_phase. destruct (aenmState_read d (u32 (idxState d - 1))) as [prev|];
      [|reflexivity].
    cbn [mbind option_bind]. rewrite lpcDecStateSet_pushed by done.
    destruct (c_true (fWrite d)).
    + destruct (decide (prev = LPCDECSTATE_DATA)) as [->|Hne].
      * by rewrite bool_decide_eq_true_2.
      * by rewrite bool_decide_eq_false_2.
    + destruct (decide (prev = LPCDECSTATE_ADDR)) as [->|Hne].
      * by rewrite bool_decide_eq_true_2.
      * by rewrite bool_decide_eq_false_2.
  - destruct (c_true (fWrite d)); by rewrite lpcDecStateSet_pushed.
Qed.

(** Closes [Inv] of a state whose index and history slots are concrete. *)
Ltac inv_history_side Hd :=
  let Hn := fresh "Hn" in
  intros Hn;
  first [ exfalso; apply Hn; vm_compute; tauto
        | apply Hd; vm_compute; intuition discriminate
        | cbn; split; reflexivity ].

Ltac inv_counters :=
  match goal with
  | |- Counters ?d =>
      let r := eval vm_compute in (cur_phase d) in
      unfold Counters; replace (cur_phase d) with r by reflexivity;
      cbv iota beta;
      cbn [cAddrCycles cDataCycles iDataCycle cTarCycles bData]
  end.

Ltac inv_shape Hw Hd :=
  split; [reflexivity|];
  split; [cbn [idxState]; lia|];
  split; [unfold phase_history; cbn [idxState aenmState fWrite];
          rewrite ?Hw; reflexivity|];
  inv_history_side Hd.

Ltac eval_obs :=
  repeat match goal with
  | |- context [prev_phase ?d] =>
      let r := eval vm_compute in (prev_phase d) in
      replace (prev_phase d) with r by reflexivity
  | |- context [cur_phase ?d] =>
      let r := eval vm_compute in (cur_phase d) in
      replace (cur_phase d) with r by reflexivity
  | |- context [bool_decide ?P] =>
      let r := eval vm_compute in (bool_decide P) in
      replace (bool_decide P) with r by reflexivity
  end;
  cbn [mbind option_bind]; cbv iota beta.

Ltac reduce_fields :=
  unfold pushed;
  cbn [set_idxState set_aenmState set_uSeqNoCycle set_fClkLast set_bStartLast
       set_bTyp set_fWrite set_cAddrCycles set_cDataCycles set_iDataCycle
       set_cTarCycles set_u32Addr set_bData
       idxState aenmState uSeqNoCycle fClkLast bStartLast bTyp fWrite
       cAddrCycles cDataCycles iDataCycle cTarCycles u32Addr bData].

Ltac reduce_state :=
  unfold pushed, lpcDecStateReset;
  cbn [set_idxState set_aenmState set_uSeqNoCycle set_fClkLast set_bStartLast
       set_bTyp set_fWrite set_cAddrCycles set_cDataCycles set_iDataCycle
       set_cTarCycles set_u32Addr set_bData
       idxState aenmState uSeqNoCycle fClkLast bStartLast bTyp fWrite
       cAddrCycles cDataCycles iDataCycle cTarCycles u32Addr bData].

Lemma advance_Inv v d s :
  Shape d ->
  cur_phase d = Some s ->
  s = LPCDECSTATE_ADDR \/ s = LPCDECSTATE_DATA \/ s = LPCDECSTATE_TAR \/ s = LPCDECSTATE_SYNC ->
  exists d' out, lpcDecStateSampleAdvance v d = Some (d', out) /\ Inv d'.
Proof.
  intros Hshape Hcur Hs.
  assert (wf d /\ idxState d < 8) as [Hwf' Hi']
    by (destruct Hshape as (?&?&?); split; [done|lia]).
  rewrite (lpcDecStateSampleAdvance_eq v d s Hwf' Hcur Hi'). clear Hwf' Hi'.
  concretize d Hshape.
  all: vm_compute in Hcur; injection Hcur as <-.
  all: try (destruct Hs as [Hs|[Hs|[Hs|Hs]]]; discriminate).
  all: clear Hs Hwf Hi.
  all: cbv iota beta; cbn [fWrite]; rewrite ?Hw.
  all: eval_obs.
  all: eexists _, _; (split; [reflexivity|]).
  all: reduce_state.
  all: split; [inv_shape Hw Hd|inv_counters].
  all: try done; try (right; reflexivity).
  all: split; [reflexivity|left; apply Hd; vm_compute; intuition discriminate].
Qed.

Lemma cur_phase_in_history d s : cur_phase d = Some s -> In s (phase_history d).
Proof.
  intros Hcur. pose proof (cur_phase_bounds d s Hcur) as Hi.
  unfold cur_phase, aenmState_read, AENMSTATE_SLOTS in Hcur.
  destruct (_ && _); [|discriminate].
  apply list_elem_of_In. unfold phase_history.
  apply (list_elem_of_lookup_2 _ (Z.to_nat (idxState d))).
  rewrite lookup_take_lt by lia. exact Hcur.
Qed.

Lemma lpcDecStateReset_Inv d : wf d -> Inv (lpcDecStateReset d).
Proof.
  intros Hwf. destruct (wf_slots d Hwf) as (a0&a1&a2&a3&a4&a5&a6&a7&a8&E).
  destruct d as [clk frm l0 l1 l2 l3 idx arr seq last start typ wr ca cd id ct addr data].
  simpl in E. subst arr. reduce_state.
  split; [|inv_counters; done].
  split; [reflexivity|]. split; [cbn [idxState]; lia|].
  split; [|by intros _].
  unfold phase_history. cbn [idxState aenmState fWrite].
  by destruct (c_true wr).
Qed.

Lemma restart_Inv d : wf d -> Inv (pushed (lpcDecStateReset d) LPCDECSTATE_START).
Proof.
  intros Hwf. destruct (wf_slots d Hwf) as (a0&a1&a2&a3&a4&a5&a6&a7&a8&E).
  destruct d as [clk frm l0 l1 l2 l3 idx arr seq last start typ wr ca cd id ct addr data].
  simpl in E. subst arr. reduce_state.
  split; [|inv_counters; done].
  split; [reflexivity|]. split; [cbn [idxState]; lia|].
  split; [|by intros _].
  unfold phase_history. cbn [idxState aenmState fWrite].
  by destruct (c_true wr).
Qed.

Lemma lpcDecStateStartDecode_Inv d bLad :
  Inv d -> cur_phase d = Some LPCDECSTATE_START ->
  exists d' out, lpcDecStateStartDecode d bLad = Some (d', out) /\ Inv d'.
Proof.
  intros [Hshape Hcnt] Hcur. unfold lpcDecStateStartDecode.
  assert (wf d) as Hwf by (by destruct Hshape).
  destruct (bStartLast d =? LPC_DEC_START_TARGET_CYCLE).
  2:{ destruct (bStartLast d =? LPC_DEC_START_ABORT).
      - eexists _, _. split; [reflexivity|]. by apply lpcDecStateReset_Inv.
      - eexists _, _. split; [reflexivity|]. by split. }
  unfold LPC_DEC_CYC_DIR_IS_READ, LPC_DEC_CYC_DIR_READ.
  set (t := LPC_DEC_CYC_TYPE_GET bLad). clearbody t.
  set (r := Z.land bLad 2 =? 0). clearbody r.
  clear Hcnt Hwf.
  concretize d Hshape.
  all: vm_compute in Hcur; try discriminate; clear Hcur.
  all: reduce_fields.
  all: rewrite lpcDecStateSet_pushed by (cbn [idxState]; lia).
  all: cbn [mbind option_bind]; reduce_fields.
  all: destruct (t =? LPC_DEC_CYC_TYPE_IO);
         [|destruct (t =? LPC_DEC_CYC_TYPE_MEM)].
  all: eexists _, _; (split; [reflexivity|]).
  all: try (apply lpcDecStateReset_Inv; reflexivity).
  all: reduce_state.
  all: destruct r; cbn [negb c_int].
  all: (split; [|inv_counters; lia]).
  all: split; [reflexivity|].
  all: split; [cbn [idxState]; lia|].
  all: split; [reflexivity|].
  all: intros _; apply Hd; vm_compute; intuition discriminate.
Qed.

Lemma lpcDecStateAddrDecode_Inv v d bLad :
  Inv d -> cur_phase d = Some LPCDECSTATE_ADDR ->
  exists d' out, lpcDecStateAddrDecode v d bLad = Some (d', out) /\ Inv d'.
Proof.
  intros [Hshape Hcnt] Hcur. unfold Counters in Hcnt. rewrite Hcur in Hcnt.
  unfold lpcDecStateAddrDecode.
  set (d1 := set_u32Addr _ _).
  assert (Shape d1) as Hshape1 by (by destruct d).
  assert (cur_phase d1 = Some LPCDECSTATE_ADDR) as Hcur1 by (rewrite <- Hcur; by destruct d).
  assert (cAddrCycles d1 = cAddrCycles d - 1) as Hc1.
  { transitivity (u8 (cAddrCycles d - 1)); [by destruct d|].
    unfold u8. rewrite Z.mod_small; lia. }
  cbv zeta. destruct (negb (c_true (cAddrCycles d1))) eqn:Hz.
  - apply (advance_Inv v d1 LPCDECSTATE_ADDR); auto.
  - eexists _, _. split; [reflexivity|]. split; [done|].
    unfold Counters. rewrite Hcur1, Hc1.
    unfold c_true in Hz. rewrite Hc1 in Hz.
    destruct (Z.eqb_spec (cAddrCycles d - 1) 0); [discriminate|lia].
Qed.

Lemma lpcDecStateDataDecode_Inv v d bLad :
  0 <= bLad < 16 ->
  Inv d -> cur_phase d = Some LPCDECSTATE_DATA ->
  exists d' out, lpcDecStateDataDecode v d bLad = Some (d', out) /\ Inv d'.
Proof.
  intros Hlad [Hshape Hcnt] Hcur. unfold Counters in Hcnt. rewrite Hcur in Hcnt.
  destruct Hcnt as (Hcd & Hid).
  unfold lpcDecStateDataDecode.
  set (d1 := set_iDataCycle _ _).
  assert (cur_phase d1 = Some LPCDECSTATE_DATA) as Hcur1 by (rewrite <- Hcur; by destruct d).
  assert (Shape d1) as Hshape1.
  { destruct Hshape as (Hwf & Hi & Hh & Hd).
    split; [by destruct d|]. split; [by destruct d|]. split; [by destruct d|].
    intros Hn. exfalso. apply Hn. by apply cur_phase_in_history. }
  assert (cDataCycles d1 = 2) as Hcd1 by (rewrite <- Hcd; by destruct d).
  assert (iDataCycle d1 = u8 (iDataCycle d + 1)) as Hid1 by (by destruct d).
  assert (bData d1 = u8 (Z.lor (bData d) (Z.shiftl bLad (iDataCycle d * 4)))) as Hbd1
    by (by destruct d).
  cbv zeta. destruct (iDataCycle d1 =? cDataCycles d1) eqn:Hz.
  - apply (advance_Inv v d1 LPCDECSTATE_DATA); auto.
  - eexists _, _. split; [reflexivity|]. split; [done|].
    unfold Counters. rewrite Hcur1. split; [done|].
    rewrite Hid1, Hcd1 in Hz. rewrite Hid1, Hbd1.
    destruct Hid as [[Hi0 Hb0]|[Hi1 Hb1]].
    + right. rewrite Hi0, Hb0. change (u8 (0 + 1)) with 1.
      rewrite Z.lor_0_l. change (0 * 4) with 0. rewrite Z.shiftl_0_r.
      unfold u8. rewrite Z.mod_small by lia. lia.
    + rewrite Hi1 in Hz. discriminate.
Qed.

Lemma lpcDecStateTarDecode_Inv v d bLad :
  Inv d -> cur_phase d = Some LPCDECSTATE_TAR ->
  exists d' out, lpcDecStateTarDecode v d bLad = Some (d', out) /\ Inv d'.
Proof.
  intros [Hshape Hcnt] Hcur. unfold Counters in Hcnt. rewrite Hcur in Hcnt.
  unfold lpcDecStateTarDecode.
  set (d1 := set_cTarCycles _ _).
  assert (Shape d1) as Hshape1 by (by destruct d).
  assert (cur_phase d1 = Some LPCDECSTATE_TAR) as Hcur1 by (rewrite <- Hcur; by destruct d).
  assert (cTarCycles d1 = u8 (cTarCycles d - 1)) as Hc1 by (by destruct d).
  cbv zeta. destruct (negb (c_true (cTarCycles d1))) eqn:Hz.
  - apply (advance_Inv v d1 LPCDECSTATE_TAR); auto.
  - eexists _, _. split; [reflexivity|]. split; [done|].
    unfold Counters. rewrite Hcur1, Hc1. rewrite Hc1 in Hz.
    destruct Hcnt as [Hc | Hc]; rewrite Hc in *.
    + vm_compute in Hz. discriminate.
    + left. reflexivity.
Qed.

Lemma lpcDecStateSyncDecode_Inv v d bLad :
  Inv d -> cur_phase d = Some LPCDECSTATE_SYNC ->
  exists d' out, lpcDecStateSyncDecode v d bLad = Some (d', out) /\ Inv d'.
Proof.
  intros HInv Hcur. unfold lpcDecStateSyncDecode. destruct (bLad =? 0).
  - apply (advance_Inv v d LPCDECSTATE_SYNC); auto. by destruct HInv.
  - by eexists _, _.
Qed.

(** A well-shaped state holds one of the six known phases. *)
Lemma Shape_known d : Shape d -> exists s, cur_phase d = Some s /\ known_phase s = true.
Proof.
  intros Hshape. concretize d Hshape; eexists; split; reflexivity.
Qed.

Lemma falling_edge_Inv v d uSeqNo bSample :
  Inv d -> exists d' out, falling_edge v d uSeqNo bSample = Some (d', out) /\ Inv d'.
Proof.
  intros HInv. pose proof HInv as [Hshape Hcnt].
  assert (wf d) as Hwf by (by destruct Hshape).
  destruct (Shape_known d Hshape) as (s & Hcur & Hknown).
  destruct (sample_level_01 bSample (u8BitLFrame d)) as [Hfr|Hfr].
  - rewrite (falling_edge_frame_asserted v d uSeqNo bSample s Hwf Hcur Hfr).
    eexists _, _. split; [reflexivity|]. apply restart_Inv. by destruct d.
  - rewrite (falling_edge_released v d uSeqNo bSample s Hcur Hfr).
    destruct s; try discriminate.
    + by eexists _, _.
    + by apply lpcDecStateStartDecode_Inv.
    + by apply lpcDecStateAddrDecode_Inv.
    + apply lpcDecStateDataDecode_Inv; [apply lpcDecStateLadExtractFromSample_range|done..].
    + by apply lpcDecStateTarDecode_Inv.
    + by apply lpcDecStateSyncDecode_Inv.
Qed.

Lemma set_fClkLast_Inv a d : Inv d -> Inv (set_fClkLast a d).
Proof. by destruct d. Qed.

Lemma lpcDecStateSampleProcess_Inv v d uSeqNo bSample :
  Inv d ->
  exists d' out, lpcDecStateSampleProcess v d uSeqNo bSample = Some (0, d', out) /\ Inv d'.
Proof.
  intros HInv. unfold lpcDecStateSampleProcess.
  destruct (_ =? fClkLast d); [by eexists _, _|].
  destruct (c_true (fClkLast d) && _).
  - destruct (falling_edge_Inv v d uSeqNo bSample HInv) as (d' & out & -> & HInv').
    eexists _, _. split; [reflexivity|]. by apply set_fClkLast_Inv.
  - eexists _, _. split; [reflexivity|]. by apply set_fClkLast_Inv.
Qed.

Lemma main_loop_Inv v samples : forall d,
  Inv d -> exists d' out, main_loop v d samples = Some (d', out) /\ Inv d'.
Proof.
  induction samples as [|[uSeqNo bVal] rest IH]; intros d HInv.
  - by eexists _, _.
  - cbn [main_loop].
    destruct (lpcDecStateSampleProcess_Inv v d uSeqNo bVal HInv) as (d1 & out1 & -> & HInv1).
    cbn [mbind option_bind]. change (0 =? 0) with true. cbv iota.
    destruct (IH d1 HInv1) as (d2 & out2 & -> & HInv2).
    by eexists _, _.
Qed.

Lemma lpcDecStateInit_Inv d clk frame lad0 lad1 lad2 lad3 :
  wf d -> Inv (lpcDecStateInit d clk frame lad0 lad1 lad2 lad3).
Proof.
  intros Hwf. unfold lpcDecStateInit. apply lpcDecStateReset_Inv. by destruct d.
Qed.

Lemma reachable_Inv v d : reachable v d -> Inv d.
Proof.
  intros (mem & clk & frame & lad0 & lad1 & lad2 & lad3 & samples & out & Hwf & Hrun).
  destruct (main_loop_Inv v samples _ (lpcDecStateInit_Inv mem clk frame lad0 lad1 lad2 lad3 Hwf))
    as (d' & out' & Hrun' & HInv).
  rewrite Hrun in Hrun'. by injection Hrun' as -> _.
Qed.

(** Claim C7.  Whatever the memory held before initialisation, whatever
    the pin numbers and whatever samples are fed, the sample loop runs to the
    end without any access leaving the nine slots of [aenmState]; the state
    it ends in has at most seven phases in its history (index at most 6), so
    that one more push by [lpcDecStateSet] would still write inside the
    array. *)
Theorem phase_history_within_capacity
    (v : Z) (mem : LPCDEC) (clk frame lad0 lad1 lad2 lad3 : Z) (samples : list (Z * Z)) :
  wf mem ->
  exists d out,
    main_loop v (lpcDecStateInit mem clk frame lad0 lad1 lad2 lad3) samples = Some (d, out) /\
    0 <= idxState d <= 6 /\
    (length (phase_history d) <= 7)%nat /\
    forall s, exists d',
      lpcDecStateSet d s = Some d' /\ 0 <= idxState d' < AENMSTATE_SLOTS.
Proof.
  intros Hwf.
  destruct (main_loop_Inv v samples _ (lpcDecStateInit_Inv mem clk frame lad0 lad1 lad2 lad3 Hwf))
    as (d & out & Hrun & (Hwfd & Hi & Hh & _) & _).
  exists d, out. split; [exact Hrun|]. split; [exact Hi|]. split.
  - unfold phase_history. rewrite length_take. lia.
  - intros s. exists (pushed d s). split; [apply lpcDecStateSet_pushed; lia|].
    destruct (pushed_fields d s) as (_ & -> & _). unfold AENMSTATE_SLOTS. lia.
Qed.

Lemma phase_history_within_capacity_witness :
  exists d out,
    main_loop 1 (lpcDecStateInit ex_memory 0 1 5 4 3 2)
      (clock_nibbles 100 [(0, 0); (1, 6); (1, 1); (1, 2)]) = Some (d, out) /\
    0 <= idxState d <= 6.
Proof.
  destruct (phase_history_within_capacity 1 ex_memory 0 1 5 4 3 2
              (clock_nibbles 100 [(0, 0); (1, 6); (1, 1); (1, 2)]) eq_refl)
    as (d & out & Hrun & Hi & _).
  exists d, out. split; [exact Hrun|exact Hi].
Defined.

(** ** The data phase *)

Lemma lor_nibbles lo hi :
  0 <= lo < 16 -> 0 <= hi < 16 -> Z.lor lo (Z.shiftl hi 4) = lo + 16 * hi.
Proof.
  intros Hlo Hhi. nibble_cases lo H1; nibble_cases hi H2; reflexivity.
Qed.

Lemma lpcDecStateDataDecode_step v d bLad :
  cDataCycles d = 2 ->
  (iDataCycle d = 0 /\ bData d = 0 \/ iDataCycle d = 1 /\ 0 <= bData d < 16) ->
  0 <= bLad < 16 ->
  lpcDecStateDataDecode v d bLad
  = if iDataCycle d + 1 =? 2
    then lpcDecStateSampleAdvance v
           (set_iDataCycle (iDataCycle d + 1)
              (set_bData (Z.lor (bData d) (Z.shiftl bLad (iDataCycle d * 4))) d))
    else Some (set_iDataCycle (iDataCycle d + 1)
                 (set_bData (Z.lor (bData d) (Z.shiftl bLad (iDataCycle d * 4))) d), []).
Proof.
  intros Hcd Hid Hlad. unfold lpcDecStateDataDecode.
  assert (u8 (Z.lor (bData d) (Z.shiftl bLad (iDataCycle d * 4)))
          = Z.lor (bData d) (Z.shiftl bLad (iDataCycle d * 4))) as ->.
  { unfold u8. apply Z.mod_small. destruct Hid as [[-> ->]|[-> Hb]].
    - rewrite Z.lor_0_l. change (0 * 4) with 0. rewrite Z.shiftl_0_r. lia.
    - change (1 * 4) with 4. rewrite lor_nibbles by done. lia. }
  assert (u8 (iDataCycle d + 1) = iDataCycle d + 1) as Hu
    by (unfold u8; apply Z.mod_small; destruct Hid as [[-> _]|[-> _]]; lia).
  set (d1 := set_bData _ d).
  assert (iDataCycle d1 = iDataCycle d) as -> by (by destruct d).
  rewrite Hu. set (d2 := set_iDataCycle _ d1).
  assert (iDataCycle d2 = iDataCycle d + 1) as -> by (by destruct d).
  assert (cDataCycles d2 = 2) as -> by (rewrite <- Hcd; by destruct d).
  reflexivity.
Qed.

(** Claim C6.  In every reachable state whose phase is DATA the nibble
    count is 2 and the index is 0 (with an empty accumulator) or 1.  A
    falling edge with LFRAME# released runs the data decoder on the sampled
    nibble: it ORs the nibble into the accumulator shifted left by four times
    the index, increments the index, and advances the state machine exactly
    when the new index is 2.  So a data phase takes two nibbles, the first in
    the low half and the second in the high half of the byte, and then the
    phase is TAR with a count of 2. *)
Theorem lpcDecStateDataDecode_assembles (v : Z) (d : LPCDEC) :
  reachable v d ->
  cur_phase d = Some LPCDECSTATE_DATA ->
  cDataCycles d = 2 /\
  (iDataCycle d = 0 /\ bData d = 0 \/ iDataCycle d = 1) /\
  (forall uSeqNo bSample,
     sample_level bSample (u8BitLFrame d) = 1 ->
     falling_edge v d uSeqNo bSample
     = lpcDecStateDataDecode v d (lpcDecStateLadExtractFromSample d bSample)) /\
  (forall bLad,
     0 <= bLad < 16 ->
     (iDataCycle d + 1 <> 2 ->
      lpcDecStateDataDecode v d bLad
      = Some (set_iDataCycle (iDataCycle d + 1)
                (set_bData (Z.lor (bData d) (Z.shiftl bLad (iDataCycle d * 4))) d), [])) /\
     (iDataCycle d + 1 = 2 ->
      lpcDecStateDataDecode v d bLad
      = lpcDecStateSampleAdvance v
          (set_iDataCycle (iDataCycle d + 1)
             (set_bData (Z.lor (bData d) (Z.shiftl bLad (iDataCycle d * 4))) d)))) /\
  (iDataCycle d = 0 ->
   forall lo hi,
     0 <= lo < 16 -> 0 <= hi < 16 ->
     exists d1 d2,
       lpcDecStateDataDecode v d lo = Some (d1, []) /\
       cur_phase d1 = Some LPCDECSTATE_DATA /\
       lpcDecStateDataDecode v d1 hi = Some (d2, []) /\
       cur_phase d2 = Some LPCDECSTATE_TAR /\
       phase_history d2 = phase_history d ++ [LPCDECSTATE_TAR] /\
       bData d2 = lo + 16 * hi /\
       iDataCycle d2 = 2 /\ cTarCycles d2 = 2).
Proof.
  intros Hreach Hcur.
  destruct (reachable_Inv v d Hreach) as [(Hwf & Hi & Hh & Hd) Hcnt].
  unfold Counters in Hcnt. rewrite Hcur in Hcnt. destruct Hcnt as (Hcd & Hid).
  pose proof (fun bLad => lpcDecStateDataDecode_step v d bLad Hcd Hid) as Hstep.
  split; [exact Hcd|]. split; [tauto|]. split.
  { intros uSeqNo bSample Hfr. by rewrite (falling_edge_released v d uSeqNo bSample _ Hcur Hfr). }
  split.
  { intros bLad Hlad. rewrite (Hstep bLad Hlad). split; intros Hne.
    - by destruct (Z.eqb_spec (iDataCycle d + 1) 2).
    - by rewrite Hne. }
  intros Hid0 lo hi Hlo Hhi.
  destruct Hid as [[_ Hb0]|Hid1]; [|lia].
  set (d1 := set_iDataCycle 1 (set_bData lo d)).
  assert (lpcDecStateDataDecode v d lo = Some (d1, [])) as Hfirst.
  { rewrite (Hstep lo Hlo), Hid0, Hb0. change (0 + 1 =? 2) with false. cbv iota.
    rewrite Z.lor_0_l. change (0 * 4) with 0. by rewrite Z.shiftl_0_r. }
  assert (wf d1) as Hwf1 by (by destruct d).
  assert (cur_phase d1 = Some LPCDECSTATE_DATA) as Hcur1 by (rewrite <- Hcur; by destruct d).
  assert (iDataCycle d1 = 1) as Hid1 by (by destruct d).
  assert (bData d1 = lo) as Hb1 by (by destruct d).
  set (d2 := set_iDataCycle 2 (set_bData (lo + 16 * hi) d1)).
  assert (wf d2) as Hwf2 by (by destruct d).
  assert (cur_phase d2 = Some LPCDECSTATE_DATA) as Hcur2 by (rewrite <- Hcur; by destruct d).
  assert (phase_history d2 = phase_history d) as Hh2 by (by destruct d).
  assert (idxState d2 = idxState d) as Hi2 by (by destruct d).
  assert (iDataCycle d2 = 2) as Hid2 by (by destruct d).
  assert (cDataCycles d2 = 2) as Hcd2 by (rewrite <- Hcd; by destruct d).
  assert (bData d2 = lo + 16 * hi) as Hb2 by (by destruct d).
  assert (lpcDecStateDataDecode v d1 hi
          = Some (set_cTarCycles 2 (pushed d2 LPCDECSTATE_TAR), [])) as Hsecond.
  { rewrite lpcDecStateDataDecode_step; [|by destruct d|right; lia|done].
    rewrite Hid1, Hb1. change (1 + 1) with 2. change (2 =? 2) with true. cbv iota.
    change (1 * 4) with 4. rewrite lor_nibbles by done. fold d2.
    by rewrite (lpcDecStateSampleAdvance_eq v d2 _ Hwf2 Hcur2) by lia. }
  exists d1, (set_cTarCycles 2 (pushed d2 LPCDECSTATE_TAR)).
  split; [exact Hfirst|]. split; [exact Hcur1|]. split; [exact Hsecond|].
  destruct (set_cTarCycles_obs 2 (pushed d2 LPCDECSTATE_TAR))
    as (-> & -> & _ & -> & _ & _ & ->).
  rewrite pushed_cur, pushed_history by (done || lia).
  destruct (pushed_fields d2 LPCDECSTATE_TAR)
    as (_ & _ & _ & _ & _ & _ & _ & _ & _ & Hpid & _ & _ & ->).
  rewrite Hh2, Hb2. repeat split; try done.
  transitivity (iDataCycle (pushed d2 LPCDECSTATE_TAR)); [|by rewrite Hpid].
  by destruct (pushed d2 LPCDECSTATE_TAR).
Qed.

Lemma ex_data_reachable : reachable 0 ex_data.
Proof.
  exists ex_memory, 0, 1, 5, 4, 3, 2.
  exists (clock_nibbles 100 [(0, 0); (1, 6); (1, 1); (1, 2); (1, 3); (1, 4); (1, 0); (1, 0);
                             (1, 0); (1, 0)] ++ [(0, ref_sample 1 1 15)]).
  eexists. split; [reflexivity|]. vm_compute. reflexivity.
Qed.

Lemma lpcDecStateDataDecode_assembles_witness :
  exists d1 d2,
    lpcDecStateDataDecode 0 ex_data 11 = Some (d1, []) /\
    lpcDecStateDataDecode 0 d1 10 = Some (d2, []) /\
    cur_phase d2 = Some LPCDECSTATE_TAR /\
    bData d2 = 171.
Proof.
  destruct (lpcDecStateDataDecode_assembles 0 ex_data ex_data_reachable eq_refl)
    as (_ & _ & _ & _ & Htwo).
  assert (0 <= 11 < 16) as Hlo by lia. assert (0 <= 10 < 16) as Hhi by lia.
  destruct (Htwo eq_refl 11 10 Hlo Hhi) as (d1 & d2 & H1 & _ & H2 & Hc & _ & Hb & _).
  exists d1, d2. split; [exact H1|]. split; [exact H2|]. split; [exact Hc|exact Hb].
Defined.

(** ** The address phase *)

Lemma land_shiftl4_nibble a x : 0 <= x < 16 -> Z.land (Z.shiftl a 4) x = 0.
Proof.
  intros Hx. apply Z.bits_inj'. intros n Hn.
  rewrite Z.land_spec, Z.bits_0.
  destruct (Z.lt_ge_cases n 4) as [Hlt|Hge].
  - by rewrite Z.shiftl_spec_low.
  - destruct (Z.eq_dec x 0) as [->|Hne].
    + rewrite Z.bits_0. apply andb_false_r.
    + rewrite (Z.bits_above_log2 x n), andb_false_r; [done|lia|].
      assert (Z.log2 x < 4) by (apply Z.log2_lt_pow2; lia). lia.
Qed.

Lemma lor_shiftl_nibble acc x k :
  0 <= x < 16 -> 0 <= k ->
  Z.lor (acc * 16 ^ (k + 1)) (Z.shiftl x (k * 4)) = (16 * acc + x) * 16 ^ k.
Proof.
  intros Hx Hk.
  assert (16 ^ k = 2 ^ (k * 4)) as Hpow.
  { rewrite Z.mul_comm, Z.pow_mul_r by lia. reflexivity. }
  rewrite Z.pow_add_r, Z.pow_1_r by lia.
  replace (acc * (16 ^ k * 16)) with (Z.shiftl acc 4 * 2 ^ (k * 4))
    by (rewrite Z.shiftl_mul_pow2, Hpow by lia; change (2 ^ 4) with 16; ring).
  rewrite <- !Z.shiftl_mul_pow2 by lia.
  rewrite <- Z.shiftl_lor, !Z.shiftl_mul_pow2, Hpow by lia. f_equal.
  pose proof (Z.add_lor_land (Z.shiftl acc 4) x) as Hadd.
  rewrite land_shiftl4_nibble in Hadd by done.
  rewrite Z.shiftl_mul_pow2 in * by lia. change (2 ^ 4) with 16 in *. lia.
Qed.

Lemma lpcDecStateAddrDecode_step v d bLad :
  1 <= cAddrCycles d <= 8 ->
  lpcDecStateAddrDecode v d bLad
  = if cAddrCycles d - 1 =? 0
    then lpcDecStateSampleAdvance v
           (set_u32Addr (u32 (Z.lor (u32Addr d) (Z.shiftl bLad ((cAddrCycles d - 1) * 4))))
              (set_cAddrCycles (cAddrCycles d - 1) d))
    else Some (set_u32Addr (u32 (Z.lor (u32Addr d) (Z.shiftl bLad ((cAddrCycles d - 1) * 4))))
                 (set_cAddrCycles (cAddrCycles d - 1) d), []).
Proof.
  intros Hc. unfold lpcDecStateAddrDecode.
  assert (u8 (cAddrCycles d - 1) = cAddrCycles d - 1) as ->
    by (unfold u8; apply Z.mod_small; lia).
  set (d1 := set_cAddrCycles _ d).
  assert (u32Addr d1 = u32Addr d) as -> by (by destruct d).
  assert (cAddrCycles d1 = cAddrCycles d - 1) as Hc1 by (by destruct d).
  rewrite Hc1. set (d2 := set_u32Addr _ d1).
  assert (cAddrCycles d2 = cAddrCycles d - 1) as -> by (by destruct d).
  unfold c_true. by destruct (cAddrCycles d - 1 =? 0).
Qed.

Lemma addr_nibbles_acc v l : forall d acc,
  wf d -> cur_phase d = Some LPCDECSTATE_ADDR -> idxState d < 8 ->
  (1 <= length l <= 8)%nat ->
  cAddrCycles d = Z.of_nat (length l) ->
  Forall (fun x => 0 <= x < 16) l ->
  0 <= acc < 16 ^ (8 - Z.of_nat (length l)) ->
  u32Addr d = acc * 16 ^ Z.of_nat (length l) ->
  exists d',
    addr_nibbles v d l = Some (d', []) /\
    u32Addr d' = nibbles_value acc l /\
    cAddrCycles d' = 0 /\
    phase_history d'
    = phase_history d ++ [if c_true (fWrite d) then LPCDECSTATE_DATA else LPCDECSTATE_TAR].
Proof.
  induction l as [|x r IH]; intros d acc Hwf Hcur Hidx Hlen Hc Hall Hacc Haddr.
  { simpl in Hlen. lia. }
  apply Forall_cons in Hall as [Hx Hr].
  cbn [length] in *. rewrite Nat2Z.inj_succ in *.
  set (n := Z.of_nat (length r)) in *.
  assert (0 <= n <= 7) as Hn by lia.
  cbn [addr_nibbles]. rewrite lpcDecStateAddrDecode_step by lia.
  rewrite Hc, Haddr. replace (Z.succ n - 1) with n by lia.
  replace (Z.succ n) with (n + 1) by lia.
  rewrite lor_shiftl_nibble by lia.
  assert (0 <= 16 * acc + x < 16 ^ (8 - n)) as Hacc'.
  { replace (8 - n) with ((8 - (n + 1)) + 1) by lia.
    rewrite Z.pow_add_r, Z.pow_1_r by lia. replace (Z.succ n) with (n + 1) in Hacc by lia. lia. }
  assert (0 <= (16 * acc + x) * 16 ^ n < 2 ^ 32) as Hbound.
  { assert (0 < 16 ^ n) by (apply Z.pow_pos_nonneg; lia).
    assert (16 ^ (8 - n) * 16 ^ n = 2 ^ 32) as <-
      by (rewrite <- Z.pow_add_r by lia; replace (8 - n + n) with 8 by lia; reflexivity).
    split; [apply Z.mul_nonneg_nonneg; lia|].
    apply Z.mul_lt_mono_pos_r; lia. }
  unfold u32. rewrite (Z.mod_small _ _ Hbound).
  set (d1 := set_u32Addr _ (set_cAddrCycles n d)).
  assert (wf d1) as Hwf1 by (by destruct d).
  assert (cur_phase d1 = Some LPCDECSTATE_ADDR) as Hcur1 by (rewrite <- Hcur; by destruct d).
  assert (idxState d1 = idxState d) as Hidx1 by (by destruct d).
  assert (phase_history d1 = phase_history d) as Hh1 by (by destruct d).
  assert (fWrite d1 = fWrite d) as Hw1 by (by destruct d).
  assert (cAddrCycles d1 = n) as Hc1 by (by destruct d).
  assert (u32Addr d1 = (16 * acc + x) * 16 ^ n) as Ha1 by (by destruct d).
  destruct r as [|y r'].
  - (* the last address nibble: the state machine advances *)
    change n with 0 in *. change (0 =? 0) with true. cbv iota.
    rewrite (lpcDecStateSampleAdvance_eq v d1 _ Hwf1 Hcur1) by lia.
    cbn [mbind option_bind addr_nibbles app]. rewrite Hw1. eexists. split; [reflexivity|].
    cbn [nibbles_value fold_left]. change (16 ^ 0) with 1 in Ha1.
    assert (0 <= idxState d1 < 8) as Hi1
      by (pose proof (cur_phase_bounds d1 _ Hcur1); lia).
    destruct (c_true (fWrite d)).
    + destruct (set_cDataCycles_obs 2 (pushed d1 LPCDECSTATE_DATA)) as (-> & _ & -> & _).
      rewrite pushed_history, Hh1 by done.
      destruct (pushed_fields d1 LPCDECSTATE_DATA)
        as (_ & _ & _ & _ & _ & _ & _ & Hpc & _ & _ & _ & -> & _).
      split; [lia|]. split; [|done].
      transitivity (cAddrCycles (pushed d1 LPCDECSTATE_DATA)); [|by rewrite Hpc].
      by destruct (pushed d1 LPCDECSTATE_DATA).
    + destruct (set_cTarCycles_obs 2 (pushed d1 LPCDECSTATE_TAR)) as (-> & _ & -> & _).
      rewrite pushed_history, Hh1 by done.
      destruct (pushed_fields d1 LPCDECSTATE_TAR)
        as (_ & _ & _ & _ & _ & _ & _ & Hpc & _ & _ & _ & -> & _).
      split; [lia|]. split; [|done].
      transitivity (cAddrCycles (pushed d1 LPCDECSTATE_TAR)); [|by rewrite Hpc].
      by destruct (pushed d1 LPCDECSTATE_TAR).
  - (* more nibbles to come *)
    assert (n <> 0) as Hn0 by (unfold n; cbn [length]; lia).
    destruct (Z.eqb_spec n 0) as [|_]; [done|].
    cbn [mbind option_bind].
    assert (idxState d1 < 8) as Hidx1' by lia.
    assert (1 <= length (y :: r') <= 8)%nat as Hlen' by (cbn [length] in *; lia).
    destruct (IH d1 (16 * acc + x) Hwf1 Hcur1 Hidx1' Hlen' Hc1 Hr Hacc' Ha1)
      as (d' & Hrun & Hv & Hc' & Hh').
    rewrite Hrun. cbn [mbind option_bind app]. exists d'.
    split; [reflexivity|]. split; [exact Hv|]. split; [exact Hc'|].
      by rewrite Hh', Hh1, Hw1.
Qed.

(** Claim C5.  In every reachable state whose phase is ADDR between 1 and
    8 address nibbles remain.  A falling edge with LFRAME# released runs the
    address decoder on the sampled nibble: it decrements the count, ORs the
    nibble into the address shifted left by four times the new count, and
    advances the state machine exactly when the new count is zero.  So the
    nibbles of an address phase that starts with an empty accumulator are
    assembled most significant first, and a memory cycle fed 1,2,3,4,0,0,0,0
    holds 0x12340000 when it leaves the address phase. *)
Theorem lpcDecStateAddrDecode_assembles (v : Z) (d : LPCDEC) :
  reachable v d ->
  cur_phase d = Some LPCDECSTATE_ADDR ->
  1 <= cAddrCycles d <= 8 /\
  (forall uSeqNo bSample,
     sample_level bSample (u8BitLFrame d) = 1 ->
     falling_edge v d uSeqNo bSample
     = lpcDecStateAddrDecode v d (lpcDecStateLadExtractFromSample d bSample)) /\
  (forall bLad,
     (cAddrCycles d - 1 <> 0 ->
      lpcDecStateAddrDecode v d bLad
      = Some (set_u32Addr
                (u32 (Z.lor (u32Addr d) (Z.shiftl bLad ((cAddrCycles d - 1) * 4))))
                (set_cAddrCycles (cAddrCycles d - 1) d), [])) /\
     (cAddrCycles d - 1 = 0 ->
      lpcDecStateAddrDecode v d bLad
      = lpcDecStateSampleAdvance v
          (set_u32Addr
             (u32 (Z.lor (u32Addr d) (Z.shiftl bLad ((cAddrCycles d - 1) * 4))))
             (set_cAddrCycles (cAddrCycles d - 1) d)))) /\
  (u32Addr d = 0 ->
   forall l,
     Z.of_nat (length l) = cAddrCycles d ->
     Forall (fun x => 0 <= x < 16) l ->
     exists d',
       addr_nibbles v d l = Some (d', []) /\
       u32Addr d' = nibbles_value 0 l /\
       cAddrCycles d' = 0 /\
       phase_history d'
       = phase_history d ++ [if c_true (fWrite d) then LPCDECSTATE_DATA else LPCDECSTATE_TAR]) /\
  (u32Addr d = 0 -> cAddrCycles d = 8 ->
   exists d',
     addr_nibbles v d [1; 2; 3; 4; 0; 0; 0; 0] = Some (d', []) /\
     u32Addr d' = 0x12340000).
Proof.
  intros Hreach Hcur.
  destruct (reachable_Inv v d Hreach) as [(Hwf & Hi & Hh & Hd) Hcnt].
  unfold Counters in Hcnt. rewrite Hcur in Hcnt.
  assert (forall l,
            u32Addr d = 0 -> Z.of_nat (length l) = cAddrCycles d ->
            Forall (fun x => 0 <= x < 16) l ->
            exists d',
              addr_nibbles v d l = Some (d', []) /\
              u32Addr d' = nibbles_value 0 l /\
              cAddrCycles d' = 0 /\
              phase_history d'
              = phase_history d
                  ++ [if c_true (fWrite d) then LPCDECSTATE_DATA else LPCDECSTATE_TAR])
    as Hrun.
  { intros l Ha Hlen Hall.
    apply (addr_nibbles_acc v l d 0); try done; try lia. }
  split; [exact Hcnt|]. split.
  { intros uSeqNo bSample Hfr. by rewrite (falling_edge_released v d uSeqNo bSample _ Hcur Hfr). }
  split.
  { intros bLad. rewrite (lpcDecStateAddrDecode_step v d bLad Hcnt). split; intros Hc.
    - by destruct (Z.eqb_spec (cAddrCycles d - 1) 0).
    - by rewrite Hc. }
  split.
  { intros Ha l. by apply Hrun. }
  intros Ha Hc.
  destruct (Hrun [1; 2; 3; 4; 0; 0; 0; 0] Ha) as (d' & Hd' & Hv & _).
  - by rewrite Hc.
  - repeat constructor; lia.
  - exists d'. split; [exact Hd'|]. rewrite Hv. reflexivity.
Qed.

Lemma ex_addr_first_reachable : reachable 0 ex_addr_first.
Proof.
  exists ex_memory, 0, 1, 5, 4, 3, 2.
  exists (clock_nibbles 100 [(0, 0); (1, 6)] ++ [(0, ref_sample 1 1 15)]).
  eexists. split; [reflexivity|]. vm_compute. reflexivity.
Qed.

Lemma lpcDecStateAddrDecode_assembles_witness :
  exists d',
    addr_nibbles 0 ex_addr_first [1; 2; 3; 4; 0; 0; 0; 0] = Some (d', []) /\
    u32Addr d' = 0x12340000.
Proof.
  destruct (lpcDecStateAddrDecode_assembles 0 ex_addr_first
              ex_addr_first_reachable eq_refl) as (_ & _ & _ & _ & Hmem).
  exact (Hmem eq_refl eq_refl).
Defined.

(** * Further properties of the decoder *)

(** ** Signal extraction *)

Lemma land_pow2_testbit b bit :
  0 <= bit -> Z.land b (Z.shiftl 1 bit) = Z.b2z (Z.testbit b bit) * 2 ^ bit.
Proof.
  intros Hbit. rewrite Z.shiftl_1_l. apply Z.bits_inj'. intros n Hn.
  rewrite Z.land_spec, Z.pow2_bits_eqb by lia.
  destruct (Z.eqb_spec bit n) as [->|Hne].
  - rewrite andb_true_r. destruct (Z.testbit b n) eqn:Hb; simpl.
    + rewrite Z.mul_1_l, Z.pow2_bits_true; [done|lia].
    + by rewrite Z.bits_0.
  - rewrite andb_false_r. destruct (Z.testbit b bit); simpl.
    + rewrite Z.mul_1_l, Z.pow2_bits_false; [done|lia].
    + by rewrite Z.bits_0.
Qed.

Lemma sample_bit_testbit b bit :
  0 <= bit -> sample_bit b bit = Z.b2z (Z.testbit b bit).
Proof.
  intros Hbit. unfold sample_bit. rewrite land_pow2_testbit by done.
  rewrite Z.shiftr_div_pow2 by done. apply Z.div_mul.
  apply Z.pow_nonzero; lia.
Qed.

Lemma sample_level_testbit b bit :
  0 <= bit -> sample_level b bit = Z.b2z (Z.testbit b bit).
Proof.
  intros Hbit. unfold sample_level, c_notnot, c_true, c_int.
  rewrite land_pow2_testbit by done.
  assert (0 < 2 ^ bit) by (apply Z.pow_pos_nonneg; lia).
  destruct (Z.testbit b bit); simpl.
  - destruct (Z.eqb_spec (1 * 2 ^ bit) 0); [lia|done].
  - reflexivity.
Qed.

(** With the six signals on bits 0 to 7 of the sample byte, the value read
    from LAD[3:0] is a nibble whose bit k is the level of the sample at the
    pin of LADk, and the clock and frame levels are the sample's bits at
    their pins.  (From pin 32 on the shift [1 << pin] of the source is not
    defined, and from pin 8 on no bit of the byte is read.) *)
Theorem lpcDecStateLadExtractFromSample_bits (d : LPCDEC) (bSample : Z) :
  0 <= bSample < 256 ->
  0 <= u8BitLad0 d <= 7 -> 0 <= u8BitLad1 d <= 7 ->
  0 <= u8BitLad2 d <= 7 -> 0 <= u8BitLad3 d <= 7 ->
  0 <= u8BitLClk d <= 7 -> 0 <= u8BitLFrame d <= 7 ->
  0 <= lpcDecStateLadExtractFromSample d bSample < 16 /\
  Z.testbit (lpcDecStateLadExtractFromSample d bSample) 0 = Z.testbit bSample (u8BitLad0 d) /\
  Z.testbit (lpcDecStateLadExtractFromSample d bSample) 1 = Z.testbit bSample (u8BitLad1 d) /\
  Z.testbit (lpcDecStateLadExtractFromSample d bSample) 2 = Z.testbit bSample (u8BitLad2 d) /\
  Z.testbit (lpcDecStateLadExtractFromSample d bSample) 3 = Z.testbit bSample (u8BitLad3 d) /\
  sample_level bSample (u8BitLClk d) = Z.b2z (Z.testbit bSample (u8BitLClk d)) /\
  sample_level bSample (u8BitLFrame d) = Z.b2z (Z.testbit bSample (u8BitLFrame d)).
Proof.
  intros _ [H0 _] [H1 _] [H2 _] [H3 _] [Hc _] [Hf _].
  split; [apply lpcDecStateLadExtractFromSample_range|].
  unfold lpcDecStateLadExtractFromSample.
  rewrite !sample_bit_testbit, !sample_level_testbit by done.
  destruct (Z.testbit bSample (u8BitLad0 d)), (Z.testbit bSample (u8BitLad1 d)),
    (Z.testbit bSample (u8BitLad2 d)), (Z.testbit bSample (u8BitLad3 d));
    by repeat split.
Qed.

Lemma lpcDecStateLadExtractFromSample_bits_witness :
  lpcDecStateLadExtractFromSample ex_init 36 = 9 /\
  Z.testbit (lpcDecStateLadExtractFromSample ex_init 36) 3 = Z.testbit 36 2.
Proof.
  assert (0 <= 36 < 256) as Hb by lia.
  assert (0 <= u8BitLad0 ex_init <= 7) as H0 by (vm_compute; intuition congruence).
  assert (0 <= u8BitLad1 ex_init <= 7) as H1 by (vm_compute; intuition congruence).
  assert (0 <= u8BitLad2 ex_init <= 7) as H2 by (vm_compute; intuition congruence).
  assert (0 <= u8BitLad3 ex_init <= 7) as H3 by (vm_compute; intuition congruence).
  assert (0 <= u8BitLClk ex_init <= 7) as Hc by (vm_compute; intuition congruence).
  assert (0 <= u8BitLFrame ex_init <= 7) as Hf by (vm_compute; intuition congruence).
  split; [reflexivity|].
  exact (proj1 (proj2 (proj2 (proj2 (proj2
    (lpcDecStateLadExtractFromSample_bits ex_init 36 Hb H0 H1 H2 H3 Hc Hf)))))).
Defined.

(** ** The pin numbers are configuration *)

Lemma pins_set_idxState x d : pins (set_idxState x d) = pins d.
Proof. by destruct d. Qed.
Lemma pins_set_aenmState x d : pins (set_aenmState x d) = pins d.
Proof. by destruct d. Qed.
Lemma pins_set_cDataCycles x d : pins (set_cDataCycles x d) = pins d.
Proof. by destruct d. Qed.
Lemma pins_set_cTarCycles x d : pins (set_cTarCycles x d) = pins d.
Proof. by destruct d. Qed.
Lemma pins_set_cAddrCycles x d : pins (set_cAddrCycles x d) = pins d.
Proof. by destruct d. Qed.
Lemma pins_set_u32Addr x d : pins (set_u32Addr x d) = pins d.
Proof. by destruct d. Qed.
Lemma pins_set_bData x d : pins (set_bData x d) = pins d.
Proof. by destruct d. Qed.
Lemma pins_set_iDataCycle x d : pins (set_iDataCycle x d) = pins d.
Proof. by destruct d. Qed.
Lemma pins_set_bTyp x d : pins (set_bTyp x d) = pins d.
Proof. by destruct d. Qed.
Lemma pins_set_fWrite x d : pins (set_fWrite x d) = pins d.
Proof. by destruct d. Qed.
Lemma pins_set_bStartLast x d : pins (set_bStartLast x d) = pins d.
Proof. by destruct d. Qed.
Lemma pins_set_uSeqNoCycle x d : pins (set_uSeqNoCycle x d) = pins d.
Proof. by destruct d. Qed.
Lemma pins_set_fClkLast x d : pins (set_fClkLast x d) = pins d.
Proof. by destruct d. Qed.
Lemma pins_lpcDecStateReset d : pins (lpcDecStateReset d) = pins d.
Proof. by destruct d. Qed.

Lemma pins_lpcDecStateSet d s d' : lpcDecStateSet d s = Some d' -> pins d' = pins d.
Proof.
  unfold lpcDecStateSet, aenmState_write. destruct (_ && _); [|discriminate].
  intros [= <-]. by destruct d.
Qed.

Create Rewrite HintDb pins_db.
#[local] Hint Rewrite pins_set_idxState pins_set_aenmState pins_set_cDataCycles
  pins_set_cTarCycles pins_set_cAddrCycles pins_set_u32Addr pins_set_bData
  pins_set_iDataCycle pins_set_bTyp pins_set_fWrite pins_set_bStartLast
  pins_set_uSeqNoCycle pins_set_fClkLast pins_lpcDecStateReset : pins_db.

(** Takes a successful run of a decoder function apart, one branch per path. *)
Ltac run_paths :=
  repeat match goal with
  | H : None = Some _ |- _ => discriminate H
  | H : Some _ = Some _ |- _ => injection H as <- <-
  | H : (_ ← ?o; _) = Some _ |- _ =>
      let E := fresh "E" in destruct o eqn:E; cbn [mbind option_bind] in H
  | H : (if ?c then _ else _) = Some _ |- _ => destruct c
  | H : match ?s with LPCDECSTATE_INVALID => _ | _ => _ end = Some _ |- _ => destruct s
  | H : (let '(_, _) := ?p in _) = Some _ |- _ => destruct p
  end.

Ltac pins_close :=
  repeat match goal with
  | H : lpcDecStateSet _ _ = Some _ |- _ => apply pins_lpcDecStateSet in H
  end;
  autorewrite with pins_db in *; congruence.

Lemma pins_lpcDecStateSampleAdvance v d d' out :
  lpcDecStateSampleAdvance v d = Some (d', out) -> pins d' = pins d.
Proof.
  unfold lpcDecStateSampleAdvance. intros H. run_paths; pins_close.
Qed.

Lemma pins_falling_edge v d uSeqNo bSample d' out :
  falling_edge v d uSeqNo bSample = Some (d', out) -> pins d' = pins d.
Proof.
  unfold falling_edge, lpcDecStateStartDecode, lpcDecStateAddrDecode,
    lpcDecStateDataDecode, lpcDecStateTarDecode, lpcDecStateSyncDecode.
  intros H. run_paths;
    repeat match goal with
    | H : lpcDecStateSampleAdvance _ _ = Some _ |- _ =>
        apply pins_lpcDecStateSampleAdvance in H
    end; pins_close.
Qed.

Lemma pins_lpcDecStateSampleProcess v d uSeqNo bSample rc d' out :
  lpcDecStateSampleProcess v d uSeqNo bSample = Some (rc, d', out) ->
  pins d' = pins d /\ rc = 0 /\ fClkLast d' = sample_level bSample (u8BitLClk d).
Proof.
  unfold lpcDecStateSampleProcess.
  destruct (Z.eqb_spec (sample_level bSample (u8BitLClk d)) (fClkLast d)) as [E|E].
  { by intros [= <- <- <-]. }
  destruct (_ && _).
  - destruct (falling_edge v d uSeqNo bSample) as [[d1 out1]|] eqn:Hedge; [|discriminate].
    intros [= <- <- <-]. apply pins_falling_edge in Hedge.
    split; [by autorewrite with pins_db|]. split; [done|by destruct d1].
  - intros [= <- <- <-]. split; [by autorewrite with pins_db|]. split; [done|by destruct d].
Qed.

(** No sample ever changes the six pin numbers: after any number of
    samples the decoder still reads CLK, LFRAME# and LAD[3:0] where
    [lpcDecStateInit] said. *)
Theorem main_loop_keeps_pins (v : Z) (samples : list (Z * Z)) :
  forall d d' out,
    main_loop v d samples = Some (d', out) -> same_config d d'.
Proof.
  assert (forall a b, pins b = pins a -> same_config a b) as Hsame.
  { intros a b. unfold pins, same_config. intros [= -> -> -> -> -> ->]. by repeat split. }
  induction samples as [|[uSeqNo bVal] rest IH]; intros d d' out Hrun; apply Hsame.
  - by injection Hrun as <- <-.
  - cbn [main_loop] in Hrun.
    destruct (lpcDecStateSampleProcess v d uSeqNo bVal) as [[[rc d1] out1]|] eqn:Hp;
      [|discriminate].
    apply pins_lpcDecStateSampleProcess in Hp as (Hpins & -> & _).
    cbn [mbind option_bind] in Hrun. change (0 =? 0) with true in Hrun. cbv iota in Hrun.
    destruct (main_loop v d1 rest) as [[d2 out2]|] eqn:Hrest; [|discriminate].
    injection Hrun as <- <-. apply IH in Hrest.
    destruct Hrest as (?&?&?&?&?&?). unfold pins in *. congruence.
Qed.

Lemma main_loop_keeps_pins_witness :
  exists d' out,
    main_loop 0 ex_init (clock_nibbles 100 [(0, 0); (1, 6); (1, 1)]) = Some (d', out) /\
    same_config ex_init d'.
Proof.
  eexists _, _. split; [vm_compute; reflexivity|].
  refine (main_loop_keeps_pins 0 (clock_nibbles 100 [(0, 0); (1, 6); (1, 1)])
            ex_init _ _ eq_refl).
Defined.

(** ** Oversampling *)

(** A capture holds many samples per clock half-period.  A sample whose
    CLK level equals that of the sample before it changes nothing, whatever
    its other bits and its sequence number are: dropping it from the stream
    leaves the final state and everything printed the same. *)
Theorem main_loop_ignores_repeated_level
    (v : Z) (d : LPCDEC) (uSeqNo1 bVal1 uSeqNo2 bVal2 : Z) (rest : list (Z * Z)) :
  sample_level bVal2 (u8BitLClk d) = sample_level bVal1 (u8BitLClk d) ->
  main_loop v d ((uSeqNo1, bVal1) :: (uSeqNo2, bVal2) :: rest)
  = main_loop v d ((uSeqNo1, bVal1) :: rest).
Proof.
  intros Hsame. cbn [main_loop].
  destruct (lpcDecStateSampleProcess v d uSeqNo1 bVal1) as [[[rc d1] out1]|] eqn:Hp;
    [|reflexivity].
  apply pins_lpcDecStateSampleProcess in Hp as (Hpins & -> & Hlast).
  cbn [mbind option_bind]. change (0 =? 0) with true. cbv iota.
  assert (u8BitLClk d1 = u8BitLClk d) as Hclk by (unfold pins in Hpins; congruence).
  unfold lpcDecStateSampleProcess at 1. rewrite Hclk, Hsame, Hlast, Z.eqb_refl.
  cbn [mbind option_bind]. change (0 =? 0) with true. cbv iota.
  by destruct (main_loop v d1 rest) as [[d2 out2]|].
Qed.

Lemma main_loop_ignores_repeated_level_witness :
  main_loop 0 ex_start [(200, ref_sample 0 1 6); (201, ref_sample 0 0 3)]
  = main_loop 0 ex_start [(200, ref_sample 0 1 6)].
Proof.
  exact (main_loop_ignores_repeated_level 0 ex_start 200 (ref_sample 0 1 6)
           201 (ref_sample 0 0 3) [] eq_refl).
Defined.

(** ** What a running decoder prints *)

Lemma lor_lt_pow2 a b n :
  0 <= n -> 0 <= a < 2 ^ n -> 0 <= b < 2 ^ n -> 0 <= Z.lor a b < 2 ^ n.
Proof.
  intros Hn Ha Hb. split; [apply Z.lor_nonneg; lia|].
  destruct (Z.eq_dec (Z.lor a b) 0) as [->|Hne]; [lia|].
  assert (0 <= Z.lor a b) by (apply Z.lor_nonneg; lia).
  apply Z.log2_lt_pow2; [lia|]. rewrite Z.log2_lor by lia.
  assert (forall x, 0 <= x < 2 ^ n -> 0 < n -> Z.log2 x < n) as Hlog.
  { intros x Hx Hpos. destruct (Z.eq_dec x 0) as [->|]; [by rewrite Z.log2_nonpos|].
    apply Z.log2_lt_pow2; lia. }
  assert (0 < n).
  { destruct (Z.eq_dec n 0) as [->|]; [|lia].
    change (2 ^ 0) with 1 in *. assert (a = 0) as -> by lia. assert (b = 0) as -> by lia.
    done. }
  apply Z.max_lub_lt; by apply Hlog.
Qed.

(** Past WaitFrame and START the index is at least 2. *)
Lemma Shape_classified d s :
  Shape d -> cur_phase d = Some s ->
  s <> LPCDECSTATE_LFRAME_WAIT_ASSERTED -> s <> LPCDECSTATE_START ->
  2 <= idxState d.
Proof.
  intros Hshape Hcur H1 H2. concretize d Hshape; vm_compute in Hcur;
    injection Hcur as <-; done || (cbn [idxState]; lia).
Qed.

Lemma Shape_start d :
  Shape d -> cur_phase d = Some LPCDECSTATE_START -> idxState d = 1.
Proof.
  intros Hshape Hcur. concretize d Hshape; vm_compute in Hcur;
    first [discriminate Hcur | reflexivity].
Qed.

(** A turnaround that is not followed by SYNC closes a whole cycle. *)
Lemma Shape_final_tar d prev :
  Shape d -> cur_phase d = Some LPCDECSTATE_TAR -> prev_phase d = Some prev ->
  bool_decide (prev = if c_true (fWrite d) then LPCDECSTATE_DATA else LPCDECSTATE_ADDR) = false ->
  phase_history d = cycle_phases (c_true (fWrite d)).
Proof.
  intros Hshape Hcur Hprev Hne. concretize d Hshape; vm_compute in Hcur;
    (first [discriminate Hcur | clear Hcur]);
    vm_compute in Hprev; injection Hprev as <-;
    vm_compute in Hne; try discriminate Hne; reflexivity.
Qed.

Lemma dump_output_good v d fAbort :
  Payload d -> 2 <= idxState d ->
  (c_true fAbort = false -> phase_history d = cycle_phases (c_true (fWrite d))) ->
  Forall (good_output v) (snd (pszTyp_of (bTyp d)) ++ [OutCycle (dump_line v d fAbort)]).
Proof.
  intros (Haddr & Hdata & Htyp & _) Hidx Hchain.
  assert (good_line v (dump_line v d fAbort) /\
          snd (pszTyp_of (bTyp d)) = []) as [Hline ->].
  { unfold good_line, dump_line. cbn [dl_typ dl_dir dl_addr dl_data dl_abort dl_chain].
    assert (forall w : bool,
              String.eqb (if w then "Write" else "Read ")%string "Write" = w) as Hdir
      by (by intros []).
    rewrite Hdir.
    assert ((if c_true (fWrite d) then "Write" else "Read ")%string = "Write"%string \/
            (if c_true (fWrite d) then "Write" else "Read ")%string = "Read "%string)
      as Hd by (destruct (c_true (fWrite d)); auto).
    destruct (Htyp Hidx) as [[-> Hio]| ->]; cbn [pszTyp_of fst snd Z.eqb
      LPC_DEC_CYC_TYPE_IO LPC_DEC_CYC_TYPE_MEM LPC_DEC_CYC_TYPE_DMA LPC_DEC_CYC_TYPE_RSVD];
      (split; [|done]); repeat split; auto; try lia; try discriminate.
    - intros Hab. rewrite (Hchain Hab). done.
    - intros Hab. rewrite (Hchain Hab). done. }
  cbn [app]. constructor; [exact Hline|constructor].
Qed.

Lemma Payload_pushed d s :
  wf d -> 0 <= idxState d < 8 -> s <> LPCDECSTATE_ADDR ->
  2 <= idxState d -> Payload d -> Payload (pushed d s).
Proof.
  intros Hwf Hi Hs H2 (Haddr & Hdata & Htyp & _).
  destruct (pushed_fields d s)
    as (_ & Hpi & _ & _ & _ & Hpt & _ & _ & _ & _ & _ & Hpa & Hpd).
  unfold Payload. rewrite Hpi, Hpt, Hpa, Hpd, pushed_cur by done.
  split; [lia|]. split; [lia|]. split; [intros _; by apply Htyp|].
  intros [= ->]. done.
Qed.

Lemma Payload_counter d :
  Payload d -> cur_phase d <> Some LPCDECSTATE_ADDR ->
  (forall n, Payload (set_cDataCycles n d)) /\ (forall n, Payload (set_cTarCycles n d)).
Proof.
  intros HP Hcur. destruct d. split; intros n; unfold Payload in *; tauto.
Qed.

Lemma Payload_reset d : Payload (lpcDecStateReset d).
Proof.
  destruct d as [? ? ? ? ? ? idx arr ? ? ? ? ? ? ? ? ? ? ?].
  unfold Payload. simpl. split; [lia|]. split; [lia|]. split; [lia|].
  intros Hcur. exfalso. unfold cur_phase, aenmState_read in Hcur. simpl in Hcur.
  destruct arr; simpl in Hcur; discriminate.
Qed.

Lemma advance_good v d s d' out :
  Shape d -> Payload d -> cur_phase d = Some s ->
  s = LPCDECSTATE_ADDR \/ s = LPCDECSTATE_DATA \/ s = LPCDECSTATE_TAR \/ s = LPCDECSTATE_SYNC ->
  lpcDecStateSampleAdvance v d = Some (d', out) ->
  Payload d' /\ Forall (good_output v) out /\ (length (cycles out) <= 1)%nat.
Proof.
  intros Hshape HP Hcur Hs Hadv.
  assert (wf d /\ 0 <= idxState d < 8) as [Hwf Hi]
    by (destruct Hshape as (?&?&?); split; [done|lia]).
  assert (2 <= idxState d) as H2
    by (apply (Shape_classified d s); try done; destruct Hs as [->|[->|[->| ->]]]; done).
  rewrite (lpcDecStateSampleAdvance_eq v d s Hwf Hcur) in Hadv by lia.
  assert (forall p, p <> LPCDECSTATE_ADDR ->
            Payload (pushed d p) /\
            (forall n, Payload (set_cDataCycles n (pushed d p))) /\
            (forall n, Payload (set_cTarCycles n (pushed d p)))) as Hpush.
  { intros p Hp. assert (Payload (pushed d p)) as HPp by (by apply Payload_pushed).
    split; [done|]. apply Payload_counter; [done|]. rewrite pushed_cur by done. congruence. }
  destruct Hs as [->|[->|[->| ->]]].
  - injection Hadv as <- <-. split; [|split; [constructor|simpl; lia]].
    destruct (c_true (fWrite d)); by apply Hpush.
  - injection Hadv as <- <-. split; [|split; [constructor|simpl; lia]]. by apply Hpush.
  - destruct (prev_phase d) as [prev|] eqn:Hprev; [|discriminate].
    cbn [mbind option_bind] in Hadv.
    destruct (bool_decide _) eqn:Hdec.
    + injection Hadv as <- <-. split; [|split; [constructor|simpl; lia]]. by apply Hpush.
    + injection Hadv as <- <-. split; [apply Payload_reset|]. split.
      * apply dump_output_good; try done. intros _.
        by apply (Shape_final_tar d prev).
      * by rewrite cycles_dump.
  - injection Hadv as <- <-. split; [|split; [constructor|simpl; lia]].
    destruct (c_true (fWrite d)); by apply Hpush.
Qed.

Lemma Payload_restart d : wf d -> Payload (pushed (lpcDecStateReset d) LPCDECSTATE_START).
Proof.
  intros Hwf. destruct (wf_slots d Hwf) as (a0&a1&a2&a3&a4&a5&a6&a7&a8&E).
  destruct d as [? ? ? ? ? ? idx arr ? ? ? ? ? ? ? ? ? ? ?]. simpl in E. subst arr.
  unfold Payload. reduce_state. split; [lia|]. split; [lia|]. split; [lia|].
  intros Hcur. vm_compute in Hcur. discriminate.
Qed.

Lemma Payload_addr_step d bLad :
  Payload d -> 2 <= idxState d -> cur_phase d = Some LPCDECSTATE_ADDR ->
  1 <= cAddrCycles d <= 8 -> 0 <= bLad < 16 ->
  Payload (set_u32Addr
             (u32 (Z.lor (u32Addr d) (Z.shiftl bLad ((cAddrCycles d - 1) * 4))))
             (set_cAddrCycles (cAddrCycles d - 1) d)).
Proof.
  intros (Haddr & Hdata & Htyp & Hio) H2 Hcur Hc Hlad.
  set (x := Z.lor (u32Addr d) (Z.shiftl bLad ((cAddrCycles d - 1) * 4))).
  assert (0 <= u32 x < 2 ^ 32) as Hx by (unfold u32; apply Z.mod_pos_bound; lia).
  assert (bTyp d = LPC_DEC_CYC_TYPE_IO -> u32 x < 2 ^ 16) as Hx16.
  { intros Ht. destruct (Htyp H2) as [[_ Ha]|Hm];
      [|rewrite Hm in Ht; discriminate].
    specialize (Hio Hcur Ht).
    assert (0 <= Z.shiftl bLad ((cAddrCycles d - 1) * 4) < 2 ^ 16) as Hs.
    { rewrite Z.shiftl_mul_pow2 by lia.
      assert (0 < 2 ^ ((cAddrCycles d - 1) * 4) <= 2 ^ 12) as Hp.
      { split; [apply Z.pow_pos_nonneg; lia|apply Z.pow_le_mono_r; lia]. }
      change (2 ^ 16) with (16 * 2 ^ 12). nia. }
    assert (0 <= x < 2 ^ 16) as Hlt by (apply lor_lt_pow2; lia).
    unfold u32. rewrite Z.mod_small; lia. }
  destruct d as [? ? ? ? ? ? idx arr ? ? ? ? ? ? ? ? ? ? ?].
  unfold Payload. cbn in *. split; [done|]. split; [done|]. split.
  - intros _. destruct (Htyp H2) as [[Ht Ha]|Hm]; [left|by right]. split; [done|by apply Hx16].
  - intros _ Ht. specialize (Hio Hcur Ht). lia.
Qed.

Lemma lpcDecStateStartDecode_good v d bLad d' out :
  Shape d -> Payload d -> cur_phase d = Some LPCDECSTATE_START -> 0 <= bLad < 16 ->
  lpcDecStateStartDecode d bLad = Some (d', out) ->
  Payload d' /\ Forall (good_output v) out /\ (length (cycles out) <= 1)%nat.
Proof.
  intros Hshape HP Hcur Hlad Hdec.
  pose proof (Shape_start d Hshape Hcur) as Hidx.
  destruct (cycle_type_and_direction_bits bLad Hlad) as (_ & _ & Hrange).
  assert (wf d) as Hwf by (by destruct Hshape).
  unfold lpcDecStateStartDecode in Hdec.
  destruct (bStartLast d =? LPC_DEC_START_TARGET_CYCLE).
  2:{ destruct (bStartLast d =? LPC_DEC_START_ABORT); injection Hdec as <- <-.
      - split; [apply Payload_reset|]. split; [constructor|simpl; lia].
      - split; [done|]. split; [constructor|simpl; lia]. }
  set (t := LPC_DEC_CYC_TYPE_GET bLad) in *.
  set (w := c_int (negb (LPC_DEC_CYC_DIR_IS_READ bLad))) in *.
  rewrite lpcDecStateSet_pushed in Hdec by (destruct d; simpl in *; lia).
  cbn [mbind option_bind] in Hdec.
  destruct HP as (Haddr & Hdata & _ & _).
  destruct (wf_slots d Hwf) as (a0&a1&a2&a3&a4&a5&a6&a7&a8&E).
  destruct d as [? ? ? ? ? ? idx arr ? ? ? ? ? ? ? ? ? ? ?].
  cbn [idxState aenmState u32Addr bData] in *. subst idx arr.
  revert Hdec. reduce_fields.
  unfold LPC_DEC_CYC_TYPE_IO, LPC_DEC_CYC_TYPE_MEM, LPC_DEC_CYC_TYPE_DMA,
    LPC_DEC_CYC_TYPE_RSVD in *.
  destruct (Z.eqb_spec t 0) as [E0|E0]; [|destruct (Z.eqb_spec t 1) as [E1|E1]];
    intros [= <- <-].
  - split; [|split; [constructor|simpl; lia]].
    unfold Payload. reduce_fields. split; [lia|]. split; [done|]. split.
    + intros _. left. split; [done|lia].
    + intros _ _. lia.
  - split; [|split; [constructor|simpl; lia]].
    unfold Payload. reduce_fields. split; [lia|]. split; [done|]. split.
    + intros _. by right.
    + intros _ Ht. unfold LPC_DEC_CYC_TYPE_IO in Ht. lia.
  - split; [apply Payload_reset|]. split; [|simpl; lia].
    constructor; [|constructor]. simpl. unfold LPC_DEC_CYC_TYPE_DMA, LPC_DEC_CYC_TYPE_RSVD. lia.
Qed.

Lemma falling_edge_good v d uSeqNo bSample d' out :
  Inv d -> Payload d ->
  falling_edge v d uSeqNo bSample = Some (d', out) ->
  Payload d' /\ Forall (good_output v) out /\ (length (cycles out) <= 1)%nat.
Proof.
  intros [Hshape Hcnt] HP Hedge.
  assert (wf d) as Hwf by (by destruct Hshape).
  destruct (Shape_known d Hshape) as (s & Hcur & Hknown).
  pose proof (lpcDecStateLadExtractFromSample_range d bSample) as Hlad.
  unfold Counters in Hcnt. rewrite Hcur in Hcnt.
  destruct (sample_level_01 bSample (u8BitLFrame d)) as [Hfr|Hfr].
  - rewrite (falling_edge_frame_asserted v d uSeqNo bSample s Hwf Hcur Hfr) in Hedge.
    injection Hedge as <- <-.
    split; [apply Payload_restart; by destruct d|].
    destruct (negb (bool_decide (s = LPCDECSTATE_LFRAME_WAIT_ASSERTED))
              && negb (bool_decide (s = LPCDECSTATE_START))) eqn:Hmid.
    + split; [|by rewrite cycles_dump].
      apply dump_output_good; [done| |intros Hab; vm_compute in Hab; discriminate].
      apply andb_true_iff in Hmid as [H1 H2].
      apply negb_true_iff, bool_decide_eq_false in H1, H2.
      by apply (Shape_classified d s).
    + split; [constructor|simpl; lia].
  - rewrite (falling_edge_released v d uSeqNo bSample s Hcur Hfr) in Hedge.
    destruct s; try discriminate.
    + injection Hedge as <- <-. split; [done|]. split; [constructor|simpl; lia].
    + by apply (lpcDecStateStartDecode_good v d
                  (lpcDecStateLadExtractFromSample d bSample) d' out).
    + (* ADDR *)
      assert (2 <= idxState d) as H2 by (by apply (Shape_classified d LPCDECSTATE_ADDR)).
      rewrite (lpcDecStateAddrDecode_step v d _ Hcnt) in Hedge.
      pose proof (Payload_addr_step d _ HP H2 Hcur Hcnt Hlad) as HP1.
      set (d1 := set_u32Addr _ _) in *.
      destruct (cAddrCycles d - 1 =? 0).
      * apply (advance_good v d1 LPCDECSTATE_ADDR); auto; [by destruct d|].
        rewrite <- Hcur. by destruct d.
      * injection Hedge as <- <-. split; [done|]. split; [constructor|simpl; lia].
    + (* DATA *)
      unfold lpcDecStateDataDecode in Hedge.
      set (d1 := set_iDataCycle _ _) in *. cbv zeta in Hedge.
      assert (cur_phase d1 = Some LPCDECSTATE_DATA) as Hcur1
        by (rewrite <- Hcur; by destruct d).
      assert (Shape d1) as Hshape1.
      { destruct Hshape as (? & Hi & Hh & Hd).
        split; [by destruct d|]. split; [by destruct d|]. split; [by destruct d|].
        intros Hn. exfalso. apply Hn. by apply cur_phase_in_history. }
      assert (Payload d1) as HP1.
      { destruct HP as (Haddr & Hdata & Htyp & _).
        assert (0 <= bData d1 < 256) as Hb.
        { replace (bData d1)
            with (u8 (Z.lor (bData d)
                        (Z.shiftl (lpcDecStateLadExtractFromSample d bSample)
                           (iDataCycle d * 4)))) by (by destruct d).
          unfold u8. apply Z.mod_pos_bound. lia. }
        split; [by destruct d|]. split; [done|]. split; [by destruct d|].
        rewrite Hcur1. discriminate. }
      destruct (iDataCycle d1 =? cDataCycles d1).
      * apply (advance_good v d1 LPCDECSTATE_DATA); auto.
      * injection Hedge as <- <-. split; [done|]. split; [constructor|simpl; lia].
    + (* TAR *)
      unfold lpcDecStateTarDecode in Hedge.
      set (d1 := set_cTarCycles _ _) in *. cbv zeta in Hedge.
      assert (cur_phase d1 = Some LPCDECSTATE_TAR) as Hcur1
        by (rewrite <- Hcur; by destruct d).
      assert (Shape d1) as Hshape1 by (by destruct d).
      assert (Payload d1) as HP1
        by (apply Payload_counter; [done|rewrite Hcur; discriminate]).
      destruct (negb (c_true (cTarCycles d1))).
      * apply (advance_good v d1 LPCDECSTATE_TAR); auto.
      * injection Hedge as <- <-. split; [done|]. split; [constructor|simpl; lia].
    + (* SYNC *)
      unfold lpcDecStateSyncDecode in Hedge.
      destruct (_ =? 0).
      * apply (advance_good v d LPCDECSTATE_SYNC); auto.
      * injection Hedge as <- <-. split; [done|]. split; [constructor|simpl; lia].
Qed.

Lemma lpcDecStateSampleProcess_good v d uSeqNo bSample rc d' out :
  Inv d -> Payload d ->
  lpcDecStateSampleProcess v d uSeqNo bSample = Some (rc, d', out) ->
  Inv d' /\ Payload d' /\ Forall (good_output v) out /\ (length (cycles out) <= 1)%nat.
Proof.
  intros HInv HP Hp.
  destruct (lpcDecStateSampleProcess_Inv v d uSeqNo bSample HInv) as (d0 & out0 & Hp0 & HInv0).
  rewrite Hp in Hp0. injection Hp0 as -> -> ->. split; [done|].
  unfold lpcDecStateSampleProcess in Hp.
  destruct (_ =? fClkLast d).
  { injection Hp as <- <-. split; [done|]. split; [constructor|simpl; lia]. }
  assert (forall a e, Payload e -> Payload (set_fClkLast a e)) as Hclk
    by (intros a e; by destruct e).
  destruct (c_true (fClkLast d) && _).
  - destruct (falling_edge v d uSeqNo bSample) as [[d1 out1]|] eqn:Hedge; [|discriminate].
    injection Hp as <- <-.
    destruct (falling_edge_good v d uSeqNo bSample d1 out1 HInv HP Hedge) as (HP1 & Hout & Hlen).
    split; [by apply Hclk|done].
  - injection Hp as <- <-. split; [by apply Hclk|]. split; [constructor|simpl; lia].
Qed.

Lemma main_loop_good v samples : forall d d' out,
  Inv d -> Payload d ->
  main_loop v d samples = Some (d', out) ->
  Inv d' /\ Payload d' /\ Forall (good_output v) out.
Proof.
  induction samples as [|[uSeqNo bVal] rest IH]; intros d d' out HInv HP Hrun.
  - injection Hrun as <- <-. split; [done|]. split; [done|constructor].
  - cbn [main_loop] in Hrun.
    destruct (lpcDecStateSampleProcess v d uSeqNo bVal) as [[[rc d1] out1]|] eqn:Hp;
      [|discriminate].
    destruct (lpcDecStateSampleProcess_good v d uSeqNo bVal rc d1 out1 HInv HP Hp)
      as (HInv1 & HP1 & Hout1 & _).
    apply pins_lpcDecStateSampleProcess in Hp as (_ & -> & _).
    cbn [mbind option_bind] in Hrun. change (0 =? 0) with true in Hrun. cbv iota in Hrun.
    destruct (main_loop v d1 rest) as [[d2 out2]|] eqn:Hrest; [|discriminate].
    injection Hrun as <- <-.
    destruct (IH d1 d2 out2 HInv1 HP1 Hrest) as (HInv2 & HP2 & Hout2).
    split; [done|]. split; [done|]. by apply Forall_app.
Qed.

Lemma init_run_good v mem clk frame lad0 lad1 lad2 lad3 samples :
  wf mem ->
  exists d out,
    main_loop v (lpcDecStateInit mem clk frame lad0 lad1 lad2 lad3) samples = Some (d, out) /\
    Inv d /\ Payload d /\ Forall (good_output v) out.
Proof.
  intros Hwf.
  pose proof (lpcDecStateInit_Inv mem clk frame lad0 lad1 lad2 lad3 Hwf) as HInv.
  destruct (main_loop_Inv v samples _ HInv) as (d & out & Hrun & _).
  exists d, out. split; [done|].
  apply (main_loop_good v samples _ d out HInv); [|done].
  unfold lpcDecStateInit. apply Payload_reset.
Qed.

(** From initialisation on, whatever the samples, the decoder never prints
    "Unknown state" nor "Wait WHAT?": both switches always find a phase they
    know and [lpcDecStateDump] always finds a cycle type it knows.  The only
    other diagnostic, the unsupported-type report, is printed for DMA (2) and
    reserved (3) and for nothing else. *)
Theorem run_prints_no_diagnostics
    (v : Z) (mem : LPCDEC) (clk frame lad0 lad1 lad2 lad3 : Z) (samples : list (Z * Z)) :
  wf mem ->
  exists d out,
    main_loop v (lpcDecStateInit mem clk frame lad0 lad1 lad2 lad3) samples = Some (d, out) /\
    (forall s, ~ In (OutUnknownState s) out) /\
    ~ In OutWaitWhat out /\
    (forall t, In (OutIllegalType t) out ->
       t = LPC_DEC_CYC_TYPE_DMA \/ t = LPC_DEC_CYC_TYPE_RSVD).
Proof.
  intros Hwf.
  destruct (init_run_good v mem clk frame lad0 lad1 lad2 lad3 samples Hwf)
    as (d & out & Hrun & _ & _ & Hout).
  exists d, out. split; [done|]. rewrite Forall_forall in Hout.
  split; [|split].
  - intros s Hin. apply list_elem_of_In in Hin. exact (Hout _ Hin).
  - intros Hin. apply list_elem_of_In in Hin. exact (Hout _ Hin).
  - intros t Hin. apply list_elem_of_In in Hin. exact (Hout _ Hin).
Qed.

Lemma run_prints_no_diagnostics_witness :
  exists d out,
    main_loop 1 (lpcDecStateInit ex_memory 0 1 5 4 3 2)
      (clock_nibbles 100 [(0, 0); (1, 8)]) = Some (d, out) /\
    ~ In OutWaitWhat out.
Proof.
  destruct (run_prints_no_diagnostics 1 ex_memory 0 1 5 4 3 2
              (clock_nibbles 100 [(0, 0); (1, 8)]) eq_refl) as (d & out & Hrun & _ & Hw & _).
  exists d, out. split; [exact Hrun|exact Hw].
Defined.

(** Every decoded-cycle line printed in a run names an I/O or a memory
    cycle and a direction, carries a data byte and a 32-bit address, and the
    address of an I/O line fits 16 bits. *)
Theorem run_lines_well_formed
    (v : Z) (mem : LPCDEC) (clk frame lad0 lad1 lad2 lad3 : Z) (samples : list (Z * Z))
    (d : LPCDEC) (out : list Output) (l : DumpLine) :
  wf mem ->
  main_loop v (lpcDecStateInit mem clk frame lad0 lad1 lad2 lad3) samples = Some (d, out) ->
  In (OutCycle l) out ->
  (dl_typ l = "I/O"%string \/ dl_typ l = "Mem"%string) /\
  (dl_dir l = "Write"%string \/ dl_dir l = "Read "%string) /\
  0 <= dl_addr l < 2 ^ 32 /\
  (dl_typ l = "I/O"%string -> dl_addr l < 2 ^ 16) /\
  0 <= dl_data l < 256.
Proof.
  intros Hwf Hrun Hin.
  destruct (init_run_good v mem clk frame lad0 lad1 lad2 lad3 samples Hwf)
    as (d0 & out0 & Hrun0 & _ & _ & Hout).
  rewrite Hrun in Hrun0. injection Hrun0 as <- <-.
  rewrite Forall_forall in Hout. apply list_elem_of_In in Hin.
  pose proof (Hout _ Hin) as Hg. cbn [good_output] in Hg. unfold good_line in Hg. tauto.
Qed.

(** A line that is not marked aborted was printed at the end of a whole
    cycle: in verbose mode its chain is the seven phases of a write cycle
    (data before the first turnaround) or of a read cycle (data after the
    sync), according to the direction it names. *)
Theorem completed_line_chain
    (v : Z) (mem : LPCDEC) (clk frame lad0 lad1 lad2 lad3 : Z) (samples : list (Z * Z))
    (d : LPCDEC) (out : list Output) (l : DumpLine) :
  wf mem ->
  c_true v = true ->
  main_loop v (lpcDecStateInit mem clk frame lad0 lad1 lad2 lad3) samples = Some (d, out) ->
  In (OutCycle l) out ->
  dl_abort l = false ->
  (dl_dir l = "Write"%string ->
   dl_chain l = Some [LPCDECSTATE_LFRAME_WAIT_ASSERTED; LPCDECSTATE_START; LPCDECSTATE_ADDR;
                      LPCDECSTATE_DATA; LPCDECSTATE_TAR; LPCDECSTATE_SYNC; LPCDECSTATE_TAR]) /\
  (dl_dir l = "Read "%string ->
   dl_chain l = Some [LPCDECSTATE_LFRAME_WAIT_ASSERTED; LPCDECSTATE_START; LPCDECSTATE_ADDR;
                      LPCDECSTATE_TAR; LPCDECSTATE_SYNC; LPCDECSTATE_DATA; LPCDECSTATE_TAR]).
Proof.
  intros Hwf Hv Hrun Hin Hab.
  destruct (init_run_good v mem clk frame lad0 lad1 lad2 lad3 samples Hwf)
    as (d0 & out0 & Hrun0 & _ & _ & Hout).
  rewrite Hrun in Hrun0. injection Hrun0 as <- <-.
  rewrite Forall_forall in Hout. apply list_elem_of_In in Hin.
  pose proof (Hout _ Hin) as Hg. cbn [good_output] in Hg.
  destruct Hg as (_ & _ & _ & _ & _ & Hchain).
  rewrite (Hchain Hab), Hv. split; intros ->; reflexivity.
Qed.

(** One sample prints at most one decoded-cycle line. *)
Theorem one_line_per_sample
    (v : Z) (d : LPCDEC) (uSeqNo bSample : Z) (rc : Z) (d' : LPCDEC) (out : list Output) :
  reachable v d ->
  lpcDecStateSampleProcess v d uSeqNo bSample = Some (rc, d', out) ->
  (length (cycles out) <= 1)%nat.
Proof.
  intros (mem & clk & frame & lad0 & lad1 & lad2 & lad3 & samples & out0 & Hwf & Hrun) Hp.
  destruct (init_run_good v mem clk frame lad0 lad1 lad2 lad3 samples Hwf)
    as (d0 & out1 & Hrun0 & HInv & HP & _).
  rewrite Hrun in Hrun0. injection Hrun0 as <- <-.
  by destruct (lpcDecStateSampleProcess_good v d uSeqNo bSample rc d' out HInv HP Hp)
    as (_ & _ & _ & Hlen).
Qed.

Lemma ex_write_run_eq : main_loop 1 ex_init ex_write_samples = ex_write_run.
Proof. vm_compute. reflexivity. Qed.

Lemma ex_read_run_eq : main_loop 1 ex_init ex_read_samples = ex_read_run.
Proof. vm_compute. reflexivity. Qed.

Lemma run_lines_well_formed_witness :
  exists d out l,
    main_loop 1 ex_init ex_write_samples = Some (d, out) /\
    In (OutCycle l) out /\
    dl_typ l = "Mem"%string /\ 0 <= dl_addr l < 2 ^ 32 /\ 0 <= dl_data l < 256.
Proof.
  pose proof ex_write_run_eq as Hrun. unfold ex_write_run in Hrun.
  eexists _, _, _. split; [exact Hrun|].
  split; [left; reflexivity|]. split; [reflexivity|].
  pose proof (run_lines_well_formed 1 ex_memory 0 1 5 4 3 2 ex_write_samples
                _ _ _ eq_refl Hrun (or_introl eq_refl)) as H.
  destruct H as (_ & _ & Ha & _ & Hb). split; [exact Ha|exact Hb].
Defined.

Lemma completed_line_chain_witness :
  exists d out l,
    main_loop 1 ex_init ex_read_samples = Some (d, out) /\
    In (OutCycle l) out /\
    dl_chain l = Some [LPCDECSTATE_LFRAME_WAIT_ASSERTED; LPCDECSTATE_START; LPCDECSTATE_ADDR;
                       LPCDECSTATE_TAR; LPCDECSTATE_SYNC; LPCDECSTATE_DATA; LPCDECSTATE_TAR].
Proof.
  pose proof ex_read_run_eq as Hrun. unfold ex_read_run in Hrun.
  eexists _, _, _. split; [exact Hrun|].
  split; [left; reflexivity|].
  exact (proj2 (completed_line_chain 1 ex_memory 0 1 5 4 3 2 ex_read_samples
                  _ _ _ eq_refl eq_refl Hrun (or_introl eq_refl) eq_refl) eq_refl).
Defined.

Lemma one_line_per_sample_witness :
  exists d' out,
    lpcDecStateSampleProcess 0 ex_data 300 (ref_sample 0 0 0) = Some (0, d', out) /\
    (length (cycles out) <= 1)%nat.
Proof.
  eexists _, _. split; [vm_compute; reflexivity|].
  refine (one_line_per_sample 0 ex_data 300 (ref_sample 0 0 0) 0 _ _
            ex_data_reachable eq_refl).
Defined.

(** ** Waiting for LFRAME# *)

(** A state in which an edge with LFRAME# released does nothing stays as it
    is, up to the stored clock level, for as long as LFRAME# stays released. *)
Lemma main_loop_quiet v d samples :
  (forall x uSeqNo b,
     sample_level b (u8BitLFrame d) = 1 ->
     falling_edge v (set_fClkLast x d) uSeqNo b = Some (set_fClkLast x d, [])) ->
  Forall (fun s => sample_level (snd s) (u8BitLFrame d) = 1) samples ->
  forall x, exists y, main_loop v (set_fClkLast x d) samples = Some (set_fClkLast y d, []).
Proof.
  intros Hquiet Hall. induction Hall as [|[uSeqNo b] rest Hb _ IH]; intros x.
  - by exists x.
  - cbn [snd] in Hb. cbn [main_loop]. unfold lpcDecStateSampleProcess.
    assert (u8BitLClk (set_fClkLast x d) = u8BitLClk d) as -> by (by destruct d).
    assert (fClkLast (set_fClkLast x d) = x) as -> by (by destruct d).
    set (c := sample_level b (u8BitLClk d)).
    destruct (c =? x) eqn:Hc.
    + cbn [mbind option_bind]. change (0 =? 0) with true. cbv iota.
      destruct (IH x) as (y & ->). by exists y.
    + assert (('(d0, out) ← (if c_true x && negb (c_true c)
                             then falling_edge v (set_fClkLast x d) uSeqNo b
                             else Some (set_fClkLast x d, []));
               Some (0, set_fClkLast c d0, out))
              = Some (0, set_fClkLast c d, [])) as ->.
      { rewrite Hquiet by done. destruct (_ && _); cbn [mbind option_bind];
          by rewrite set_fClkLast_twice. }
      cbn [mbind option_bind]. change (0 =? 0) with true. cbv iota.
      destruct (IH c) as (y & ->). by exists y.
Qed.

(** While the decoder waits for LFRAME# and LFRAME# stays released, no
    sample has any effect: nothing is printed and nothing changes but the
    stored clock level. *)
Theorem idle_until_frame (v : Z) (d : LPCDEC) (samples : list (Z * Z)) :
  cur_phase d = Some LPCDECSTATE_LFRAME_WAIT_ASSERTED ->
  Forall (fun s => sample_level (snd s) (u8BitLFrame d) = 1) samples ->
  exists y, main_loop v d samples = Some (set_fClkLast y d, []).
Proof.
  intros Hcur Hall.
  assert (exists y, main_loop v (set_fClkLast (fClkLast d) d) samples
                    = Some (set_fClkLast y d, [])) as (y & Hrun).
  { apply main_loop_quiet; [|done].
    intros x uSeqNo b Hb.
    rewrite (falling_edge_released v _ uSeqNo b LPCDECSTATE_LFRAME_WAIT_ASSERTED);
      [done|by destruct d|by destruct d]. }
  rewrite set_fClkLast_same in Hrun. by exists y.
Qed.

Lemma idle_until_frame_witness :
  exists y,
    main_loop 0 ex_idle [(1, ref_sample 0 1 3); (2, ref_sample 1 1 0); (3, ref_sample 0 1 0)]
    = Some (set_fClkLast y ex_idle, []).
Proof.
  refine (idle_until_frame 0 ex_idle _ eq_refl _).
  repeat constructor.
Defined.

(** A state that falling edges with LFRAME# released leave alone, with
    the level stored at the end. *)
Lemma main_loop_quiet_level v d samples :
  (forall x uSeqNo b,
     sample_level b (u8BitLFrame d) = 1 ->
     falling_edge v (set_fClkLast x d) uSeqNo b = Some (set_fClkLast x d, [])) ->
  Forall (fun s => sample_level (snd s) (u8BitLFrame d) = 1) samples ->
  forall x,
    main_loop v (set_fClkLast x d) samples
    = Some (set_fClkLast (last_level x (clk_levels d samples)) d, []).
Proof.
  intros Hquiet Hall. induction Hall as [|[uSeqNo b] rest Hb _ IH]; intros x.
  - reflexivity.
  - cbn [snd] in Hb. cbn [main_loop clk_levels map last_level snd].
    fold (clk_levels d rest). unfold lpcDecStateSampleProcess.
    assert (u8BitLClk (set_fClkLast x d) = u8BitLClk d) as -> by (by destruct d).
    assert (fClkLast (set_fClkLast x d) = x) as -> by (by destruct d).
    set (c := sample_level b (u8BitLClk d)).
    destruct (Z.eqb_spec c x) as [->|Hc].
    + cbn [mbind option_bind]. change (0 =? 0) with true. cbv iota.
      by rewrite IH.
    + assert (('(d0, out) ← (if c_true x && negb (c_true c)
                             then falling_edge v (set_fClkLast x d) uSeqNo b
                             else Some (set_fClkLast x d, []));
               Some (0, set_fClkLast c d0, out))
              = Some (0, set_fClkLast c d, [])) as ->.
      { rewrite Hquiet by done. destruct (_ && _); cbn [mbind option_bind];
          by rewrite set_fClkLast_twice. }
      cbn [mbind option_bind]. change (0 =? 0) with true. cbv iota.
      by rewrite IH.
Qed.

(** A start value other than 0x0 starts no cycle.  After LFRAME# was
    asserted with such a value on LAD, samples with LFRAME# released print
    nothing.  With the abort value 0xf the first falling edge among them
    resets the decoder, which then waits for LFRAME#; without a falling
    edge, and with any other value (reserved values and bus master grants
    are not decoded), the decoder stays in START as it is.  Only the stored
    clock level follows the samples. *)
Theorem non_target_start_is_ignored (v : Z) (d : LPCDEC) (samples : list (Z * Z)) :
  wf d ->
  cur_phase d = Some LPCDECSTATE_START ->
  bStartLast d <> LPC_DEC_START_TARGET_CYCLE ->
  Forall (fun s => sample_level (snd s) (u8BitLFrame d) = 1) samples ->
  main_loop v d samples
  = Some (set_fClkLast (last_level (fClkLast d) (clk_levels d samples))
            (if (bStartLast d =? LPC_DEC_START_ABORT)
                && sees_falling (fClkLast d) (clk_levels d samples)
             then lpcDecStateReset d
             else d), []).
Proof.
  intros Hwf Hcur Hstart Hall.
  assert (forall x uSeqNo b,
            sample_level b (u8BitLFrame d) = 1 ->
            falling_edge v (set_fClkLast x d) uSeqNo b
            = if bStartLast d =? LPC_DEC_START_ABORT
              then Some (set_fClkLast x (lpcDecStateReset d), [])
              else Some (set_fClkLast x d, [])) as Hedge.
  { intros x uSeqNo b Hb.
    rewrite (falling_edge_released v _ uSeqNo b LPCDECSTATE_START);
      [|by destruct d|by destruct d].
    unfold lpcDecStateStartDecode.
    assert (bStartLast (set_fClkLast x d) = bStartLast d) as -> by (by destruct d).
    destruct (Z.eqb_spec (bStartLast d) LPC_DEC_START_TARGET_CYCLE); [done|].
    destruct (bStartLast d =? LPC_DEC_START_ABORT); [|done]. by destruct d. }
  rewrite <- (set_fClkLast_same d) at 1.
  destruct (Z.eqb_spec (bStartLast d) LPC_DEC_START_ABORT) as [Habort|Hother];
    cbn [andb].
  - (* the abort value: back to idle on the first falling edge *)
    assert (forall x uSeqNo b,
              sample_level b (u8BitLFrame (lpcDecStateReset d)) = 1 ->
              falling_edge v (set_fClkLast x (lpcDecStateReset d)) uSeqNo b
              = Some (set_fClkLast x (lpcDecStateReset d), [])) as Hidle.
    { intros x uSeqNo b Hb.
      rewrite (falling_edge_released v _ uSeqNo b LPCDECSTATE_LFRAME_WAIT_ASSERTED); [done| |].
      - rewrite <- (lpcDecStateReset_cur d Hwf). by destruct d.
      - rewrite <- Hb. by destruct d. }
    assert (u8BitLFrame (lpcDecStateReset d) = u8BitLFrame d) as Hfr by (by destruct d).
    assert (forall l, clk_levels (lpcDecStateReset d) l = clk_levels d l) as Hlev
      by (intros l; by destruct d).
    generalize (fClkLast d). clear Hstart Hcur.
    induction Hall as [|[uSeqNo b] rest Hb Hrest IH]; intros x.
    + reflexivity.
    + cbn [snd] in Hb. cbn [main_loop clk_levels map last_level sees_falling snd].
      fold (clk_levels d rest). unfold lpcDecStateSampleProcess.
      assert (u8BitLClk (set_fClkLast x d) = u8BitLClk d) as -> by (by destruct d).
      assert (fClkLast (set_fClkLast x d) = x) as -> by (by destruct d).
      set (c := sample_level b (u8BitLClk d)).
      destruct (Z.eqb_spec c x) as [->|Hc].
      * cbn [mbind option_bind]. change (0 =? 0) with true. cbv iota.
        rewrite IH. by destruct (c_true x).
      * rewrite Hedge by done. destruct (c_true x && negb (c_true c));
          cbn [mbind option_bind orb]; rewrite set_fClkLast_twice;
          change (0 =? 0) with true; cbv iota.
        -- assert (Forall (fun s => sample_level (snd s)
                                      (u8BitLFrame (lpcDecStateReset d)) = 1) rest) as Hrest'
             by (by rewrite Hfr).
           by rewrite (main_loop_quiet_level v (lpcDecStateReset d) rest Hidle Hrest' c),
             Hlev.
        -- by rewrite IH.
  - (* any other value: the decoder stays in START *)
    apply main_loop_quiet_level; [|done]. intros x uSeqNo b Hb. by rewrite Hedge.
Qed.

Lemma non_target_start_is_ignored_witness :
  main_loop 0 ex_start_abort
    [(1, ref_sample 1 1 3); (2, ref_sample 0 1 0); (3, ref_sample 1 1 0)]
  = Some (set_fClkLast 1 (lpcDecStateReset ex_start_abort), []).
Proof.
  refine (non_target_start_is_ignored 0 ex_start_abort
            [(1, ref_sample 1 1 3); (2, ref_sample 0 1 0); (3, ref_sample 1 1 0)]
            eq_refl eq_refl _ _).
  - vm_compute. discriminate.
  - repeat constructor.
Defined.

(** ** A whole cycle, from the samples to the printed line *)

(** The reference wiring reads back what [ref_sample] put on the pins. *)
Lemma ref_sample_levels d c f lad :
  pins d = (0, 1, 5, 4, 3, 2) ->
  0 <= c < 2 -> 0 <= f < 2 -> 0 <= lad < 16 ->
  sample_level (ref_sample c f lad) (u8BitLClk d) = c /\
  sample_level (ref_sample c f lad) (u8BitLFrame d) = f /\
  lpcDecStateLadExtractFromSample d (ref_sample c f lad) = lad.
Proof.
  intros Hp Hc Hf Hlad. unfold lpcDecStateLadExtractFromSample.
  unfold pins in Hp. injection Hp as -> -> -> -> -> ->.
  assert (c = 0 \/ c = 1) as [-> | ->] by lia;
    (assert (f = 0 \/ f = 1) as [-> | ->] by lia);
    nibble_cases lad H; vm_compute; done.
Qed.

(** A sample with CLK high only stores the level. *)
Lemma lpcDecStateSampleProcess_high v d uSeqNo bSample :
  sample_level bSample (u8BitLClk d) = 1 ->
  lpcDecStateSampleProcess v d uSeqNo bSample = Some (0, set_fClkLast 1 d, []).
Proof.
  intros Hhi. unfold lpcDecStateSampleProcess. rewrite Hhi.
  destruct (Z.eqb_spec 1 (fClkLast d)) as [E|E].
  - replace (set_fClkLast 1 d) with d; [done|]. rewrite E. symmetry. apply set_fClkLast_same.
  - change (negb (c_true 1)) with false. by rewrite andb_false_r.
Qed.

(** A sample with CLK low after one with CLK high runs the edge body. *)
Lemma lpcDecStateSampleProcess_low v d uSeqNo bSample :
  fClkLast d = 1 ->
  sample_level bSample (u8BitLClk d) = 0 ->
  lpcDecStateSampleProcess v d uSeqNo bSample
  = '(d1, out) ← falling_edge v d uSeqNo bSample; Some (0, set_fClkLast 0 d1, out).
Proof.
  intros Hlast Hlo. unfold lpcDecStateSampleProcess. by rewrite Hlo, Hlast.
Qed.

(** One clock period: the rising half only stores the level, the falling
    half runs the edge body. *)
Lemma main_loop_period v d n f lad l d1 o1 :
  pins d = (0, 1, 5, 4, 3, 2) ->
  0 <= f < 2 -> 0 <= lad < 16 ->
  falling_edge v (set_fClkLast 1 d) (n + 1) (ref_sample 0 f lad) = Some (d1, o1) ->
  main_loop v d (clock_nibbles n ((f, lad) :: l))
  = '(d2, o2) ← main_loop v (set_fClkLast 0 d1) (clock_nibbles (n + 2) l);
    Some (d2, o1 ++ o2).
Proof.
  intros Hp Hf Hlad Hedge.
  destruct (ref_sample_levels d 1 f lad Hp) as (Hhi & _); [lia|done|done|].
  destruct (ref_sample_levels d 0 f lad Hp) as (Hlo & _); [lia|done|done|].
  cbn [clock_nibbles]. set (rest := clock_nibbles (n + 2) l).
  change (main_loop v d ((n, ref_sample 1 f lad) :: (n + 1, ref_sample 0 f lad) :: rest))
    with ('(rc, d0, out) ← lpcDecStateSampleProcess v d n (ref_sample 1 f lad);
          if rc =? 0
          then '(d2, out') ← main_loop v d0 ((n + 1, ref_sample 0 f lad) :: rest);
               Some (d2, out ++ out')
          else Some (d0, out)).
  rewrite (lpcDecStateSampleProcess_high v d n _ Hhi).
  cbn [mbind option_bind]. change (0 =? 0) with true. cbv iota.
  change (main_loop v (set_fClkLast 1 d) ((n + 1, ref_sample 0 f lad) :: rest))
    with ('(rc, d0, out) ← lpcDecStateSampleProcess v (set_fClkLast 1 d) (n + 1)
                             (ref_sample 0 f lad);
          if rc =? 0
          then '(d2, out') ← main_loop v d0 rest; Some (d2, out ++ out')
          else Some (d0, out)).
  rewrite lpcDecStateSampleProcess_low; [|by destruct d|by destruct d].
  rewrite Hedge. cbn [mbind option_bind]. change (0 =? 0) with true. cbv iota.
  by destruct (main_loop v (set_fClkLast 0 d1) rest) as [[? ?]|].
Qed.

(** The same when the edge prints nothing. *)
Lemma main_loop_silent_period v d n f lad l d1 :
  pins d = (0, 1, 5, 4, 3, 2) ->
  0 <= f < 2 -> 0 <= lad < 16 ->
  falling_edge v (set_fClkLast 1 d) (n + 1) (ref_sample 0 f lad) = Some (d1, []) ->
  main_loop v d (clock_nibbles n ((f, lad) :: l))
  = main_loop v (set_fClkLast 0 d1) (clock_nibbles (n + 2) l).
Proof.
  intros Hp Hf Hlad Hedge. rewrite (main_loop_period v d n f lad l d1 []) by done.
  by destruct (main_loop v (set_fClkLast 0 d1) (clock_nibbles (n + 2) l)) as [[? ?]|].
Qed.

(** The edge body on a reference sample. *)
Lemma falling_edge_ref_released v d uSeqNo lad s :
  pins d = (0, 1, 5, 4, 3, 2) -> 0 <= lad < 16 ->
  cur_phase d = Some s ->
  falling_edge v d uSeqNo (ref_sample 0 1 lad)
  = match s with
    | LPCDECSTATE_LFRAME_WAIT_ASSERTED => Some (d, [])
    | LPCDECSTATE_START => lpcDecStateStartDecode d lad
    | LPCDECSTATE_ADDR => lpcDecStateAddrDecode v d lad
    | LPCDECSTATE_DATA => lpcDecStateDataDecode v d lad
    | LPCDECSTATE_TAR => lpcDecStateTarDecode v d lad
    | LPCDECSTATE_SYNC => lpcDecStateSyncDecode v d lad
    | _ => Some (d, [OutUnknownState s])
    end.
Proof.
  intros Hp Hlad Hcur.
  destruct (ref_sample_levels d 0 1 lad Hp) as (_ & Hfr & Hx); [lia|lia|done|].
  by rewrite (falling_edge_released v d uSeqNo _ s Hcur Hfr), Hx.
Qed.

Lemma falling_edge_ref_asserted v d uSeqNo lad :
  pins d = (0, 1, 5, 4, 3, 2) -> 0 <= lad < 16 ->
  wf d -> cur_phase d = Some LPCDECSTATE_LFRAME_WAIT_ASSERTED ->
  falling_edge v d uSeqNo (ref_sample 0 0 lad)
  = Some (pushed (lpcDecStateReset (set_uSeqNoCycle uSeqNo (set_bStartLast lad d)))
            LPCDECSTATE_START, []).
Proof.
  intros Hp Hlad Hwf Hcur.
  destruct (ref_sample_levels d 0 0 lad Hp) as (_ & Hfr & Hx); [lia|lia|done|].
  by rewrite (falling_edge_frame_asserted v d uSeqNo _ _ Hwf Hcur Hfr), Hx.
Qed.

(** START of a target cycle with an I/O or memory type: ADDR is entered
    with four or eight nibbles to go. *)
Lemma lpcDecStateStartDecode_classify d bLad :
  0 <= idxState d < 8 ->
  bStartLast d = LPC_DEC_START_TARGET_CYCLE ->
  LPC_DEC_CYC_TYPE_GET bLad = LPC_DEC_CYC_TYPE_IO \/
  LPC_DEC_CYC_TYPE_GET bLad = LPC_DEC_CYC_TYPE_MEM ->
  lpcDecStateStartDecode d bLad
  = Some (set_cAddrCycles
            (if LPC_DEC_CYC_TYPE_GET bLad =? LPC_DEC_CYC_TYPE_IO then 4 else 8)
            (pushed (set_u32Addr 0
                       (set_fWrite (c_int (negb (LPC_DEC_CYC_DIR_IS_READ bLad)))
                          (set_bTyp (LPC_DEC_CYC_TYPE_GET bLad) d)))
               LPCDECSTATE_ADDR), []).
Proof.
  intros Hi Hstart Htyp. unfold lpcDecStateStartDecode. rewrite Hstart.
  change (LPC_DEC_START_TARGET_CYCLE =? LPC_DEC_START_TARGET_CYCLE) with true. cbv iota.
  rewrite lpcDecStateSet_pushed by (by destruct d).
  cbn [mbind option_bind].
  set (t := LPC_DEC_CYC_TYPE_GET bLad) in *.
  assert (bTyp (pushed (set_u32Addr 0
                          (set_fWrite (c_int (negb (LPC_DEC_CYC_DIR_IS_READ bLad)))
                             (set_bTyp t d))) LPCDECSTATE_ADDR) = t) as ->
    by (by destruct d).
  by destruct Htyp as [-> | ->].
Qed.

(** The two edges of a turn-around. *)
Lemma lpcDecStateTarDecode_step v d bLad :
  1 <= cTarCycles d <= 2 ->
  lpcDecStateTarDecode v d bLad
  = if cTarCycles d =? 1
    then lpcDecStateSampleAdvance v (set_cTarCycles 0 d)
    else Some (set_cTarCycles 1 d, []).
Proof.
  intros Hc. unfold lpcDecStateTarDecode.
  assert (cTarCycles d = 1 \/ cTarCycles d = 2) as [E|E] by lia; rewrite E;
    change (u8 (1 - 1)) with 0; change (u8 (2 - 1)) with 1;
    [set (d1 := set_cTarCycles 0 d)|set (d1 := set_cTarCycles 1 d)].
  - by assert (cTarCycles d1 = 0) as -> by (by destruct d).
  - by assert (cTarCycles d1 = 1) as -> by (by destruct d).
Qed.

(** The address phase, sample by sample: the nibbles are assembled most
    significant first and the next phase is entered. *)
Lemma main_loop_addr v l : forall d n acc rest,
  wf d -> pins d = (0, 1, 5, 4, 3, 2) ->
  cur_phase d = Some LPCDECSTATE_ADDR -> idxState d < 8 ->
  (1 <= length l <= 8)%nat ->
  cAddrCycles d = Z.of_nat (length l) ->
  Forall (fun x => 0 <= x < 16) l ->
  0 <= acc < 16 ^ (8 - Z.of_nat (length l)) ->
  u32Addr d = acc * 16 ^ Z.of_nat (length l) ->
  main_loop v d (clock_nibbles n (map (pair 1) l ++ rest))
  = main_loop v
      (set_fClkLast 0
         (if c_true (fWrite d)
          then set_cDataCycles 2
                 (pushed (set_u32Addr (nibbles_value acc l) (set_cAddrCycles 0 d))
                    LPCDECSTATE_DATA)
          else set_cTarCycles 2
                 (pushed (set_u32Addr (nibbles_value acc l) (set_cAddrCycles 0 d))
                    LPCDECSTATE_TAR)))
      (clock_nibbles (n + 2 * Z.of_nat (length l)) rest).
Proof.
  induction l as [|x r IH]; intros d n acc rest Hwf Hp Hcur Hidx Hlen Hc Hall Hacc Haddr.
  { simpl in Hlen. lia. }
  apply Forall_cons in Hall as [Hx Hr].
  cbn [length] in *. rewrite Nat2Z.inj_succ in *.
  set (k := Z.of_nat (length r)) in *.
  assert (0 <= k <= 7) as Hk by lia.
  set (d0 := set_fClkLast 1 d).
  assert (wf d0) as Hwf0 by (by destruct d).
  assert (pins d0 = (0, 1, 5, 4, 3, 2)) as Hp0 by (by destruct d).
  assert (cur_phase d0 = Some LPCDECSTATE_ADDR) as Hcur0 by (rewrite <- Hcur; by destruct d).
  assert (cAddrCycles d0 = Z.succ k) as Hc0 by (rewrite <- Hc; by destruct d).
  assert (u32Addr d0 = acc * 16 ^ Z.succ k) as Ha0 by (rewrite <- Haddr; by destruct d).
  assert (0 <= 16 * acc + x < 16 ^ (8 - k)) as Hacc'.
  { replace (8 - k) with ((8 - (k + 1)) + 1) by lia.
    rewrite Z.pow_add_r, Z.pow_1_r by lia. replace (Z.succ k) with (k + 1) in Hacc by lia. lia. }
  assert (0 <= (16 * acc + x) * 16 ^ k < 2 ^ 32) as Hbound.
  { assert (0 < 16 ^ k) by (apply Z.pow_pos_nonneg; lia).
    assert (16 ^ (8 - k) * 16 ^ k = 2 ^ 32) as <-
      by (rewrite <- Z.pow_add_r by lia; replace (8 - k + k) with 8 by lia; reflexivity).
    split; [apply Z.mul_nonneg_nonneg; lia|].
    apply Z.mul_lt_mono_pos_r; lia. }
  assert (lpcDecStateAddrDecode v d0 x
          = if k =? 0
            then lpcDecStateSampleAdvance v
                   (set_u32Addr ((16 * acc + x) * 16 ^ k) (set_cAddrCycles k d0))
            else Some (set_u32Addr ((16 * acc + x) * 16 ^ k) (set_cAddrCycles k d0), []))
    as Hstep.
  { rewrite lpcDecStateAddrDecode_step by lia. rewrite Hc0, Ha0.
    replace (Z.succ k - 1) with k by lia. replace (Z.succ k) with (k + 1) by lia.
    rewrite lor_shiftl_nibble by lia. unfold u32. by rewrite (Z.mod_small _ _ Hbound). }
  cbn [map app].
  set (d1 := set_u32Addr ((16 * acc + x) * 16 ^ k) (set_cAddrCycles k d0)) in Hstep.
  assert (wf d1) as Hwf1 by (by destruct d).
  assert (cur_phase d1 = Some LPCDECSTATE_ADDR) as Hcur1 by (rewrite <- Hcur; by destruct d).
  assert (idxState d1 = idxState d) as Hidx1 by (by destruct d).
  destruct r as [|y r'].
  - (* the last address nibble: the state machine advances *)
    change k with 0 in *. change (0 =? 0) with true in Hstep. cbv iota in Hstep.
    rewrite (lpcDecStateSampleAdvance_eq v d1 _ Hwf1 Hcur1) in Hstep by lia.
    rewrite <- (falling_edge_ref_released v d0 (n + 1) x _ Hp0 Hx Hcur0) in Hstep.
    rewrite (main_loop_silent_period v d n 1 x _ _ Hp ltac:(lia) Hx Hstep).
    replace (n + 2 * Z.succ 0) with (n + 2) by lia.
    f_equal. unfold d1, d0. cbn [nibbles_value fold_left]. change (16 ^ 0) with 1.
    replace ((16 * acc + x) * 1) with (16 * acc + x) by lia.
    destruct d. cbn [fWrite set_fClkLast set_cAddrCycles set_u32Addr].
    by destruct (c_true _).
  - (* more nibbles to come *)
    assert (k <> 0) as Hk0 by (unfold k; cbn [length]; lia).
    destruct (Z.eqb_spec k 0) as [|_]; [done|].
    rewrite <- (falling_edge_ref_released v d0 (n + 1) x _ Hp0 Hx Hcur0) in Hstep.
    rewrite (main_loop_silent_period v d n 1 x _ _ Hp ltac:(lia) Hx Hstep).
    rewrite (IH (set_fClkLast 0 d1) (n + 2) (16 * acc + x) rest).
    + replace (n + 2 + 2 * k) with (n + 2 * Z.succ k) by lia.
      f_equal. unfold d1, d0. cbn [nibbles_value fold_left].
      destruct d. cbn [fWrite set_fClkLast set_cAddrCycles set_u32Addr].
      by destruct (c_true _).
    + by destruct d.
    + by destruct d.
    + rewrite <- Hcur. by destruct d.
    + rewrite <- Hidx1 in Hidx. by destruct d.
    + cbn [length] in *. lia.
    + by destruct d.
    + done.
    + done.
    + by destruct d.
Qed.

(** A state that such edges leave alone stays as it is for as many clock
    periods as they last. *)
Lemma main_loop_stall v d waits : forall n x rest,
  pins d = (0, 1, 5, 4, 3, 2) ->
  Forall (fun w => 0 <= w < 16 /\
                   forall m, falling_edge v (set_fClkLast 1 d) m (ref_sample 0 1 w)
                             = Some (set_fClkLast 1 d, [])) waits ->
  exists y,
    main_loop v (set_fClkLast x d) (clock_nibbles n (map (pair 1) waits ++ rest))
    = main_loop v (set_fClkLast y d) (clock_nibbles (n + 2 * Z.of_nat (length waits)) rest).
Proof.
  induction waits as [|w r IH]; intros n x rest Hp Hall.
  { exists x. cbn [map app length]. by replace (n + 2 * Z.of_nat 0) with n by lia. }
  apply Forall_cons in Hall as [[Hw Hquiet] Hr].
  cbn [map app].
  rewrite (main_loop_silent_period v _ n 1 w _ (set_fClkLast 1 d));
    [|by rewrite pins_set_fClkLast|lia|done|by rewrite set_fClkLast_twice].
  rewrite set_fClkLast_twice.
  destruct (IH (n + 2) 0 rest Hp Hr) as (y & ->). exists y.
  cbn [length]. by replace (n + 2 + 2 * Z.of_nat (length r))
                  with (n + 2 * Z.of_nat (S (length r))) by lia.
Qed.

(** SYNC holds on every nibble but zero. *)
Lemma sync_wait_holds v d m w :
  pins d = (0, 1, 5, 4, 3, 2) ->
  cur_phase d = Some LPCDECSTATE_SYNC ->
  0 < w < 16 ->
  falling_edge v (set_fClkLast 1 d) m (ref_sample 0 1 w) = Some (set_fClkLast 1 d, []).
Proof.
  intros Hp Hcur Hw.
  rewrite (falling_edge_ref_released v _ m w LPCDECSTATE_SYNC);
    [|by rewrite pins_set_fClkLast|lia|rewrite <- Hcur; by destruct d].
  unfold lpcDecStateSyncDecode. by destruct (Z.eqb_spec w 0); [lia|].
Qed.

(** The edges of a cycle, one lemma per kind. *)
Lemma edge_classify v d m ct :
  pins d = (0, 1, 5, 4, 3, 2) -> 0 <= ct < 16 ->
  cur_phase d = Some LPCDECSTATE_START ->
  0 <= idxState d < 8 ->
  bStartLast d = LPC_DEC_START_TARGET_CYCLE ->
  LPC_DEC_CYC_TYPE_GET ct = LPC_DEC_CYC_TYPE_IO \/
  LPC_DEC_CYC_TYPE_GET ct = LPC_DEC_CYC_TYPE_MEM ->
  falling_edge v d m (ref_sample 0 1 ct)
  = Some (set_cAddrCycles
            (if LPC_DEC_CYC_TYPE_GET ct =? LPC_DEC_CYC_TYPE_IO then 4 else 8)
            (pushed (set_u32Addr 0
                       (set_fWrite (c_int (negb (LPC_DEC_CYC_DIR_IS_READ ct)))
                          (set_bTyp (LPC_DEC_CYC_TYPE_GET ct) d)))
               LPCDECSTATE_ADDR), []).
Proof.
  intros Hp Hct Hcur Hi Hstart Htyp.
  rewrite (falling_edge_ref_released v d m ct _ Hp Hct Hcur).
  by apply lpcDecStateStartDecode_classify.
Qed.

Lemma edge_data_first v d m lo :
  pins d = (0, 1, 5, 4, 3, 2) -> 0 <= lo < 16 ->
  cur_phase d = Some LPCDECSTATE_DATA ->
  cDataCycles d = 2 -> iDataCycle d = 0 -> bData d = 0 ->
  falling_edge v d m (ref_sample 0 1 lo) = Some (set_iDataCycle 1 (set_bData lo d), []).
Proof.
  intros Hp Hlo Hcur Hcd Hid Hb.
  rewrite (falling_edge_ref_released v d m lo _ Hp Hlo Hcur).
  rewrite lpcDecStateDataDecode_step by (try done; left; done).
  rewrite Hid, Hb. change (0 + 1 =? 2) with false. cbv iota.
  change (0 * 4) with 0. by rewrite Z.lor_0_l, Z.shiftl_0_r.
Qed.

Lemma edge_data_second v d m hi :
  pins d = (0, 1, 5, 4, 3, 2) -> 0 <= hi < 16 ->
  wf d -> idxState d < 8 ->
  cur_phase d = Some LPCDECSTATE_DATA ->
  cDataCycles d = 2 -> iDataCycle d = 1 -> 0 <= bData d < 16 ->
  falling_edge v d m (ref_sample 0 1 hi)
  = Some (set_cTarCycles 2
            (pushed (set_iDataCycle 2 (set_bData (bData d + 16 * hi) d)) LPCDECSTATE_TAR),
          []).
Proof.
  intros Hp Hhi Hwf Hi Hcur Hcd Hid Hb.
  rewrite (falling_edge_ref_released v d m hi _ Hp Hhi Hcur).
  rewrite lpcDecStateDataDecode_step by (try done; right; done).
  rewrite Hid. change (1 + 1 =? 2) with true. cbv iota.
  change (1 * 4) with 4. change (1 + 1) with 2. rewrite lor_nibbles by done.
  set (d2 := set_iDataCycle 2 _).
  assert (wf d2) as Hwf2 by (by destruct d).
  assert (cur_phase d2 = Some LPCDECSTATE_DATA) as Hcur2 by (rewrite <- Hcur; by destruct d).
  assert (idxState d2 < 8) as Hi2 by (by destruct d).
  by rewrite (lpcDecStateSampleAdvance_eq v d2 _ Hwf2 Hcur2 Hi2).
Qed.

Lemma edge_tar_first v d m t :
  pins d = (0, 1, 5, 4, 3, 2) -> 0 <= t < 16 ->
  cur_phase d = Some LPCDECSTATE_TAR ->
  cTarCycles d = 2 ->
  falling_edge v d m (ref_sample 0 1 t) = Some (set_cTarCycles 1 d, []).
Proof.
  intros Hp Ht Hcur Hc.
  rewrite (falling_edge_ref_released v d m t _ Hp Ht Hcur).
  rewrite lpcDecStateTarDecode_step by lia. by rewrite Hc.
Qed.

(** The second edge of a turn-around, whose outcome depends on the phase
    before it: on to SYNC, or the end of the cycle. *)
Lemma edge_tar_second v d m t prev :
  pins d = (0, 1, 5, 4, 3, 2) -> 0 <= t < 16 ->
  wf d -> idxState d < 8 ->
  cur_phase d = Some LPCDECSTATE_TAR ->
  cTarCycles d = 1 ->
  prev_phase d = Some prev ->
  falling_edge v d m (ref_sample 0 1 t)
  = if bool_decide (prev = if c_true (fWrite d) then LPCDECSTATE_DATA else LPCDECSTATE_ADDR)
    then Some (pushed (set_cTarCycles 0 d) LPCDECSTATE_SYNC, [])
    else Some (lpcDecStateReset (set_cTarCycles 0 d),
               snd (pszTyp_of (bTyp d)) ++ [OutCycle (dump_line v (set_cTarCycles 0 d) 0)]).
Proof.
  intros Hp Ht Hwf Hi Hcur Hc Hprev.
  rewrite (falling_edge_ref_released v d m t _ Hp Ht Hcur).
  rewrite lpcDecStateTarDecode_step by lia. rewrite Hc.
  change (1 =? 1) with true. cbv iota.
  set (d1 := set_cTarCycles 0 d).
  assert (wf d1) as Hwf1 by (by destruct d).
  assert (cur_phase d1 = Some LPCDECSTATE_TAR) as Hcur1 by (rewrite <- Hcur; by destruct d).
  assert (idxState d1 < 8) as Hi1 by (by destruct d).
  assert (prev_phase d1 = Some prev) as Hprev1 by (rewrite <- Hprev; by destruct d).
  rewrite (lpcDecStateSampleAdvance_eq v d1 _ Hwf1 Hcur1 Hi1), Hprev1.
  cbn [mbind option_bind].
  assert (fWrite d1 = fWrite d) as -> by (by destruct d).
  by assert (bTyp d1 = bTyp d) as -> by (by destruct d).
Qed.

Lemma edge_sync_ready v d m :
  pins d = (0, 1, 5, 4, 3, 2) ->
  wf d -> idxState d < 8 ->
  cur_phase d = Some LPCDECSTATE_SYNC ->
  falling_edge v d m (ref_sample 0 1 0)
  = Some (if c_true (fWrite d)
          then set_cTarCycles 2 (pushed d LPCDECSTATE_TAR)
          else set_cDataCycles 2 (pushed d LPCDECSTATE_DATA), []).
Proof.
  intros Hp Hwf Hi Hcur.
  rewrite (falling_edge_ref_released v d m 0 _ Hp ltac:(lia) Hcur).
  unfold lpcDecStateSyncDecode. change (0 =? 0) with true. cbv iota.
  by rewrite (lpcDecStateSampleAdvance_eq v d _ Hwf Hcur Hi).
Qed.

Lemma edge_tar_to_sync v d m t :
  pins d = (0, 1, 5, 4, 3, 2) -> 0 <= t < 16 ->
  wf d -> idxState d < 8 ->
  cur_phase d = Some LPCDECSTATE_TAR ->
  cTarCycles d = 1 ->
  prev_phase d = Some (if c_true (fWrite d) then LPCDECSTATE_DATA else LPCDECSTATE_ADDR) ->
  falling_edge v d m (ref_sample 0 1 t)
  = Some (pushed (set_cTarCycles 0 d) LPCDECSTATE_SYNC, []).
Proof.
  intros Hp Ht Hwf Hi Hcur Hc Hprev.
  rewrite (edge_tar_second v d m t _ Hp Ht Hwf Hi Hcur Hc Hprev).
  by rewrite bool_decide_eq_true_2.
Qed.

Lemma edge_tar_final v d m t prev :
  pins d = (0, 1, 5, 4, 3, 2) -> 0 <= t < 16 ->
  wf d -> idxState d < 8 ->
  cur_phase d = Some LPCDECSTATE_TAR ->
  cTarCycles d = 1 ->
  prev_phase d = Some prev ->
  prev <> (if c_true (fWrite d) then LPCDECSTATE_DATA else LPCDECSTATE_ADDR) ->
  falling_edge v d m (ref_sample 0 1 t)
  = Some (lpcDecStateReset (set_cTarCycles 0 d),
          snd (pszTyp_of (bTyp d)) ++ [OutCycle (dump_line v (set_cTarCycles 0 d) 0)]).
Proof.
  intros Hp Ht Hwf Hi Hcur Hc Hprev Hne.
  rewrite (edge_tar_second v d m t _ Hp Ht Hwf Hi Hcur Hc Hprev).
  by rewrite bool_decide_eq_false_2.
Qed.

Ltac side :=
  first [ reflexivity | lia | eassumption
        | unfold LPC_DEC_START_TARGET_CYCLE; lia
        | vm_compute; intuition congruence ].

(** Brings the decoder state in the goal to an explicit record. *)
Ltac norm_state :=
  repeat match goal with
  | |- context [c_true (fWrite ?S)] =>
      let r := eval vm_compute in (c_true (fWrite S)) in
      replace (c_true (fWrite S)) with r by reflexivity
  end;
  cbv iota; reduce_state;
  repeat match goal with
  | |- context [<[?i:=?s]> ?l] =>
      let r := eval vm_compute in (<[i:=s]> l) in
      change (<[i:=s]> l) with r
  end.

Ltac silent_period lem :=
  etransitivity;
  [ eapply main_loop_silent_period; [ side | side | side | eapply lem; try side ] | ];
  norm_state.

Ltac last_period lem :=
  etransitivity;
  [ eapply main_loop_period; [ side | side | side | eapply lem; try side ] | ];
  norm_state.

(** The address phase of the cycle in the goal. *)
Ltac addr_phase a Hl Ha :=
  rewrite (main_loop_addr _ a _ _ 0);
  [ norm_state
  | reflexivity | reflexivity | reflexivity | cbn [idxState]; lia
  | rewrite Hl; lia
  | cbn [cAddrCycles]; rewrite Hl; reflexivity
  | exact Ha
  | rewrite Hl; vm_compute; intuition congruence
  | reflexivity ].

(** The wait states of the SYNC phase of the cycle in the goal. *)
Ltac sync_waits waits Hwaits :=
  match goal with
  | |- main_loop ?v ?D (clock_nibbles ?m (map (pair 1) waits ++ ?rest)) = _ =>
      let y := fresh "y" in let Hy := fresh "Hy" in
      destruct (main_loop_stall v D waits m 0 rest) as (y & Hy);
      [ reflexivity
      | eapply Forall_impl; [exact Hwaits|];
        let w := fresh "w" in let Hw := fresh "Hw" in
        intros w Hw; cbv beta in Hw |- *; split; [lia|]; intros ?; apply sync_wait_holds;
        [reflexivity|reflexivity|exact Hw]
      | etransitivity; [exact Hy|]; clear Hy; norm_state ]
  end.

(** A target cycle on the bus is decoded to its line.  An idle decoder on
    the reference wiring is fed one clock period per nibble of a memory or
    I/O cycle, read or write, with any number of SYNC wait states: it prints
    exactly one line, not marked aborted, with the sequence number of the
    sample on which LFRAME# was seen asserted, the type and direction of the
    cycle, the address spelled by the address nibbles and the data byte of
    the two data nibbles, and it is idle again afterwards. *)
Theorem target_cycle_decoded
    (v : Z) (d : LPCDEC) (n ct : Z) (a waits : list Z) (lo hi t1 t2 t3 t4 : Z) :
  wf d ->
  pins d = (0, 1, 5, 4, 3, 2) ->
  cur_phase d = Some LPCDECSTATE_LFRAME_WAIT_ASSERTED ->
  0 <= ct < 16 ->
  LPC_DEC_CYC_TYPE_GET ct = LPC_DEC_CYC_TYPE_IO /\ length a = 4%nat \/
  LPC_DEC_CYC_TYPE_GET ct = LPC_DEC_CYC_TYPE_MEM /\ length a = 8%nat ->
  Forall (fun x => 0 <= x < 16) (a ++ [lo; hi; t1; t2; t3; t4]) ->
  Forall (fun w => 0 < w < 16) waits ->
  exists d',
    main_loop v d (clock_nibbles n (target_cycle ct a waits lo hi t1 t2 t3 t4))
    = Some (d', [OutCycle (cycle_line v (n + 1) ct a lo hi)]) /\
    idle_and_zeroed d' /\ wf d' /\ pins d' = (0, 1, 5, 4, 3, 2).
Proof.
  intros Hwf Hp Hcur Hct Htyp Hall Hwaits.
  apply Forall_app in Hall as [Ha Hrest].
  assert (0 <= lo < 16 /\ 0 <= hi < 16 /\ 0 <= t1 < 16 /\ 0 <= t2 < 16 /\
          0 <= t3 < 16 /\ 0 <= t4 < 16) as (Hlo & Hhi & Ht1 & Ht2 & Ht3 & Ht4).
  { repeat (apply Forall_cons in Hrest as [? Hrest]). tauto. }
  clear Hrest.
  destruct (wf_slots d Hwf) as (a0 & a1 & a2 & a3 & a4 & a5 & a6 & a7 & a8 & E).
  destruct d as [clk frm l0 l1 l2 l3 idx arr seq last start typ wr ca cd id ct' addr data].
  cbn [aenmState] in E. subst arr. unfold pins in Hp. cbn in Hp.
  injection Hp as -> -> -> -> -> ->.
  unfold target_cycle, cycle_line.
  assert (exists T, LPC_DEC_CYC_TYPE_GET ct = T /\ (T = 0 \/ T = 1) /\
                    length a = (if T =? 0 then 4%nat else 8%nat)) as (T & HT & HT01 & Hl).
  { destruct Htyp as [[-> ->]|[-> ->]]; eexists; (split; [reflexivity|]);
      split; try reflexivity; [by left|by right]. }
  clear Htyp.
  destruct (LPC_DEC_CYC_DIR_IS_READ ct) eqn:Hdir;
    destruct HT01 as [-> | ->];
    change (0 =? 0) with true in Hl; change (1 =? 0) with false in Hl; cbv iota in Hl.
  all: eexists; split.
  1,3: silent_period falling_edge_ref_asserted;
       silent_period edge_classify;
       rewrite HT, Hdir; norm_state;
       addr_phase a Hl Ha; cbn [app];
       silent_period edge_tar_first;
       silent_period edge_tar_to_sync;
       sync_waits waits Hwaits;
       silent_period edge_sync_ready;
       silent_period edge_data_first;
       silent_period edge_data_second;
       silent_period edge_tar_first;
       last_period edge_tar_final;
       cbn [clock_nibbles main_loop mbind option_bind];
       unfold dump_line; destruct (c_true v); reflexivity.
  3,5: silent_period falling_edge_ref_asserted;
       silent_period edge_classify;
       rewrite HT, Hdir; norm_state;
       addr_phase a Hl Ha; cbn [app];
       silent_period edge_data_first;
       silent_period edge_data_second;
       silent_period edge_tar_first;
       silent_period edge_tar_to_sync;
       sync_waits waits Hwaits;
       silent_period edge_sync_ready;
       silent_period edge_tar_first;
       last_period edge_tar_final;
       cbn [clock_nibbles main_loop mbind option_bind];
       unfold dump_line; destruct (c_true v); reflexivity.
  all: unfold idle_and_zeroed; repeat split; reflexivity.
Qed.

Lemma target_cycle_decoded_witness :
  exists d',
    main_loop 1 ex_idle
      (clock_nibbles 100 (target_cycle 6 [1; 2; 3; 4; 0; 0; 0; 0] [5; 6] 11 10 15 15 15 15))
    = Some (d', [OutCycle (cycle_line 1 (100 + 1) 6 [1; 2; 3; 4; 0; 0; 0; 0] 11 10)]) /\
    idle_and_zeroed d' /\ wf d' /\ pins d' = (0, 1, 5, 4, 3, 2).
Proof.
  apply target_cycle_decoded;
    [reflexivity | reflexivity | reflexivity | lia | right; split; reflexivity
    | repeat constructor; lia | repeat constructor; lia].
Defined.

(** ** The file reader *)

Section ReaderProperties.

Variable SIZE_BITS : Z.
Variable host_u64 : list Z -> Z.
Variable v : Z.

(** [size_t] is at least as wide as the [uint32_t] of [offBuf]. *)
Hypothesis Hbits : 32 <= SIZE_BITS.

Lemma size_max_large : 2 ^ 17 <= 2 ^ SIZE_BITS.
Proof. apply Z.pow_le_mono_r; lia. Qed.

Lemma size_t_small x : 0 <= x < 2 ^ 17 -> size_t SIZE_BITS x = x.
Proof.
  intros Hx. pose proof size_max_large. unfold size_t. apply Z.mod_small. lia.
Qed.

Lemma size_t_wrapped x :
  - 2 ^ 17 <= x < 0 -> size_t SIZE_BITS x = 2 ^ SIZE_BITS + x.
Proof.
  intros Hx. pose proof size_max_large as Hm. unfold size_t.
  symmetry. apply (Z.mod_unique_pos _ _ (-1)); lia.
Qed.

Lemma buf_load_Some buf off cb :
  0 <= off -> 0 <= cb -> off + cb <= Z.of_nat (length buf) ->
  buf_load buf off cb = Some (take (Z.to_nat cb) (drop (Z.to_nat off) buf)).
Proof.
  intros H1 H2 H3. unfold buf_load.
  replace (0 <=? off) with true by (symmetry; apply Z.leb_le; lia).
  replace (0 <=? cb) with true by (symmetry; apply Z.leb_le; lia).
  by replace (off + cb <=? Z.of_nat (length buf)) with true by (symmetry; apply Z.leb_le; lia).
Qed.

Lemma buf_store_Some buf off bytes :
  0 <= off -> off + Z.of_nat (length bytes) <= Z.of_nat (length buf) ->
  buf_store buf off bytes
  = Some (take (Z.to_nat off) buf ++ bytes ++ drop (Z.to_nat off + length bytes) buf).
Proof.
  intros H1 H2. unfold buf_store.
  replace (0 <=? off) with true by (symmetry; apply Z.leb_le; lia).
  by replace (off + Z.of_nat (length bytes) <=? Z.of_nat (length buf)) with true
    by (symmetry; apply Z.leb_le; lia).
Qed.

Lemma stored_length (buf : list Z) (n : nat) (bytes : list Z) :
  (n + length bytes <= length buf)%nat ->
  length (take n buf ++ bytes ++ drop (n + length bytes) buf) = length buf.
Proof.
  intros H. rewrite !length_app, length_take, length_drop. lia.
Qed.

(** What is left of the stream after its first [k] bytes were taken from
    the buffer. *)
Lemma Reading_consume r pre stream :
  Reading r (pre ++ stream) ->
  offBuf r + Z.of_nat (length pre) <= cbData r ->
  buf_load (abBuf r) (offBuf r) (Z.of_nat (length pre)) = Some pre /\
  Reading (mkLPCDECFILEBUFREAD (pFile r) (cbData r) (offBuf r + Z.of_nat (length pre))
             (fError r) (fEos r) (abBuf r)) stream.
Proof.
  intros (He & Hs & Hlen & Hoff & Hcb & Hstream) Hk.
  unfold ABBUF_SIZE in *.
  set (k := length pre) in *.
  set (D := drop (Z.to_nat (offBuf r)) (abBuf r)) in *.
  assert (Z.to_nat (cbData r - offBuf r) = (k + Z.to_nat (cbData r - (offBuf r + Z.of_nat k)))%nat)
    as Hsplit by lia.
  rewrite Hsplit, <- take_take_drop, <- app_assoc in Hstream.
  apply app_inj_1 in Hstream as [Hpre Hrest].
  2:{ unfold D. rewrite length_take, length_drop. lia. }
  split.
  - rewrite buf_load_Some by lia. rewrite Nat2Z.id. by rewrite Hpre.
  - repeat split; cbn [fError fEos abBuf offBuf cbData pFile]; try done; try lia.
    rewrite Hrest. unfold D. rewrite drop_drop.
    by replace (Z.to_nat (offBuf r) + k)%nat with (Z.to_nat (offBuf r + Z.of_nat k)) by lia.
Qed.

(** [lpcDecFileBufReaderEnsureData] while the stream still holds what is
    asked for: the bytes are in the buffer afterwards. *)
Lemma lpcDecFileBufReaderEnsureData_ok r stream cb :
  Reading r stream ->
  1 <= cb <= 8 -> cb <= Z.of_nat (length stream) ->
  exists r',
    lpcDecFileBufReaderEnsureData SIZE_BITS r cb = Some (0, r') /\
    Reading r' stream /\ offBuf r' + cb <= cbData r'.
Proof.
  intros HR Hcb Hlen. pose proof HR as (He & Hs & Hbuf & Hoff & Hcd & Hstream).
  unfold ABBUF_SIZE in *. unfold lpcDecFileBufReaderEnsureData.
  rewrite size_t_small by (change (2 ^ 17) with 131072; lia).
  destruct (Z.leb_spec (offBuf r + cb) (cbData r)) as [Hfit|Hrefill].
  { exists r. split; [done|]. split; [done|lia]. }
  set (rem := cbData r - offBuf r) in *.
  rewrite size_t_small by (change (2 ^ 17) with 131072; lia).
  set (bytes := take (Z.to_nat rem) (drop (Z.to_nat (offBuf r)) (abBuf r))) in *.
  assert (length bytes = Z.to_nat rem) as Hbytes
    by (unfold bytes; rewrite length_take, length_drop; lia).
  unfold memmove_front. rewrite buf_load_Some by lia. fold bytes.
  cbn [mbind option_bind]. rewrite buf_store_Some by lia.
  cbn [mbind option_bind]. change (Z.to_nat 0) with 0%nat. rewrite take_0. cbn [app Nat.add].
  set (buf1 := bytes ++ drop (length bytes) (abBuf r)).
  assert (length buf1 = length (abBuf r)) as Hbuf1
    by (unfold buf1; rewrite length_app, length_drop; lia).
  rewrite size_t_small by (unfold ABBUF_SIZE; change (2 ^ 17) with 131072; lia).
  unfold fread. set (count := ABBUF_SIZE - rem).
  set (read := take (Z.to_nat count) (pFile r)).
  assert (length read = Nat.min (Z.to_nat count) (length (pFile r))) as Hread
    by (unfold read; by rewrite length_take).
  assert (Z.of_nat (length stream) = rem + Z.of_nat (length (pFile r))) as Hslen
    by (rewrite Hstream, length_app; fold bytes; lia).
  assert (count = 65536 - rem) as Hcount by reflexivity.
  assert (0 <= rem < cb) as Hrem by (unfold rem; lia).
  clearbody count rem.
  rewrite buf_store_Some by lia.
  cbn [mbind option_bind].
  rewrite size_t_small by (change (2 ^ 17) with 131072; lia).
  assert (c_true (Z.of_nat (length read)) = true) as ->.
  { unfold c_true. destruct (Z.eqb_spec (Z.of_nat (length read)) 0); [lia|done]. }
  eexists. split; [reflexivity|].
  split; [|cbn [offBuf cbData]; lia].
  repeat split; cbn [fError fEos abBuf offBuf cbData pFile]; unfold ABBUF_SIZE;
    try done; try lia.
  - rewrite stored_length by lia. lia.
  - change (Z.to_nat 0) with 0%nat. rewrite drop_0.
    replace (Z.to_nat (Z.of_nat (length read) + rem - 0))
      with (length (take (Z.to_nat rem) buf1 ++ read)) by (rewrite length_app, length_take; lia).
    rewrite (app_assoc (take _ buf1)), take_app_length.
    assert (take (Z.to_nat rem) buf1 = bytes) as ->
      by (unfold buf1; rewrite <- Hbytes; apply take_app_length).
    rewrite <- app_assoc. unfold read. by rewrite take_drop.
Qed.

(** [lpcDecFileBufReaderGetU64] and [lpcDecFileBufReaderGetU8] while the
    stream still holds what they read. *)
Lemma lpcDecFileBufReaderGetU64_ok r b8 stream :
  Reading r (b8 ++ stream) -> length b8 = 8%nat ->
  exists r1,
    lpcDecFileBufReaderGetU64 SIZE_BITS host_u64 r = Some (host_u64 b8, r1) /\
    Reading r1 stream.
Proof.
  intros HR Hb8.
  destruct (lpcDecFileBufReaderEnsureData_ok r _ 8 HR) as (r' & Hens & HR' & Hfit);
    [lia|rewrite length_app; lia|].
  destruct (Reading_consume r' b8 _ HR') as (Hload & HR1); [lia|].
  rewrite Hb8 in Hload, HR1. change (Z.of_nat 8) with 8 in Hload, HR1.
  pose proof HR' as (He & _ & _ & Hoff & Hcd & _). unfold ABBUF_SIZE in *.
  eexists. split; [|exact HR1].
  unfold lpcDecFileBufReaderGetU64, lpcDecFileBufReaderHasError.
  destruct HR as (-> & _). change (c_true 0) with false. cbv iota.
  rewrite Hens. cbn [mbind option_bind]. change (c_true 0) with false. cbv iota.
  rewrite Hload. cbn [mbind option_bind]. unfold u32.
  by rewrite Z.mod_small by lia.
Qed.

Lemma lpcDecFileBufReaderGetU8_ok r b stream :
  Reading r (b :: stream) ->
  exists r1,
    lpcDecFileBufReaderGetU8 SIZE_BITS r = Some (b, r1) /\ Reading r1 stream.
Proof.
  intros HR. change (b :: stream) with ([b] ++ stream) in HR.
  destruct (lpcDecFileBufReaderEnsureData_ok r _ 1 HR) as (r' & Hens & HR' & Hfit);
    [lia|rewrite length_app; cbn [length]; lia|].
  destruct (Reading_consume r' [b] _ HR') as (Hload & HR1); [cbn [length]; lia|].
  cbn [length] in Hload, HR1. change (Z.of_nat 1) with 1 in Hload, HR1.
  pose proof HR' as (He & _ & _ & Hoff & Hcd & _). unfold ABBUF_SIZE in *.
  eexists. split; [|exact HR1].
  unfold lpcDecFileBufReaderGetU8, lpcDecFileBufReaderHasError.
  destruct HR as (-> & _). change (c_true 0) with false. cbv iota.
  rewrite Hens. cbn [mbind option_bind]. change (c_true 0) with false. cbv iota.
  rewrite Hload. cbn [mbind option_bind head]. unfold u32.
  by rewrite Z.mod_small by lia.
Qed.

(** The reader delivers the records of the stream in order: the next
    eight bytes as the sequence number, in the byte order of the host, then
    the sample byte; no flag is set on the way, whether or not the buffer
    had to be refilled. *)
Theorem reader_delivers_record (r : LPCDECFILEBUFREAD) (rec : list Z * Z) (stream : list Z) :
  Reading r (record_bytes rec ++ stream) ->
  length rec.1 = 8%nat ->
  exists r1 r2,
    lpcDecFileBufReaderGetU64 SIZE_BITS host_u64 r = Some (host_u64 rec.1, r1) /\
    lpcDecFileBufReaderGetU8 SIZE_BITS r1 = Some (rec.2, r2) /\
    Reading r2 stream /\
    lpcDecFileBufReaderHasEos r2 = 0 /\ lpcDecFileBufReaderHasError r2 = 0.
Proof.
  destruct rec as [b8 bv]. unfold record_bytes. cbn [fst snd]. intros HR Hb8.
  rewrite <- !app_assoc in HR.
  destruct (lpcDecFileBufReaderGetU64_ok r b8 _ HR Hb8) as (r1 & HU64 & HR1).
  destruct (lpcDecFileBufReaderGetU8_ok r1 bv _ HR1) as (r2 & HU8 & HR2).
  exists r1, r2. split; [exact HU64|]. split; [exact HU8|]. split; [exact HR2|].
  by destruct HR2 as (He & Hs & _).
Qed.

Lemma lpcDecFileBufReaderCreate_eq (file : list Z) (errno' : Z) :
  lpcDecFileBufReaderCreate (Some file) errno'
  = (if decide (file = [])
     then Some (-1, None)
     else Some (0, Some (mkLPCDECFILEBUFREAD
                           (drop (Z.to_nat ABBUF_SIZE) file)
                           (Z.min ABBUF_SIZE (Z.of_nat (length file))) 0 0 0
                           (take (Z.to_nat ABBUF_SIZE) file
                            ++ replicate (Z.to_nat ABBUF_SIZE - length file) 0)))).
Proof.
  unfold lpcDecFileBufReaderCreate, fread.
  set (size := Z.to_nat ABBUF_SIZE).
  assert (Z.of_nat size = ABBUF_SIZE) as Hsize by (apply Z2Nat.id; by unfold ABBUF_SIZE).
  assert (0 < ABBUF_SIZE) as Hpos by (unfold ABBUF_SIZE; lia).
  clearbody size.
  set (read := take size file).
  assert (length read = Nat.min size (length file)) as Hread
    by (unfold read; by rewrite length_take).
  rewrite buf_store_Some by (rewrite ?length_replicate; lia).
  cbn [mbind option_bind]. change (Z.to_nat 0) with 0%nat.
  rewrite take_0, app_nil_l, Nat.add_0_l, drop_replicate.
  destruct (decide (file = [])) as [->|Hne].
  - unfold read. by rewrite take_nil.
  - assert (length file <> 0%nat) as Hlen by (by destruct file).
    unfold c_true. destruct (Z.eqb_spec (Z.of_nat (length read)) 0) as [E|_]; [lia|].
    cbn [negb]. do 4 f_equal.
    + lia.
    + f_equal. f_equal. lia.
Qed.

Lemma lpcDecFileBufReaderCreate_Reading (file : list Z) (errno' : Z) rc r :
  lpcDecFileBufReaderCreate (Some file) errno' = Some (rc, Some r) ->
  rc = 0 /\ Reading r file.
Proof.
  intros Hr. rewrite lpcDecFileBufReaderCreate_eq in Hr.
  destruct (decide (file = [])) as [->|Hne]; [discriminate|].
  injection Hr as <- <-. split; [done|].
  assert (length file <> 0%nat) as Hlen by (by destruct file).
  unfold Reading. cbn [fError fEos abBuf offBuf cbData pFile].
  set (size := Z.to_nat ABBUF_SIZE).
  assert (Z.of_nat size = ABBUF_SIZE) as Hsize by (apply Z2Nat.id; by unfold ABBUF_SIZE).
  assert (0 < ABBUF_SIZE) as Hpos by (unfold ABBUF_SIZE; lia).
  clearbody size.
  split; [reflexivity|]. split; [reflexivity|].
  split; [rewrite length_app, length_take, length_replicate; lia|].
  split; [lia|]. split; [lia|].
  change (Z.to_nat 0) with 0%nat. rewrite drop_0.
  rewrite take_app_le by (rewrite length_take; lia).
  rewrite take_take.
  replace (Nat.min (Z.to_nat (Z.min ABBUF_SIZE (Z.of_nat (length file)) - 0)) size)
    with (Nat.min size (length file)) by lia.
  destruct (Nat.le_gt_cases (length file) size) as [Hle|Hgt].
  - rewrite Nat.min_r by done. rewrite take_ge by lia.
    rewrite drop_ge by lia. by rewrite app_nil_r.
  - rewrite Nat.min_l by lia. by rewrite take_drop.
Qed.

(** [lpcDecFileBufReaderCreate] on a file that exists: an empty file is
    refused with status -1 and no reader; any other file gives status 0 and
    a reader in step with the file, with the first 64 KiB of the file (or
    all of it) buffered and nothing consumed. *)
Theorem lpcDecFileBufReaderCreate_result (file : list Z) (errno' : Z) :
  exists rc pBufFile,
    lpcDecFileBufReaderCreate (Some file) errno' = Some (rc, pBufFile) /\
    match pBufFile with
    | None => file = [] /\ rc = -1
    | Some r =>
        file <> [] /\ rc = 0 /\ Reading r file /\ offBuf r = 0 /\
        cbData r = Z.min ABBUF_SIZE (Z.of_nat (length file)) /\
        take (Z.to_nat (cbData r)) (abBuf r) = take (Z.to_nat ABBUF_SIZE) file
    end.
Proof.
  pose proof (lpcDecFileBufReaderCreate_eq file errno') as Heq.
  destruct (decide (file = [])) as [->|Hne].
  - by exists (-1), None.
  - eexists 0, (Some _). split; [exact Heq|].
    destruct (lpcDecFileBufReaderCreate_Reading file errno' _ _ Heq) as (_ & HR).
    split; [done|]. split; [done|]. split; [exact HR|]. split; [done|]. split; [done|].
    cbn [cbData abBuf].
    set (size := Z.to_nat ABBUF_SIZE).
    assert (Z.of_nat size = ABBUF_SIZE) as Hsize by (apply Z2Nat.id; by unfold ABBUF_SIZE).
    clearbody size.
    replace (Z.to_nat (Z.min ABBUF_SIZE (Z.of_nat (length file))))
      with (length (take size file)) by (rewrite length_take; lia).
    apply take_app_length.
Qed.

(** When fewer than eight bytes are left, the next pass through the loop
    of [main] ends in [memmove]: [lpcDecFileBufReaderGetU64] leaves the read
    offset at 8 with fewer than 8 bytes counted as buffered, and the
    following [lpcDecFileBufReaderGetU8] moves "the remaining"
    [cbData - offBuf] bytes, a count that wrapped around. *)
Lemma main_while_short_tail r tail d fuel :
  Reading r tail -> (length tail < 8)%nat ->
  main_while SIZE_BITS host_u64 v (S fuel) r d 0 = MainFault [].
Proof.
  intros HR Htail. pose proof HR as (He & Hs & Hbuf & Hoff & Hcd & Hstream).
  unfold ABBUF_SIZE in *.
  set (rem := cbData r - offBuf r) in *.
  set (bytes := take (Z.to_nat rem) (drop (Z.to_nat (offBuf r)) (abBuf r))) in *.
  assert (length bytes = Z.to_nat rem) as Hbytes
    by (unfold bytes, rem; rewrite length_take, length_drop; lia).
  assert (Z.of_nat (length tail) = rem + Z.of_nat (length (pFile r))) as Htlen
    by (rewrite Hstream, length_app; unfold rem in *; lia).
  assert (0 <= rem < 8) as Hrem by (unfold rem in *; lia).
  cbn [main_while]. unfold lpcDecFileBufReaderHasEos. rewrite Hs.
  change (negb (c_true 0) && negb (c_true 0)) with true. cbv iota.
  (* the eight bytes of the sequence number are not there: refill *)
  assert (exists eos buf,
            length buf = Z.to_nat (64 * 1024) /\
            lpcDecFileBufReaderEnsureData SIZE_BITS r 8
            = Some (0, mkLPCDECFILEBUFREAD [] (Z.of_nat (length tail)) 0 0 eos buf))
    as (eos & buf & Hlen & Hens).
  { unfold lpcDecFileBufReaderEnsureData.
    rewrite size_t_small by (change (2 ^ 17) with 131072; lia).
    destruct (Z.leb_spec (offBuf r + 8) (cbData r)) as [Hfit|_]; [unfold rem in *; lia|].
    fold rem. rewrite size_t_small by (change (2 ^ 17) with 131072; lia).
    unfold memmove_front. rewrite buf_load_Some by (unfold rem in *; lia). fold bytes.
    cbn [mbind option_bind]. rewrite buf_store_Some by lia.
    cbn [mbind option_bind]. change (Z.to_nat 0) with 0%nat.
    rewrite take_0, app_nil_l, Nat.add_0_l.
    rewrite size_t_small by (unfold ABBUF_SIZE; change (2 ^ 17) with 131072; lia).
    unfold fread, ABBUF_SIZE.
    rewrite take_ge by lia. rewrite drop_ge by lia.
    rewrite buf_store_Some by (rewrite ?length_app, ?length_drop; lia).
    cbn [mbind option_bind]. rewrite size_t_small by (change (2 ^ 17) with 131072; lia).
    rewrite He. eexists _, _. split; [|do 4 f_equal; lia].
    rewrite stored_length by (rewrite length_app, length_drop; lia).
    rewrite length_app, length_drop. lia. }
  unfold lpcDecFileBufReaderGetU64, lpcDecFileBufReaderHasError.
  rewrite He. change (c_true 0) with false. cbv iota.
  rewrite Hens. cbn [mbind option_bind]. change (c_true 0) with false. cbv iota.
  cbn [abBuf offBuf cbData pFile fError fEos].
  rewrite buf_load_Some by lia. cbn [mbind option_bind].
  change (u32 (0 + 8)) with 8.
  (* the sample byte: the count of bytes to move wraps around *)
  unfold lpcDecFileBufReaderGetU8, lpcDecFileBufReaderHasError.
  cbn [fError]. change (c_true 0) with false. cbv iota.
  unfold lpcDecFileBufReaderEnsureData. cbn [abBuf offBuf cbData pFile fError fEos].
  rewrite size_t_small by (change (2 ^ 17) with 131072; lia).
  destruct (Z.leb_spec (8 + 1) (Z.of_nat (length tail))) as [Hfit|_]; [lia|].
  rewrite size_t_wrapped by (change (2 ^ 17) with 131072; lia).
  unfold memmove_front, buf_load.
  pose proof size_max_large as Hmax. change (2 ^ 17) with 131072 in Hmax.
  replace (8 + (2 ^ SIZE_BITS + (Z.of_nat (length tail) - 8)) <=? Z.of_nat (length buf))
    with false by (symmetry; apply Z.leb_gt; lia).
  by rewrite andb_false_r.
Qed.

(** The loop of [main] over the records of a capture: every record goes
    through the decoder, and the loop goes on with what follows them. *)
Lemma main_while_records tail recs :
  forall r d d' out,
    Reading r (capture_bytes recs ++ tail) ->
    Forall (fun rec => length rec.1 = 8%nat) recs ->
    main_loop v d (map (record_sample host_u64) recs) = Some (d', out) ->
    exists r',
      Reading r' tail /\
      forall fuel,
        main_while SIZE_BITS host_u64 v (length recs + fuel) r d 0
        = printed_before out (main_while SIZE_BITS host_u64 v fuel r' d' 0).
Proof.
  induction recs as [|rec recs IH]; intros r d d' out HR Hall Hrun.
  { cbn in Hrun. injection Hrun as <- <-. exists r. split; [exact HR|].
    intros fuel. cbn [length Nat.add].
    by destruct (main_while SIZE_BITS host_u64 v fuel r d 0). }
  apply Forall_cons in Hall as [Hrec Hall].
  unfold capture_bytes in HR. cbn [map concat] in HR. rewrite <- app_assoc in HR.
  fold (capture_bytes recs) in HR.
  destruct rec as [b8 bv]. unfold record_bytes in HR. cbn [fst snd] in HR, Hrec.
  rewrite <- app_assoc in HR.
  destruct (lpcDecFileBufReaderGetU64_ok r b8 _ HR Hrec) as (r1 & HU64 & HR1).
  destruct (lpcDecFileBufReaderGetU8_ok r1 bv _ HR1) as (r2 & HU8 & HR2).
  cbn [map] in Hrun. unfold record_sample at 1 in Hrun. cbn [fst snd] in Hrun.
  change (main_loop v d ((host_u64 b8, bv) :: map (record_sample host_u64) recs))
    with ('(rc, d0, out0) ← lpcDecStateSampleProcess v d (host_u64 b8) bv;
          if rc =? 0
          then '(d2, out') ← main_loop v d0 (map (record_sample host_u64) recs);
               Some (d2, out0 ++ out')
          else Some (d0, out0)) in Hrun.
  destruct (lpcDecStateSampleProcess v d (host_u64 b8) bv) as [[[rc d1] out1]|] eqn:Hp;
    [|discriminate].
  destruct (pins_lpcDecStateSampleProcess _ _ _ _ _ _ _ Hp) as (_ & -> & _).
  cbn [mbind option_bind] in Hrun. change (0 =? 0) with true in Hrun. cbv iota in Hrun.
  destruct (main_loop v d1 (map (record_sample host_u64) recs)) as [[d2 out2]|] eqn:Hrest;
    [|discriminate].
  cbn [mbind option_bind] in Hrun. injection Hrun as <- <-.
  destruct (IH r2 d1 d2 out2 HR2 Hall Hrest) as (r' & HR' & Hloop).
  exists r'. split; [exact HR'|]. intros fuel.
  cbn [length Nat.add main_while]. unfold lpcDecFileBufReaderHasEos.
  destruct HR as (_ & -> & _).
  change (negb (c_true 0) && negb (c_true 0)) with true. cbv iota.
  rewrite HU64, HU8, Hp, Hloop.
  destruct (main_while SIZE_BITS host_u64 v fuel r' d2 0); cbn [printed_before];
    by rewrite ?app_assoc.
Qed.

Lemma main_on_capture mem recs tail errno' d out :
  capture_bytes recs ++ tail <> [] ->
  Forall (fun rec => length rec.1 = 8%nat) recs ->
  main_loop v (lpcDecStateInit mem 0 1 5 4 3 2) (map (record_sample host_u64) recs)
  = Some (d, out) ->
  exists r',
    Reading r' tail /\
    forall fuel,
      main SIZE_BITS host_u64 v mem (Some (capture_bytes recs ++ tail)) errno'
        (length recs + fuel)
      = printed_before out (main_while SIZE_BITS host_u64 v fuel r' d 0).
Proof.
  intros Hne Hall Hrun.
  pose proof (lpcDecFileBufReaderCreate_eq (capture_bytes recs ++ tail) errno') as Hcreate.
  destruct (decide (capture_bytes recs ++ tail = [])) as [|_]; [done|].
  destruct (lpcDecFileBufReaderCreate_Reading _ _ _ _ Hcreate) as (_ & HR).
  destruct (main_while_records tail recs _ _ _ _ HR Hall Hrun) as (r' & HR' & Hloop).
  exists r'. split; [exact HR'|]. intros fuel.
  unfold main. rewrite Hcreate. change (negb (c_true 0)) with true. cbv iota.
  apply Hloop.
Qed.

(** No capture of whole records is read to its end.  On a file of 9-byte
    records, followed by fewer than eight further bytes or none, [main]
    runs every record through the decoder and then, instead of leaving the
    loop, calls [memmove] with a length that wrapped around: the run ends in
    an access outside the buffer, after the [printf] calls for the
    records. *)
Theorem main_faults_after_capture
    (mem : LPCDEC) (recs : list (list Z * Z)) (tail : list Z) (errno' : Z) :
  wf mem ->
  Forall (fun rec => length rec.1 = 8%nat) recs ->
  (length tail < 8)%nat ->
  capture_bytes recs ++ tail <> [] ->
  exists d out,
    main_loop v (lpcDecStateInit mem 0 1 5 4 3 2) (map (record_sample host_u64) recs)
    = Some (d, out) /\
    forall fuel, (length recs < fuel)%nat ->
      main SIZE_BITS host_u64 v mem (Some (capture_bytes recs ++ tail)) errno' fuel
      = MainFault out.
Proof.
  intros Hwf Hall Htail Hne.
  destruct (init_run_good v mem 0 1 5 4 3 2 (map (record_sample host_u64) recs) Hwf)
    as (d & out & Hrun & _).
  exists d, out. split; [exact Hrun|]. intros fuel Hfuel.
  destruct (main_on_capture mem recs tail errno' d out Hne Hall Hrun) as (r' & HR' & Hmain).
  replace fuel with (length recs + S (fuel - length recs - 1))%nat by lia.
  rewrite Hmain, (main_while_short_tail r' tail) by done.
  cbn [printed_before]. by rewrite app_nil_r.
Qed.

(** [main_loop] over a capture followed by one more sample. *)
Lemma main_loop_snoc samples : forall d d1 out1 uSeqNo bVal rc d2 out2,
  main_loop v d samples = Some (d1, out1) ->
  lpcDecStateSampleProcess v d1 uSeqNo bVal = Some (rc, d2, out2) ->
  main_loop v d (samples ++ [(uSeqNo, bVal)]) = Some (d2, out1 ++ out2).
Proof.
  induction samples as [|[n b] rest IH]; intros d d1 out1 uSeqNo bVal rc d2 out2 Hrun Hp.
  - cbn in Hrun. injection Hrun as <- <-. cbn [app main_loop]. rewrite Hp.
    cbn [mbind option_bind]. destruct (rc =? 0); by rewrite ?app_nil_r.
  - cbn [app]. 
    change (main_loop v d ((n, b) :: rest ++ [(uSeqNo, bVal)]))
      with ('(rc, d0, out0) ← lpcDecStateSampleProcess v d n b;
            if rc =? 0
            then '(d3, out') ← main_loop v d0 (rest ++ [(uSeqNo, bVal)]);
                 Some (d3, out0 ++ out')
            else Some (d0, out0)).
    change (main_loop v d ((n, b) :: rest))
      with ('(rc, d0, out0) ← lpcDecStateSampleProcess v d n b;
            if rc =? 0
            then '(d3, out') ← main_loop v d0 rest; Some (d3, out0 ++ out')
            else Some (d0, out0)) in Hrun.
    destruct (lpcDecStateSampleProcess v d n b) as [[[rc0 d0] out0]|] eqn:Hp0;
      [|discriminate].
    destruct (pins_lpcDecStateSampleProcess _ _ _ _ _ _ _ Hp0) as (_ & -> & _).
    cbn [mbind option_bind] in Hrun |- *. change (0 =? 0) with true in Hrun |- *.
    cbv iota in Hrun |- *.
    destruct (main_loop v d0 rest) as [[d3 out3]|] eqn:Hrest; [|discriminate].
    cbn [mbind option_bind] in Hrun. injection Hrun as <- <-.
    rewrite (IH d0 d3 out3 uSeqNo bVal rc d2 out2 Hrest Hp).
    cbn [mbind option_bind]. by rewrite app_assoc.
Qed.

(** ** Where the buffer starts *)

Lemma Window_Reading r file origin :
  Window r file origin -> Reading r (drop (Z.to_nat (origin + offBuf r)) file).
Proof.
  intros (He & Hs & Hlen & Horg & Hoff & Hcd & Hbuf & Hfile).
  assert (cbData r <= ABBUF_SIZE) as Hle by lia.
  repeat split; try done; try lia.
  rewrite Hfile.
  replace (Z.to_nat (cbData r - offBuf r))
    with (Z.to_nat (cbData r) - Z.to_nat (offBuf r))%nat by lia.
  rewrite <- (skipn_firstn_comm (Z.to_nat (offBuf r)) (Z.to_nat (cbData r))).
  rewrite Hbuf, skipn_firstn_comm, drop_drop.
  replace (Z.to_nat origin + Z.to_nat (offBuf r))%nat
    with (Z.to_nat (origin + offBuf r)) by lia.
  set (D := drop (Z.to_nat (origin + offBuf r)) file).
  replace (drop (Z.to_nat (origin + cbData r)) file)
    with (drop (Z.to_nat (cbData r) - Z.to_nat (offBuf r)) D).
  - by rewrite take_drop.
  - unfold D. rewrite drop_drop. f_equal. lia.
Qed.

Lemma lpcDecFileBufReaderCreate_Window (file : list Z) (errno' : Z) rc r :
  lpcDecFileBufReaderCreate (Some file) errno' = Some (rc, Some r) ->
  Window r file 0 /\ offBuf r = 0.
Proof.
  intros Hr. rewrite lpcDecFileBufReaderCreate_eq in Hr.
  destruct (decide (file = [])) as [->|Hne]; [discriminate|].
  injection Hr as <- <-.
  assert (length file <> 0%nat) as Hlen by (by destruct file).
  unfold Window. cbn [fError fEos abBuf offBuf cbData pFile].
  set (size := Z.to_nat ABBUF_SIZE).
  assert (Z.of_nat size = ABBUF_SIZE) as Hsize by (apply Z2Nat.id; by unfold ABBUF_SIZE).
  assert (0 < ABBUF_SIZE) as Hpos by (unfold ABBUF_SIZE; lia).
  clearbody size.
  split; [|reflexivity].
  split; [reflexivity|]. split; [reflexivity|].
  split; [rewrite length_app, length_take, length_replicate; lia|].
  split; [lia|]. split; [lia|]. split; [f_equal; lia|].
  change (Z.to_nat 0) with 0%nat. rewrite drop_0.
  split.
  - rewrite take_app_le by (rewrite length_take; lia).
    rewrite take_take. f_equal. lia.
  - destruct (Nat.le_gt_cases (length file) size) as [Hle|Hgt].
    + rewrite !drop_ge by lia. reflexivity.
    + f_equal. lia.
Qed.

(** [lpcDecFileBufReaderEnsureData] when the bytes asked for are in the
    file: either they are in the buffer already, or the buffer is refilled
    and starts at the read position afterwards. *)
Lemma lpcDecFileBufReaderEnsureData_Window r file origin cb :
  Window r file origin ->
  1 <= cb <= 8 ->
  origin + offBuf r + cb <= Z.of_nat (length file) ->
  exists r',
    lpcDecFileBufReaderEnsureData SIZE_BITS r cb = Some (0, r') /\
    Window r' file (if offBuf r + cb <=? cbData r then origin else origin + offBuf r) /\
    offBuf r' = (if offBuf r + cb <=? cbData r then offBuf r else 0) /\
    offBuf r' + cb <= cbData r'.
Proof.
  intros HW Hcb Hpos. pose proof HW as (He & Hs & Hlen & Horg & Hoff & Hcd & Hbuf & Hfile).
  pose proof (Window_Reading r file origin HW) as HR.
  assert (ABBUF_SIZE = 65536) as HS by reflexivity.
  unfold lpcDecFileBufReaderEnsureData.
  rewrite size_t_small by (change (2 ^ 17) with 131072; lia).
  destruct (Z.leb_spec (offBuf r + cb) (cbData r)) as [Hfit|Hrefill].
  { exists r. split; [done|]. split; [done|]. split; [done|lia]. }
  set (L := Z.of_nat (length file)) in *.
  set (rem := cbData r - offBuf r) in *.
  assert (0 <= rem < cb) as Hrem by (unfold rem; lia).
  rewrite size_t_small by (change (2 ^ 17) with 131072; lia).
  set (bytes := take (Z.to_nat rem) (drop (Z.to_nat (offBuf r)) (abBuf r))).
  assert (length bytes = Z.to_nat rem) as Hbytes
    by (unfold bytes; rewrite length_take, length_drop; lia).
  assert (bytes = take (Z.to_nat rem) (drop (Z.to_nat (origin + offBuf r)) file)) as Hbytes'.
  { unfold bytes, rem.
    replace (Z.to_nat (cbData r - offBuf r))
      with (Z.to_nat (cbData r) - Z.to_nat (offBuf r))%nat by lia.
    rewrite <- (skipn_firstn_comm (Z.to_nat (offBuf r)) (Z.to_nat (cbData r))).
    rewrite Hbuf, skipn_firstn_comm, drop_drop. do 2 f_equal. lia. }
  unfold memmove_front. rewrite buf_load_Some by lia. fold bytes.
  cbn [mbind option_bind]. rewrite buf_store_Some by lia.
  cbn [mbind option_bind]. change (Z.to_nat 0) with 0%nat.
  rewrite take_0, app_nil_l, Nat.add_0_l.
  set (buf1 := bytes ++ drop (length bytes) (abBuf r)).
  assert (length buf1 = length (abBuf r)) as Hbuf1
    by (unfold buf1; rewrite length_app, length_drop; lia).
  rewrite size_t_small by (change (2 ^ 17) with 131072; lia).
  unfold fread. set (count := ABBUF_SIZE - rem).
  set (read := take (Z.to_nat count) (pFile r)).
  assert (Z.of_nat (length (pFile r)) = L - (origin + cbData r)) as Hplen
    by (rewrite Hfile, length_drop; unfold L; lia).
  assert (length read = Nat.min (Z.to_nat count) (length (pFile r))) as Hread
    by (unfold read; by rewrite length_take).
  assert (count = 65536 - rem) as Hcount by (unfold count; lia).
  clearbody count.
  rewrite buf_store_Some by lia.
  cbn [mbind option_bind].
  rewrite size_t_small by (change (2 ^ 17) with 131072; lia).
  assert (c_true (Z.of_nat (length read)) = true) as ->.
  { unfold c_true. destruct (Z.eqb_spec (Z.of_nat (length read)) 0); [lia|done]. }
  eexists. split; [reflexivity|].
  split; [|cbn [offBuf cbData]; lia].
  unfold Window. cbn [fError fEos abBuf offBuf cbData pFile]. fold L.
  split; [done|]. split; [done|].
  split; [rewrite stored_length by lia; lia|].
  split; [lia|]. split; [lia|]. split; [lia|].
  assert (take (Z.to_nat rem) buf1 = bytes) as Htb
    by (unfold buf1; rewrite <- Hbytes; apply take_app_length).
  split.
  - replace (Z.to_nat (Z.of_nat (length read) + rem))
      with (length (take (Z.to_nat rem) buf1 ++ read))
      by (rewrite length_app, length_take; lia).
    rewrite (app_assoc (take _ buf1)), take_app_length, Htb.
    rewrite length_app, Hbytes.
    rewrite <- take_take_drop, <- Hbytes'. f_equal.
    rewrite drop_drop.
    replace (Z.to_nat (origin + offBuf r) + Z.to_nat rem)%nat
      with (Z.to_nat (origin + cbData r)) by (unfold rem; lia).
    rewrite <- Hfile. unfold read. rewrite length_take.
    destruct (Nat.le_gt_cases (Z.to_nat count) (length (pFile r))) as [Hle|Hgt].
    + by rewrite Nat.min_l.
    + rewrite Nat.min_r by lia. by rewrite !take_ge by lia.
  - rewrite Hfile, drop_drop.
    destruct (Z.le_gt_cases (Z.of_nat (length (pFile r))) count) as [Hle|Hgt].
    + rewrite !drop_ge by lia. reflexivity.
    + f_equal. lia.
Qed.

Lemma lpcDecFileBufReaderGetU64_Window r file origin :
  Window r file origin ->
  origin + offBuf r + 8 <= Z.of_nat (length file) ->
  exists x r1,
    lpcDecFileBufReaderGetU64 SIZE_BITS host_u64 r = Some (x, r1) /\
    Window r1 file (if offBuf r + 8 <=? cbData r then origin else origin + offBuf r) /\
    offBuf r1 = (if offBuf r + 8 <=? cbData r then offBuf r + 8 else 8).
Proof.
  intros HW Hpos.
  destruct (lpcDecFileBufReaderEnsureData_Window r file origin 8 HW)
    as (r' & Hens & HW' & Hoff' & Hfit); [lia|lia|].
  set (origin' := if offBuf r + 8 <=? cbData r then origin else origin + offBuf r) in *.
  pose proof HW' as (He & Hs & Hlen & Horg & Hoff & Hcd & Hbuf & Hfile).
  assert (ABBUF_SIZE = 65536) as HS by reflexivity.
  unfold lpcDecFileBufReaderGetU64, lpcDecFileBufReaderHasError.
  destruct HW as (-> & _). change (c_true 0) with false. cbv iota.
  rewrite Hens. cbn [mbind option_bind]. change (c_true 0) with false. cbv iota.
  rewrite buf_load_Some by lia. cbn [mbind option_bind].
  unfold u32. rewrite Z.mod_small by lia.
  eexists _, _. split; [reflexivity|].
  split; [|cbn [offBuf]; destruct (offBuf r + 8 <=? cbData r); lia].
  unfold Window. cbn [fError fEos abBuf offBuf cbData pFile].
  repeat split; try done; lia.
Qed.

Lemma lpcDecFileBufReaderGetU8_Window r file origin :
  Window r file origin ->
  origin + offBuf r + 1 <= Z.of_nat (length file) ->
  exists x r1,
    lpcDecFileBufReaderGetU8 SIZE_BITS r = Some (x, r1) /\
    Window r1 file (if offBuf r + 1 <=? cbData r then origin else origin + offBuf r) /\
    offBuf r1 = (if offBuf r + 1 <=? cbData r then offBuf r + 1 else 1).
Proof.
  intros HW Hpos.
  destruct (lpcDecFileBufReaderEnsureData_Window r file origin 1 HW)
    as (r' & Hens & HW' & Hoff' & Hfit); [lia|lia|].
  set (origin' := if offBuf r + 1 <=? cbData r then origin else origin + offBuf r) in *.
  pose proof HW' as (He & Hs & Hlen & Horg & Hoff & Hcd & Hbuf & Hfile).
  assert (ABBUF_SIZE = 65536) as HS by reflexivity.
  unfold lpcDecFileBufReaderGetU8, lpcDecFileBufReaderHasError.
  destruct HW as (-> & _). change (c_true 0) with false. cbv iota.
  rewrite Hens. cbn [mbind option_bind]. change (c_true 0) with false. cbv iota.
  rewrite buf_load_Some by lia. cbn [mbind option_bind].
  change (Z.to_nat 1) with 1%nat.
  destruct (drop (Z.to_nat (offBuf r')) (abBuf r')) as [|b rest] eqn:Hdrop.
  { apply (f_equal length) in Hdrop. rewrite length_drop in Hdrop. cbn [length] in Hdrop. lia. }
  cbn [take head mbind option_bind]. unfold u32. rewrite Z.mod_small by lia.
  eexists _, _. split; [reflexivity|].
  split; [|cbn [offBuf]; destruct (offBuf r + 1 <=? cbData r); lia].
  unfold Window. cbn [fError fEos abBuf offBuf cbData pFile].
  repeat split; try done; lia.
Qed.

(** A record read from its boundary.  The buffer starts at a multiple of
    [REFILL_STRIDE], at most one stride before the record; it is refilled
    exactly when the record lies one stride from its start. *)
Lemma reader_record_Window r file origin k j :
  Window r file origin ->
  0 <= k -> origin = REFILL_STRIDE * k ->
  offBuf r = 9 * j -> offBuf r <= REFILL_STRIDE ->
  origin + offBuf r + 17 <= Z.of_nat (length file) ->
  exists x1 r1 x2 r2 k' j',
    lpcDecFileBufReaderGetU64 SIZE_BITS host_u64 r = Some (x1, r1) /\
    lpcDecFileBufReaderGetU8 SIZE_BITS r1 = Some (x2, r2) /\
    Window r2 file (REFILL_STRIDE * k') /\ 0 <= k' /\
    offBuf r2 = 9 * j' /\
    REFILL_STRIDE * k' + offBuf r2 = origin + offBuf r + 9 /\
    offBuf r2 <= REFILL_STRIDE.
Proof.
  intros HW Hk Horigin Hj Hstride Hpos.
  assert (REFILL_STRIDE = 65529) as HP by reflexivity.
  assert (ABBUF_SIZE = 65536) as HS by reflexivity.
  pose proof HW as (_ & _ & _ & _ & Hoff & Hcd & _).
  destruct (lpcDecFileBufReaderGetU64_Window r file origin HW)
    as (x1 & r1 & HU64 & HW1 & Hoff1); [lia|].
  destruct (Z.leb_spec (offBuf r + 8) (cbData r)) as [Hfit|Hrefill].
  - (* the record is in the buffer *)
    pose proof HW1 as (_ & _ & _ & _ & _ & Hcd1 & _).
    destruct (lpcDecFileBufReaderGetU8_Window r1 file origin HW1)
      as (x2 & r2 & HU8 & HW2 & Hoff2); [lia|].
    destruct (Z.leb_spec (offBuf r1 + 1) (cbData r1)) as [Hfit1|Hrefill1]; [|lia].
    exists x1, r1, x2, r2, k, (j + 1). rewrite <- Horigin.
    split; [done|]. split; [done|]. split; [done|]. split; [done|]. lia.
  - (* the buffer is refilled and starts at the record *)
    assert (offBuf r = REFILL_STRIDE) as Hat by lia.
    pose proof HW1 as (_ & _ & _ & _ & _ & Hcd1 & _).
    destruct (lpcDecFileBufReaderGetU8_Window r1 file _ HW1)
      as (x2 & r2 & HU8 & HW2 & Hoff2); [lia|].
    destruct (Z.leb_spec (offBuf r1 + 1) (cbData r1)) as [Hfit1|Hrefill1]; [|lia].
    exists x1, r1, x2, r2, (k + 1), 1.
    replace (REFILL_STRIDE * (k + 1)) with (origin + offBuf r) by lia.
    split; [done|]. split; [done|]. split; [done|]. lia.
Qed.

Lemma capture_bytes_length recs :
  Forall (fun rec : list Z * Z => length rec.1 = 8%nat) recs ->
  Z.of_nat (length (capture_bytes recs)) = 9 * Z.of_nat (length recs).
Proof.
  induction 1 as [|[b8 bv] recs Hrec _ IH]; [reflexivity|].
  unfold capture_bytes in *. cbn [map concat length].
  unfold record_bytes at 1. cbn [fst snd] in *.
  rewrite !length_app. cbn [length]. lia.
Qed.

(** The loop of [main] over the records of a capture, with the place of
    the buffer in the file. *)
Lemma main_while_records_Window file tail recs :
  length tail = 8%nat ->
  forall r k j d d' out,
    Window r file (REFILL_STRIDE * k) -> 0 <= k ->
    offBuf r = 9 * j -> offBuf r <= REFILL_STRIDE ->
    drop (Z.to_nat (REFILL_STRIDE * k + offBuf r)) file = capture_bytes recs ++ tail ->
    Forall (fun rec => length rec.1 = 8%nat) recs ->
    main_loop v d (map (record_sample host_u64) recs) = Some (d', out) ->
    exists r' k',
      Window r' file (REFILL_STRIDE * k') /\ 0 <= k' /\
      offBuf r' <= REFILL_STRIDE /\
      drop (Z.to_nat (REFILL_STRIDE * k' + offBuf r')) file = tail /\
      forall fuel,
        main_while SIZE_BITS host_u64 v (length recs + fuel) r d 0
        = printed_before out (main_while SIZE_BITS host_u64 v fuel r' d' 0).
Proof.
  intros Htail.
  induction recs as [|rec recs IH]; intros r k j d d' out HW Hk Hj Hstride Hdrop Hall Hrun.
  { cbn in Hrun. injection Hrun as <- <-. exists r, k.
    split; [done|]. split; [done|]. split; [done|]. split; [done|].
    intros fuel. cbn [length Nat.add].
    by destruct (main_while SIZE_BITS host_u64 v fuel r d 0). }
  pose proof (capture_bytes_length _ Hall) as Hclen.
  apply Forall_cons in Hall as [Hrec Hall].
  assert (REFILL_STRIDE = 65529) as HP by reflexivity.
  pose proof HW as (_ & Hs & _ & _ & Hoff & _).
  assert (REFILL_STRIDE * k + offBuf r + 17 <= Z.of_nat (length file)) as Hpos.
  { apply (f_equal length) in Hdrop. rewrite length_drop, length_app in Hdrop.
    cbn [length] in Hclen. lia. }
  destruct (reader_record_Window r file _ k j HW Hk eq_refl Hj Hstride Hpos)
    as (x1 & r1 & x2 & r2 & k' & j' & HU64 & HU8 & HW2 & Hk' & Hj2 & Hpos2 & Hstride2).
  (* what was read *)
  pose proof (Window_Reading r file _ HW) as HR. rewrite Hdrop in HR.
  unfold capture_bytes in HR. cbn [map concat] in HR. rewrite <- app_assoc in HR.
  fold (capture_bytes recs) in HR.
  destruct rec as [b8 bv]. unfold record_bytes in HR. cbn [fst snd] in HR, Hrec.
  rewrite <- app_assoc in HR.
  destruct (lpcDecFileBufReaderGetU64_ok r b8 _ HR Hrec)
    as (r1' & HU64' & HR1).
  rewrite HU64 in HU64'. injection HU64' as -> <-.
  destruct (lpcDecFileBufReaderGetU8_ok r1 bv _ HR1) as (r2' & HU8' & _).
  rewrite HU8 in HU8'. injection HU8' as -> _.
  (* the decoder *)
  cbn [map] in Hrun. unfold record_sample at 1 in Hrun. cbn [fst snd] in Hrun.
  change (main_loop v d ((host_u64 b8, bv) :: map (record_sample host_u64) recs))
    with ('(rc, d0, out0) ← lpcDecStateSampleProcess v d (host_u64 b8) bv;
          if rc =? 0
          then '(d2, out') ← main_loop v d0 (map (record_sample host_u64) recs);
               Some (d2, out0 ++ out')
          else Some (d0, out0)) in Hrun.
  destruct (lpcDecStateSampleProcess v d (host_u64 b8) bv) as [[[rc d1] out1]|] eqn:Hp;
    [|discriminate].
  destruct (pins_lpcDecStateSampleProcess _ _ _ _ _ _ _ Hp) as (_ & -> & _).
  cbn [mbind option_bind] in Hrun. change (0 =? 0) with true in Hrun. cbv iota in Hrun.
  destruct (main_loop v d1 (map (record_sample host_u64) recs)) as [[d2 out2]|] eqn:Hrest;
    [|discriminate].
  cbn [mbind option_bind] in Hrun. injection Hrun as <- <-.
  assert (drop (Z.to_nat (REFILL_STRIDE * k' + offBuf r2)) file = capture_bytes recs ++ tail)
    as Hdrop2.
  { rewrite Hpos2.
    replace (Z.to_nat (REFILL_STRIDE * k + offBuf r + 9))
      with (Z.to_nat (REFILL_STRIDE * k + offBuf r) + 9)%nat by lia.
    rewrite <- drop_drop, Hdrop. unfold capture_bytes. cbn [map concat].
    rewrite <- app_assoc.
    replace 9%nat with (length (record_bytes (b8, bv)))
      by (unfold record_bytes; cbn [fst snd]; rewrite length_app; cbn [length]; lia).
    by rewrite drop_app_length. }
  destruct (IH r2 k' j' d1 d2 out2 HW2 Hk' Hj2 Hstride2 Hdrop2 Hall Hrest)
    as (r' & k'' & HW' & Hk'' & Hstride' & Hdrop' & Hloop).
  exists r', k''. split; [done|]. split; [done|]. split; [done|]. split; [done|].
  intros fuel. cbn [length Nat.add main_while]. unfold lpcDecFileBufReaderHasEos.
  rewrite Hs. change (negb (c_true 0) && negb (c_true 0)) with true. cbv iota.
  rewrite HU64, HU8, Hp, Hloop.
  destruct (main_while SIZE_BITS host_u64 v fuel r' d2 0); cbn [printed_before];
    by rewrite ?app_assoc.
Qed.

(** [lpcDecFileBufReaderGetU8] when buffer and stream are used up: nothing
    is moved and nothing is read, end of stream is set, and the byte at
    the start of the buffer is returned. *)
Lemma lpcDecFileBufReaderGetU8_at_end r b buf :
  fError r = 0 -> cbData r = offBuf r -> 0 <= offBuf r <= ABBUF_SIZE ->
  pFile r = [] -> abBuf r = b :: buf ->
  length (abBuf r) = Z.to_nat ABBUF_SIZE ->
  lpcDecFileBufReaderGetU8 SIZE_BITS r
  = Some (b, mkLPCDECFILEBUFREAD [] 0 1 0 1 (b :: buf)).
Proof.
  intros He Hempty Hoff Hfile Hbuf Hlen.
  assert (ABBUF_SIZE = 65536) as HS by reflexivity.
  assert (0 < Z.of_nat (length (b :: buf))) as Hpos by (cbn [length]; lia).
  unfold lpcDecFileBufReaderGetU8, lpcDecFileBufReaderHasError.
  rewrite He. change (c_true 0) with false. cbv iota.
  unfold lpcDecFileBufReaderEnsureData.
  rewrite size_t_small by (change (2 ^ 17) with 131072; lia).
  destruct (Z.leb_spec (offBuf r + 1) (cbData r)) as [Hfit|_]; [lia|].
  rewrite Hempty, Z.sub_diag, Hfile, He.
  rewrite (size_t_small 0) by (change (2 ^ 17) with 131072; lia).
  unfold memmove_front. rewrite buf_load_Some by lia.
  change (Z.to_nat 0) with 0%nat. rewrite take_0.
  cbn [mbind option_bind]. rewrite Hbuf.
  rewrite buf_store_Some by (cbn [length]; lia).
  change (Z.to_nat 0) with 0%nat. rewrite take_0, drop_0.
  cbn [mbind option_bind app length Nat.add].
  unfold fread. rewrite take_nil, drop_nil.
  rewrite buf_store_Some by (cbn [length]; lia).
  change (Z.to_nat 0) with 0%nat. rewrite take_0.
  cbn [mbind option_bind app length Nat.add]. rewrite drop_0.
  change (Z.of_nat 0) with 0. change (0 + 0) with 0.
  rewrite (size_t_small 0) by (change (2 ^ 17) with 131072; lia).
  change (c_true 0) with false. cbv iota.
  cbn [abBuf offBuf cbData pFile fError fEos].
  rewrite buf_load_Some by (cbn [length]; lia).
  change (Z.to_nat 0) with 0%nat. change (Z.to_nat 1) with 1%nat. rewrite drop_0.
  reflexivity.
Qed.

(** When exactly eight bytes are left, they are taken for a sequence
    number; the sample byte that is not there makes the reader set end of
    stream, and the byte at the start of the buffer is returned for it:
    the byte of the file at which the buffer was last refilled. *)
Lemma main_while_eight_tail r file k tail :
  Window r file (REFILL_STRIDE * k) -> 0 <= k ->
  offBuf r <= REFILL_STRIDE ->
  drop (Z.to_nat (REFILL_STRIDE * k + offBuf r)) file = tail ->
  length tail = 8%nat ->
  exists b,
    file !! Z.to_nat (REFILL_STRIDE * ((Z.of_nat (length file) - 8) / REFILL_STRIDE)) = Some b /\
    forall d fuel,
      main_while SIZE_BITS host_u64 v (S (S fuel)) r d 0
      = match lpcDecStateSampleProcess v d (host_u64 tail) b with
        | Some (_, _, out) => MainReturned out
        | None => MainFault []
        end.
Proof.
  intros HW Hk Hstride Hdrop Htail.
  assert (REFILL_STRIDE = 65529) as HP by reflexivity.
  assert (ABBUF_SIZE = 65536) as HS by reflexivity.
  pose proof HW as (_ & Hs & _ & _ & Hoff & Hcd & _).
  set (L := Z.of_nat (length file)) in *.
  assert (L - (REFILL_STRIDE * k + offBuf r) = 8) as Hpos.
  { apply (f_equal length) in Hdrop. rewrite length_drop in Hdrop. unfold L. lia. }
  destruct (lpcDecFileBufReaderGetU64_Window r file _ HW)
    as (x & r1 & HU64 & HW1 & Hoff1); [fold L; lia|].
  pose proof (Window_Reading r file _ HW) as HR.
  rewrite Hdrop, <- (app_nil_r tail) in HR.
  destruct (lpcDecFileBufReaderGetU64_ok r tail [] HR Htail) as (r1' & HU64' & _).
  rewrite HU64 in HU64'. injection HU64' as -> _.
  set (origin1 := if offBuf r + 8 <=? cbData r
                  then REFILL_STRIDE * k else REFILL_STRIDE * k + offBuf r) in *.
  assert (origin1 = REFILL_STRIDE * ((L - 8) / REFILL_STRIDE)) as Horigin.
  { unfold origin1. rewrite HP in *.
    destruct (Z.leb_spec (offBuf r + 8) (cbData r)) as [Hfit|Hrefill].
    - replace (L - 8) with (offBuf r + k * 65529) by lia.
      rewrite Z.div_add, Z.div_small by lia. lia.
    - replace (L - 8) with ((k + 1) * 65529) by lia.
      rewrite Z.div_mul by lia. lia. }
  pose proof HW1 as (He1 & _ & Hlen1 & Horg1 & Hoffr1 & Hcd1 & Hbuf1 & Hfile1).
  fold L in Hcd1.
  assert (L - origin1 = offBuf r1 /\ 8 <= offBuf r1) as [Hrest Hge].
  { unfold origin1 in *. destruct (offBuf r + 8 <=? cbData r); lia. }
  assert (cbData r1 = offBuf r1) as Hempty by lia.
  assert (pFile r1 = []) as Hnil by (rewrite Hfile1; apply drop_ge; unfold L in *; lia).
  destruct (abBuf r1) as [|b buf] eqn:Hbuf; [cbn [length] in Hlen1; lia|].
  exists b. split.
  - rewrite <- Horigin.
    destruct (drop (Z.to_nat origin1) file) as [|b' rest] eqn:Hd.
    { apply (f_equal length) in Hd. rewrite length_drop in Hd. cbn [length] in Hd.
      unfold L in *. lia. }
    replace (Z.to_nat (cbData r1)) with (S (Z.to_nat (cbData r1) - 1)) in Hbuf1 by lia.
    cbn [take] in Hbuf1. injection Hbuf1 as -> _.
    replace (Z.to_nat origin1) with (Z.to_nat origin1 + 0)%nat by lia.
    by rewrite <- lookup_drop, Hd.
  - intros d fuel.
    cbn [main_while]. unfold lpcDecFileBufReaderHasEos at 1. rewrite Hs.
    change (negb (c_true 0) && negb (c_true 0)) with true. cbv iota.
    rewrite HU64.
    rewrite (lpcDecFileBufReaderGetU8_at_end r1 b buf); try done; [|lia|by rewrite Hbuf].
    destruct (lpcDecStateSampleProcess v d (host_u64 tail) b) as [[[rc d1] out1]|];
      [|reflexivity].
    unfold lpcDecFileBufReaderHasEos. cbn [fEos].
    change (negb (c_true 1)) with false. cbn [andb printed_before].
    by rewrite app_nil_r.
Qed.

(** The one way out of the loop.  On a file of 9-byte records followed by
    exactly eight more bytes, [main] runs every record through the decoder
    and then one sample that is in no record: the eight bytes as its
    sequence number, and as its value the byte at the start of the buffer.
    That is the byte of the file at which the buffer was last refilled,
    the largest multiple of 65529 not above the offset of the eight bytes,
    so the first byte of the file when the capture is at most 64 KiB long.
    End of stream is set while that byte is fetched, and the loop is
    left. *)
Theorem main_returns_after_stray_bytes
    (mem : LPCDEC) (recs : list (list Z * Z)) (tail : list Z) (errno' : Z) :
  wf mem ->
  Forall (fun rec => length rec.1 = 8%nat) recs ->
  length tail = 8%nat ->
  exists b d out,
    (capture_bytes recs ++ tail)
      !! Z.to_nat (REFILL_STRIDE * (9 * Z.of_nat (length recs) / REFILL_STRIDE)) = Some b /\
    main_loop v (lpcDecStateInit mem 0 1 5 4 3 2)
      (map (record_sample host_u64) recs ++ [(host_u64 tail, b)])
    = Some (d, out) /\
    forall fuel, (length recs + 1 < fuel)%nat ->
      main SIZE_BITS host_u64 v mem (Some (capture_bytes recs ++ tail)) errno' fuel
      = MainReturned out.
Proof.
  intros Hwf Hall Htail.
  set (file := capture_bytes recs ++ tail).
  assert (file <> []) as Hne.
  { intros E. apply app_eq_nil in E as [_ ->]. cbn [length] in Htail. lia. }
  assert (Z.of_nat (length file) - 8 = 9 * Z.of_nat (length recs)) as Hlen.
  { unfold file. rewrite length_app, Nat2Z.inj_add, capture_bytes_length by done. lia. }
  pose proof (lpcDecStateInit_Inv mem 0 1 5 4 3 2 Hwf) as HInv.
  destruct (main_loop_Inv v (map (record_sample host_u64) recs) _ HInv)
    as (d1 & out1 & Hrun & HInv1).
  pose proof (lpcDecFileBufReaderCreate_eq file errno') as Hcreate.
  destruct (decide (file = [])) as [|_]; [done|].
  destruct (lpcDecFileBufReaderCreate_Window _ _ _ _ Hcreate) as (HW & Hoff).
  match type of Hcreate with _ = Some (_, Some ?x) => set (r := x) in *; clearbody r end.
  change 0 with (REFILL_STRIDE * 0) in HW.
  destruct (main_while_records_Window file tail recs Htail r 0 0
              (lpcDecStateInit mem 0 1 5 4 3 2) d1 out1 HW)
    as (r' & k' & HW' & Hk' & Hstride' & Hdrop' & Hloop);
    [lia|lia|rewrite Hoff; by unfold REFILL_STRIDE|by rewrite Hoff|done|done|].
  destruct (main_while_eight_tail r' file k' tail HW' Hk' Hstride' Hdrop' Htail)
    as (b & Hb & Hend).
  destruct (lpcDecStateSampleProcess_Inv v d1 (host_u64 tail) b HInv1)
    as (d2 & out2 & Hp & _).
  exists b, d2, (out1 ++ out2).
  split; [by rewrite <- Hlen|].
  split; [by apply (main_loop_snoc _ _ d1 out1 _ _ 0 d2 out2)|].
  intros fuel Hfuel.
  replace fuel with (length recs + S (S (fuel - length recs - 2)))%nat by lia.
  unfold main. rewrite Hcreate. change (negb (c_true 0)) with true. cbv iota.
  by rewrite Hloop, Hend, Hp.
Qed.

End ReaderProperties.


Lemma reader_delivers_record_witness :
  exists r r1 r2,
    lpcDecFileBufReaderCreate (Some (capture_bytes ex_records)) 0 = Some (0, Some r) /\
    lpcDecFileBufReaderGetU64 64 ex_le_u64 r
    = Some (ex_le_u64 [100; 0; 0; 0; 0; 0; 0; 0], r1) /\
    lpcDecFileBufReaderGetU8 64 r1 = Some (ref_sample 1 0 0, r2) /\
    Reading r2 (record_bytes ([101; 0; 0; 0; 0; 0; 0; 0], ref_sample 0 0 0)) /\
    lpcDecFileBufReaderHasEos r2 = 0 /\ lpcDecFileBufReaderHasError r2 = 0.
Proof.
  pose proof (lpcDecFileBufReaderCreate_eq (capture_bytes ex_records) 0) as Heq.
  destruct (decide (capture_bytes ex_records = [])) as [E|_]; [discriminate E|].
  match type of Heq with _ = Some (_, Some ?x) => set (r := x) in Heq; clearbody r end.
  destruct (lpcDecFileBufReaderCreate_Reading _ _ _ _ Heq) as (_ & HR).
  change (capture_bytes ex_records)
    with (record_bytes ([100; 0; 0; 0; 0; 0; 0; 0], ref_sample 1 0 0)
          ++ record_bytes ([101; 0; 0; 0; 0; 0; 0; 0], ref_sample 0 0 0)) in HR.
  destruct (reader_delivers_record 64 ex_le_u64 ltac:(lia) r _ _ HR eq_refl)
    as (r1 & r2 & H1 & H2 & H3 & H4 & H5).
  exists r, r1, r2.
  split; [exact Heq|]. split; [exact H1|]. split; [exact H2|]. split; [exact H3|].
  split; [exact H4|exact H5].
Defined.

Lemma main_faults_after_capture_witness :
  exists d out,
    main_loop 1 (lpcDecStateInit ex_memory 0 1 5 4 3 2)
      (map (record_sample ex_le_u64) ex_records) = Some (d, out) /\
    forall fuel, (length ex_records < fuel)%nat ->
      main 64 ex_le_u64 1 ex_memory (Some (capture_bytes ex_records ++ [])) 0 fuel
      = MainFault out.
Proof.
  apply (main_faults_after_capture 64 ex_le_u64 1);
    [lia | reflexivity | repeat constructor | cbn [length]; lia | discriminate].
Defined.

Lemma main_returns_after_stray_bytes_witness :
  exists d out,
    main_loop 1 (lpcDecStateInit ex_memory 0 1 5 4 3 2)
      (map (record_sample ex_le_u64) ex_records
       ++ [(ex_le_u64 [1; 2; 3; 4; 5; 6; 7; 8], 100)])
    = Some (d, out) /\
    forall fuel, (length ex_records + 1 < fuel)%nat ->
      main 64 ex_le_u64 1 ex_memory
        (Some (capture_bytes ex_records ++ [1; 2; 3; 4; 5; 6; 7; 8])) 0 fuel
      = MainReturned out.
Proof.
  destruct (main_returns_after_stray_bytes 64 ex_le_u64 1 ltac:(lia) ex_memory ex_records
              [1; 2; 3; 4; 5; 6; 7; 8] 0) as (b & d & out & Hb & Hrun & Hmain);
    [reflexivity | repeat constructor | reflexivity |].
  vm_compute in Hb. injection Hb as <-.
  exists d, out. split; [exact Hrun|exact Hmain].
Defined.
